(** * state-regulator: the event-log pipeline

    A shallow embedding of the pipeline of the reactive care scheduler:
    the Normalizer and the Core State Reducer of [state.ts] (the revision
    that carries [normalizeEventLog] and the suppression list) and the
    Constraint/Output Projector of [constraints.ts].

    Conventions of the embedding.
    - A UTC instant is a JavaScript number holding a whole number of
      milliseconds; it is a [Z].  Where the source can produce [NaN]
      (an unparseable time stamp, arithmetic on an absent property) the
      number is an [option Z] and [None] is [NaN].  All instants are taken
      inside the ECMAScript time-value range, so that
      [new Date(t).toISOString()] is defined.
    - Fractional quantities (sleep pressure, minutes, utilization) are exact
      rationals [Q] instead of IEEE doubles.
    - [null] is [None]; JavaScript truthiness of a nullable number is
      [truthy]: neither [null] nor [0].
    - The host services ([Intl.DateTimeFormat], the ambient time zone) are a
      record [Host] passed to every function that reaches them. *)

From Stdlib Require Import ZArith List String Bool Lia QArith Qminmax.
From Stdlib Require Import DecimalString Permutation Sorted.
Import ListNotations.
Open Scope Z_scope.

(** ** JavaScript values *)

(** A number that may be [NaN]. *)
Definition num := option Z.
Definition NaN : num := None.

Definition num_add (a b : num) : num :=
  match a, b with Some x, Some y => Some (x + y) | _, _ => NaN end.

Definition num_mul (a b : num) : num :=
  match a, b with Some x, Some y => Some (x * y) | _, _ => NaN end.

(** [a < b] and [a <= b]; every comparison with [NaN] is false. *)
Definition num_ltb (a b : num) : bool :=
  match a, b with Some x, Some y => x <? y | _, _ => false end.

Definition num_leb (a b : num) : bool :=
  match a, b with Some x, Some y => x <=? y | _, _ => false end.

(** [Math.max(...xs)] on a non-empty argument list: [NaN] as soon as one
    argument is [NaN]. *)
Fixpoint Math_max (xs : list num) : num :=
  match xs with
  | [] => NaN
  | [x] => x
  | x :: rest =>
      match x, Math_max rest with
      | Some a, Some b => Some (Z.max a b)
      | _, _ => NaN
      end
  end.

(** Truthiness of a [number | null]. *)
Definition truthy (x : option Z) : bool :=
  match x with Some v => negb (v =? 0) | None => false end.

(** Template-literal rendering of a whole number. *)
Definition string_of_Z (z : Z) : string := NilZero.string_of_int (Z.to_int z).

(** [Math.round(a / b)] for whole [a] and positive whole [b]: round half up. *)
Definition round_div (a b : Z) : Z := (2 * a + b) / (2 * b).

Definition Qltb (x y : Q) : bool := negb (Qle_bool y x).

(** ** Time stamps

    [timestampUtc] is a string that the code only ever reads through
    [Date.parse] and only ever writes through [toISOString].  A time stamp is
    therefore represented by what [Date.parse] makes of it: the instant it
    denotes, or the raw text when it denotes none. *)
Inductive IsoString : Type :=
| Instant (ms : Z)
| Unparseable (raw : string).

Definition Date_parse (s : IsoString) : num :=
  match s with Instant ms => Some ms | Unparseable _ => NaN end.

Definition toISOString (ms : Z) : IsoString := Instant ms.

(** ** types.ts *)

Inductive EventType : Type :=
| FirstAwake | NapStarted | NapEnded | MilkGiven | SolidsGiven
| RoutineStarted | Asleep.

Definition EventType_eqb (a b : EventType) : bool :=
  match a, b with
  | FirstAwake, FirstAwake | NapStarted, NapStarted | NapEnded, NapEnded
  | MilkGiven, MilkGiven | SolidsGiven, SolidsGiven
  | RoutineStarted, RoutineStarted | Asleep, Asleep => true
  | _, _ => false
  end.

Inductive RegulationLevel : Type := low | medium | high.

(** [autoPredicted] is optional in the source; absent reads as [false]. *)
Record CareEvent : Type := mkEvent {
  id : string;
  type : EventType;
  timestampUtc : IsoString;
  autoPredicted : bool
}.

(** An entry of [autoSuppressed]: [{ type, timestampUtc }]. *)
Module Suppressed.
Record entry : Type := mk { type : EventType; timestampUtc : IsoString }.
End Suppressed.

Record CoreState : Type := mkCore {
  lastWakeTime : option Z;
  lastNapStart : option Z;
  lastNapEnd : option Z;
  lastNapDuration : option Z;
  lastFeedTime : option Z;
  timeSinceLastFeed : option Z;
  estimatedSleepPressure : Q;
  regulationLevel : RegulationLevel;
  totalDaySleep : Z
}.

(** [AppState = CoreState & { eventLog, autoSuppressed }]. *)
Record AppState : Type := mkApp {
  core :> CoreState;
  eventLog : list CareEvent;
  autoSuppressed : list Suppressed.entry
}.

Record ConstraintConfig : Type := mkConfig {
  minWakeWindowMin : Z;
  maxWakeWindowMin : Z;
  shortenWakeByMinIfShortNap : Z;
  shortNapThresholdMin : Z;
  lateNapHour : Z;
  bedtimeLatestHour : Z;
  bedtimeLatestMinute : Z;
  bedtimeEarlierByMinIfLateNap : Z;
  routineLatencyMin : Z;
  setupLatencyMin : Z;
  nextNapCapMinIfLateNap : Z;
  feedIntervalMaxMin : Z;
  expectedNapDurationMin : Z;
  (** Read by [buildBaselineEvents] as [defaultConfig.feedIntervalMinMin].
      [None] is a configuration object without that property: the read gives
      [undefined] and the arithmetic on it [NaN]. *)
  feedIntervalMinMin : option Z
}.

(** ** The host: civil time *)

Record ZonedParts : Type := mkParts {
  year : Z; month : Z; day : Z; hour : Z; minute : Z
}.

(** What the code obtains from [Intl]: the ambient time zone
    ([Intl.DateTimeFormat().resolvedOptions().timeZone]), the civil fields of
    an instant in a zone ([formatToParts]) and the short rendering of an
    instant ([format] with hour and minute). *)
Record Host : Type := mkHost {
  ambientTimeZone : string;
  formatToParts : string -> Z -> ZonedParts;
  formatHourMinute : string -> Z -> string
}.

Definition MS_MIN : Z := 60 * 1000.

(** Days from 1970-01-01 to the civil date [y]-[m]-[d] of the proleptic
    Gregorian calendar, [m] counted from 1. *)
Definition daysFromCivil (y m d : Z) : Z :=
  let y' := if m <=? 2 then y - 1 else y in
  let era := y' / 400 in
  let yoe := y' - era * 400 in
  let mp := if 2 <? m then m - 3 else m + 9 in
  let doy := (153 * mp + 2) / 5 + d - 1 in
  let doe := yoe * 365 + yoe / 4 - yoe / 100 + doy in
  era * 146097 + doe - 719468.

(** [Date.UTC(year, monthIndex, day, hour, minute)]. *)
Definition Date_UTC (y mIndex d h mi : Z) : Z :=
  let y := if (0 <=? y) && (y <=? 99) then 1900 + y else y in
  let ym := y + mIndex / 12 in
  let mn := mIndex mod 12 in
  (daysFromCivil ym (mn + 1) 1 + (d - 1)) * 86400000 + h * 3600000 + mi * MS_MIN.

(** The inverse direction, used to build concrete hosts. *)
Definition civilFromDays (z : Z) : Z * Z * Z :=
  let z := z + 719468 in
  let era := z / 146097 in
  let doe := z - era * 146097 in
  let yoe := (doe - doe / 1460 + doe / 36524 - doe / 146096) / 365 in
  let y := yoe + era * 400 in
  let doy := doe - (365 * yoe + yoe / 4 - yoe / 100) in
  let mp := (5 * doy + 2) / 153 in
  let d := doy - (153 * mp + 2) / 5 + 1 in
  let m := if mp <? 10 then mp + 3 else mp - 9 in
  ((if m <=? 2 then y + 1 else y), m, d).

(** A host whose every zone keeps one fixed offset from UTC, given in
    minutes east of Greenwich by [offsetMin]. *)
Definition fixedOffsetParts (offsetMin : string -> Z) (timeZone : string) (utcMs : Z)
  : ZonedParts :=
  let localMin := utcMs / MS_MIN + offsetMin timeZone in
  let days := localMin / 1440 in
  let minOfDay := localMin mod 1440 in
  let '(y, m, d) := civilFromDays days in
  mkParts y m d (minOfDay / 60) (minOfDay mod 60).

Definition pad2 (n : Z) : string :=
  if n <? 10 then ("0" ++ string_of_Z n)%string else string_of_Z n.

(** The en-US rendering with two-digit hour and minute: a 12-hour clock. *)
Definition hourMinute12 (p : ZonedParts) : string :=
  let h12 := (hour p + 11) mod 12 + 1 in
  let suffix := if hour p <? 12 then " AM"%string else " PM"%string in
  (pad2 h12 ++ ":" ++ pad2 (minute p) ++ suffix)%string.

Definition fixedOffsetHost (ambient : string) (offsetMin : string -> Z) : Host :=
  mkHost ambient (fixedOffsetParts offsetMin)
    (fun tz t => hourMinute12 (fixedOffsetParts offsetMin tz t)).

(** Two zones without daylight saving: UTC and Japan Standard Time. *)
Definition zoneOffsets (timeZone : string) : Z :=
  if String.eqb timeZone "Asia/Tokyo" then 540 else 0.

Definition utcHost : Host := fixedOffsetHost "UTC" zoneOffsets.
Definition tokyoHost : Host := fixedOffsetHost "Asia/Tokyo" zoneOffsets.

(** ** constraints.ts: the configuration

    The object literal [defaultConfig] of the constraints.ts at hand.  It
    has no property [feedIntervalMinMin], which the Normalizer and the
    component read from [defaultConfig]: the file is of an earlier revision
    than they are.  The Normalizer therefore takes its configuration as a
    parameter [cfg], and [feedIntervalMinMin] is an optional field. *)
Definition defaultConfig : ConstraintConfig := {|
  minWakeWindowMin := 75;
  maxWakeWindowMin := 130;
  shortenWakeByMinIfShortNap := 15;
  shortNapThresholdMin := 45;
  lateNapHour := 15;
  bedtimeLatestHour := 20;
  bedtimeLatestMinute := 0;
  bedtimeEarlierByMinIfLateNap := 30;
  routineLatencyMin := 25;
  setupLatencyMin := 10;
  nextNapCapMinIfLateNap := 40;
  feedIntervalMaxMin := 180;
  expectedNapDurationMin := 60;
  feedIntervalMinMin := None
|}.

(** ** state.ts: the Core State Reducer

    The reducer of the revision that carries the Normalizer.  Its loop skips
    an event whose time stamp does not parse or lies after [now]; the earlier
    revision of the file, without Normalizer, has the same loop without that
    guard. *)

Definition DAY_START_HOUR : Z := 7.

Definition initialCoreState : CoreState := {|
  lastWakeTime := None;
  lastNapStart := None;
  lastNapEnd := None;
  lastNapDuration := None;
  lastFeedTime := None;
  timeSinceLastFeed := None;
  estimatedSleepPressure := 0 # 1;
  regulationLevel := medium;
  totalDaySleep := 0
|}.

Definition initialAppState : AppState := mkApp initialCoreState [] [].

Definition levelFromSignals (sleepPressure : Q) (timeSinceFeedMin : option Q)
  : RegulationLevel :=
  if Qle_bool (8 # 10) sleepPressure
     || match timeSinceFeedMin with
        | Some m => Qle_bool (180 # 1) m
        | None => false
        end
  then high
  else if Qle_bool sleepPressure (35 # 100)
          && Qltb (match timeSinceFeedMin with Some m => m | None => 0 # 1 end)
               (120 # 1)
  then low
  else medium.

Definition computeSleepPressure
  (lastWakeTime : option Z) (lastNapDurationMin : option Q) (now : Z) : Q :=
  match lastWakeTime with
  | None => 0 # 1
  | Some wake =>
      if wake =? 0 then 0 # 1
      else
        let awakeMin := Qmax (0 # 1) (inject_Z (now - wake) / inject_Z MS_MIN) in
        let napPenalty :=
          match lastNapDurationMin with
          | Some d => if Qltb d (45 # 1) then 15 # 100 else 0 # 1
          | None => 0 # 1
          end in
        Qmin (1 # 1) (awakeMin / (150 # 1) + napPenalty)%Q
  end.

(** Field assignments on the state under construction. *)
Definition set_lastWakeTime (v : option Z) (s : CoreState) : CoreState :=
  mkCore v (lastNapStart s) (lastNapEnd s) (lastNapDuration s) (lastFeedTime s)
    (timeSinceLastFeed s) (estimatedSleepPressure s) (regulationLevel s)
    (totalDaySleep s).

Definition set_lastNapStart (v : option Z) (s : CoreState) : CoreState :=
  mkCore (lastWakeTime s) v (lastNapEnd s) (lastNapDuration s) (lastFeedTime s)
    (timeSinceLastFeed s) (estimatedSleepPressure s) (regulationLevel s)
    (totalDaySleep s).

Definition set_lastNapEnd (v : option Z) (s : CoreState) : CoreState :=
  mkCore (lastWakeTime s) (lastNapStart s) v (lastNapDuration s) (lastFeedTime s)
    (timeSinceLastFeed s) (estimatedSleepPressure s) (regulationLevel s)
    (totalDaySleep s).

Definition set_lastNapDuration (v : option Z) (s : CoreState) : CoreState :=
  mkCore (lastWakeTime s) (lastNapStart s) (lastNapEnd s) v (lastFeedTime s)
    (timeSinceLastFeed s) (estimatedSleepPressure s) (regulationLevel s)
    (totalDaySleep s).

Definition set_lastFeedTime (v : option Z) (s : CoreState) : CoreState :=
  mkCore (lastWakeTime s) (lastNapStart s) (lastNapEnd s) (lastNapDuration s) v
    (timeSinceLastFeed s) (estimatedSleepPressure s) (regulationLevel s)
    (totalDaySleep s).

(** The body of the [for] loop: the pair is [nextState] and the local
    [totalDaySleep]. *)
Definition reduceEvent (now : Z) (acc : CoreState * Z) (event : CareEvent)
  : CoreState * Z :=
  let '(nextState, total) := acc in
  match Date_parse (timestampUtc event) with
  | None => acc
  | Some timestamp =>
      if now <? timestamp then acc
      else
        match type event with
        | FirstAwake =>
            (set_lastNapDuration None
               (set_lastNapEnd None
                  (set_lastNapStart None
                     (set_lastWakeTime (Some timestamp) nextState))),
             total)
        | NapStarted => (set_lastNapStart (Some timestamp) nextState, total)
        | NapEnded =>
            let s1 := set_lastNapEnd (Some timestamp) nextState in
            let '(s2, total') :=
              if truthy (lastNapStart s1) then
                match lastNapStart s1 with
                | Some napStart =>
                    let duration := Z.max 0 (timestamp - napStart) in
                    (set_lastNapDuration (Some duration) s1, total + duration)
                | None => (s1, total)
                end
              else (s1, total) in
            (set_lastWakeTime (Some timestamp) s2, total')
        | MilkGiven | SolidsGiven =>
            (set_lastFeedTime (Some timestamp) nextState, total)
        | Asleep => (set_lastNapStart (Some timestamp) nextState, total)
        | RoutineStarted => acc
        end
  end.

(** [x ? x / MS_MIN : null]. *)
Definition minutesIfTruthy (x : option Z) : option Q :=
  match x with
  | Some v => if v =? 0 then None else Some (inject_Z v / inject_Z MS_MIN)%Q
  | None => None
  end.

Definition recomputeCoreState (events : list CareEvent) (now : Z) : CoreState :=
  let '(nextState, total) := fold_left (reduceEvent now) events (initialCoreState, 0) in
  let sinceFeed :=
    match lastFeedTime nextState with
    | Some feed => if feed =? 0 then None else Some (Z.max 0 (now - feed))
    | None => None
    end in
  let lastNapDurationMin := minutesIfTruthy (lastNapDuration nextState) in
  let pressure :=
    computeSleepPressure (lastWakeTime nextState) lastNapDurationMin now in
  let timeSinceFeedMin := minutesIfTruthy sinceFeed in
  {| lastWakeTime := lastWakeTime nextState;
     lastNapStart := lastNapStart nextState;
     lastNapEnd := lastNapEnd nextState;
     lastNapDuration := lastNapDuration nextState;
     lastFeedTime := lastFeedTime nextState;
     timeSinceLastFeed := sinceFeed;
     estimatedSleepPressure := pressure;
     regulationLevel := levelFromSignals pressure timeSinceFeedMin;
     totalDaySleep := total |}.

(** ** state.ts: the Normalizer *)

Definition BASELINE_TOLERANCE_MIN : Z := 20.

(** [Intl.DateTimeFormat().resolvedOptions().timeZone || "UTC"]. *)
Definition resolveTimeZone (host : Host) : string :=
  if String.eqb (ambientTimeZone host) "" then "UTC"%string
  else ambientTimeZone host.

Definition getZonedParts (host : Host) (utcMs : Z) (timeZone : string) : ZonedParts :=
  formatToParts host timeZone utcMs.

Definition getTimeZoneOffsetMs (host : Host) (utcMs : Z) (timeZone : string) : Z :=
  let parts := getZonedParts host utcMs timeZone in
  let asUtc :=
    Date_UTC (year parts) (month parts - 1) (day parts) (hour parts) (minute parts) in
  utcMs - asUtc.

Definition getUtcMsFromZoned (host : Host) (zoned : ZonedParts) (timeZone : string) : Z :=
  let tentative :=
    Date_UTC (year zoned) (month zoned - 1) (day zoned) (hour zoned) (minute zoned) in
  let offset := getTimeZoneOffsetMs host tentative timeZone in
  tentative + offset.

Definition getDayStartUtc (host : Host) (utcNow : Z) : Z :=
  let timeZone := resolveTimeZone host in
  let parts := getZonedParts host utcNow timeZone in
  let todayStart :=
    getUtcMsFromZoned host
      (mkParts (year parts) (month parts) (day parts) DAY_START_HOUR 0) timeZone in
  if utcNow <? todayStart then todayStart - 24 * 60 * 60 * 1000 else todayStart.

Definition withinTolerance (type0 : EventType) (timestamp : Z)
  (type1 : EventType) (stamp : IsoString) : bool :=
  let tolerance := BASELINE_TOLERANCE_MIN * MS_MIN in
  if negb (EventType_eqb type1 type0) then false
  else
    match Date_parse stamp with
    | None => false
    | Some t => Z.abs (t - timestamp) <=? tolerance
    end.

Definition hasMatchingEvent (events : list CareEvent) (type0 : EventType)
  (timestamp : Z) : bool :=
  existsb (fun event => withinTolerance type0 timestamp (type event) (timestampUtc event))
    events.

Definition isSuppressedAuto (suppressed : list Suppressed.entry) (type0 : EventType)
  (timestamp : Z) : bool :=
  existsb
    (fun entry =>
       withinTolerance type0 timestamp (Suppressed.type entry)
         (Suppressed.timestampUtc entry))
    suppressed.

Definition isCoreEvent (event : CareEvent) : bool :=
  negb (EventType_eqb (type event) RoutineStarted).

Definition maxCycles : nat := 8.

(** The [while] loop of [buildBaselineEvents]; [cyclesLeft] is
    [maxCycles - cycle]. *)
Fixpoint baselineCycles (cfg : ConstraintConfig) (cyclesLeft : nat) (wakeStart : Z)
  (horizonUtc : num) : list CareEvent :=
  match cyclesLeft with
  | O => []
  | S cyclesLeft' =>
      if num_ltb (Some wakeStart) horizonUtc then
        let feedTime :=
          num_add (Some wakeStart) (num_mul (feedIntervalMinMin cfg) (Some MS_MIN)) in
        let feed :=
          match feedTime with
          | Some t =>
              if num_leb feedTime horizonUtc
              then [mkEvent ("auto-feed-" ++ string_of_Z t)%string MilkGiven (toISOString t) true]
              else []
          | None => []
          end in
        let napStart := wakeStart + minWakeWindowMin cfg * MS_MIN in
        if num_leb (Some napStart) horizonUtc then
          let startEvent :=
            mkEvent ("auto-nap-start-" ++ string_of_Z napStart)%string NapStarted
              (toISOString napStart) true in
          let napEnd := napStart + expectedNapDurationMin cfg * MS_MIN in
          if num_leb (Some napEnd) horizonUtc then
            let endEvent :=
              mkEvent ("auto-nap-end-" ++ string_of_Z napEnd)%string NapEnded
                (toISOString napEnd) true in
            feed ++ [startEvent; endEvent]
              ++ baselineCycles cfg cyclesLeft' napEnd horizonUtc
          else feed ++ [startEvent]
        else feed
      else []
  end.

Definition buildBaselineEvents (cfg : ConstraintConfig) (firstWakeUtc : Z)
  (horizonUtc : num) : list CareEvent :=
  baselineCycles cfg maxCycles firstWakeUtc horizonUtc.

(** [Array.prototype.sort] with the comparator
    [Date.parse(a.timestampUtc) - Date.parse(b.timestampUtc)]: a stable
    sort; a comparator value of [NaN] counts as [0].  [sortsAfter a b] is
    "the comparator is positive on [(a, b)]".  On a log whose time stamps
    all parse the comparator is consistent and the result is the one stable
    ascending order.  With a stamp that does not parse it is not, and
    ECMAScript leaves the order to the implementation: the statements that
    depend on the order carry [allParseable]. *)
Definition sortsAfter (a b : CareEvent) : bool :=
  match Date_parse (timestampUtc a), Date_parse (timestampUtc b) with
  | Some ta, Some tb => 0 <? ta - tb
  | _, _ => false
  end.

Fixpoint insertByTime (x : CareEvent) (l : list CareEvent) : list CareEvent :=
  match l with
  | [] => [x]
  | y :: l' => if sortsAfter x y then y :: insertByTime x l' else x :: l
  end.

Fixpoint sortByTime (l : list CareEvent) : list CareEvent :=
  match l with
  | [] => []
  | x :: l' => insertByTime x (sortByTime l')
  end.

Definition isFirstAwake (event : CareEvent) : bool :=
  EventType_eqb (type event) FirstAwake.

(** [xs.slice(-n)]. *)
Definition sliceLast {A : Type} (n : nat) (xs : list A) : list A :=
  skipn (List.length xs - n) xs.

(** The local constants of [normalizeEventLog], in the order of the source. *)
Definition ordered (eventLog : list CareEvent) : list CareEvent :=
  sortByTime eventLog.

Definition cleaned (eventLog : list CareEvent) : list CareEvent :=
  let hasFirstAwake :=
    existsb (fun event => isFirstAwake event && negb (autoPredicted event))
      (ordered eventLog) in
  filter
    (fun event => negb (isFirstAwake event && autoPredicted event && hasFirstAwake))
    (ordered eventLog).

Definition withFirstAwake (host : Host) (eventLog : list CareEvent) (now : Z)
  : list CareEvent :=
  let hasAnyFirstAwake := existsb isFirstAwake (cleaned eventLog) in
  if hasAnyFirstAwake then cleaned eventLog
  else
    let predictedTime := getDayStartUtc host now in
    let predicted :=
      mkEvent ("auto-first-awake-" ++ string_of_Z predictedTime)%string FirstAwake
        (toISOString predictedTime) true in
    cleaned eventLog ++ [predicted].

Definition isReal (event : CareEvent) : bool :=
  negb (autoPredicted event) && isCoreEvent event.

Definition realEvents (host : Host) (eventLog : list CareEvent) (now : Z)
  : list CareEvent :=
  filter isReal (withFirstAwake host eventLog now).

Definition horizonUtc (host : Host) (eventLog : list CareEvent) (now : Z) : num :=
  let lastThreeReal := sliceLast 3 (realEvents host eventLog now) in
  match lastThreeReal with
  | [] => Some now
  | _ => Math_max (map (fun event => Date_parse (timestampUtc event)) lastThreeReal)
  end.

(** The [forEach] over the candidates: [merged] grows by the candidates that
    are neither suppressed nor matched. *)
Definition mergeCandidate (suppressed : list Suppressed.entry)
  (merged : list CareEvent) (candidate : CareEvent) : list CareEvent :=
  match Date_parse (timestampUtc candidate) with
  | None => merged
  | Some candidateTime =>
      if isSuppressedAuto suppressed (type candidate) candidateTime then merged
      else if hasMatchingEvent merged (type candidate) candidateTime then merged
      else merged ++ [candidate]
  end.

Definition normalizeEventLog (host : Host) (cfg : ConstraintConfig)
  (eventLog : list CareEvent) (now : Z) (suppressed : list Suppressed.entry)
  : list CareEvent :=
  let withFirst := withFirstAwake host eventLog now in
  match find isFirstAwake withFirst with
  | None => sortByTime withFirst
  | Some firstWake =>
      match Date_parse (timestampUtc firstWake) with
      | None => sortByTime withFirst
      | Some firstWakeUtc =>
          let baselineEvents :=
            buildBaselineEvents cfg firstWakeUtc (horizonUtc host eventLog now) in
          let merged := fold_left (mergeCandidate suppressed) baselineEvents withFirst in
          sortByTime merged
      end
  end.

Definition applyEvent (host : Host) (cfg : ConstraintConfig) (state : AppState)
  (event : CareEvent) (now : Z) : AppState :=
  let log := normalizeEventLog host cfg (eventLog state ++ [event]) now
               (autoSuppressed state) in
  let core' := recomputeCoreState log now in
  mkApp core' log (autoSuppressed state).

Definition rebuildFromLog (host : Host) (cfg : ConstraintConfig)
  (log : list CareEvent) (now : Z) (suppressed : list Suppressed.entry) : AppState :=
  let normalized := normalizeEventLog host cfg log now suppressed in
  let core' := recomputeCoreState normalized now in
  mkApp core' normalized suppressed.

(** ** constraints.ts: the Constraint/Output Projector *)

Inductive ShiftStatus : Type := applied | pending.
Inductive Trend : Type := up | down.
Inductive Risk : Type := risk_low | risk_rising | risk_high.

(** A double that may be infinite or [NaN]: the quotient of two whole
    numbers whose divisor may be [0]. *)
Inductive xnum : Type := Fin (q : Q) | PosInf | NegInf | XNaN.

Definition x_div (a b : Z) : xnum :=
  if b =? 0 then
    if 0 <? a then PosInf else if a <? 0 then NegInf else XNaN
  else Fin (inject_Z a / inject_Z b).

(** [Math.max(a, x)] and [Math.min(a, x)] for a finite [a]. *)
Definition x_max (a : Q) (x : xnum) : xnum :=
  match x with
  | Fin q => Fin (Qmax a q)
  | PosInf => PosInf
  | NegInf => Fin a
  | XNaN => XNaN
  end.

Definition x_min (a : Q) (x : xnum) : xnum :=
  match x with
  | Fin q => Fin (Qmin a q)
  | PosInf => Fin a
  | NegInf => NegInf
  | XNaN => XNaN
  end.

(** [{ label, expiresAt }] and [{ label, reason }] are pairs;
    [{ delta, status }] likewise. *)
Record Categories (A : Type) : Type := mkCategories {
  allowed : list A;
  suppressed : list A
}.
Arguments mkCategories {A} _ _.
Arguments allowed {A} _.
Arguments suppressed {A} _.

Record ActivityCategories : Type := mkActivity {
  activityAllowed : list (string * option Z);
  activitySuppressed : list (string * string)
}.

Record PressureIndicator : Type := mkPressure {
  wakeUtilization : option xnum;
  sleepPressureTrend : Trend;
  regulationRisk : Risk
}.

Record OutputModel : Type := mkOutput {
  stateSummary : list string;
  nextWindow : option string;
  nextHardStop : option string;
  isAsleep : bool;
  nextWindowStartUtc : option Z;
  nextWindowEndUtc : option Z;
  nextHardStopUtc : option Z;
  wakeWindowRemainingMin : option Z;
  expectedWakeUtc : option Z;
  activityCategories : ActivityCategories;
  windowCategories : Categories string;
  shiftPreview : list (string * ShiftStatus);
  pressureIndicator : PressureIndicator
}.

Definition minutesFromMs (ms : Z) : Z := round_div ms MS_MIN.

Definition addMinutes (time minutes : Z) : Z := time + minutes * MS_MIN.

Definition dayBoundUtc (host : Host) (sourceUtc : Z) (timeZone : string)
  (hour0 minute0 : Z) : Z :=
  let parts := getZonedParts host sourceUtc timeZone in
  getUtcMsFromZoned host
    (mkParts (year parts) (month parts) (day parts) hour0 minute0) timeZone.

Definition formatTime (host : Host) (utcMs : Z) (timeZone : string) : string :=
  formatHourMinute host timeZone utcMs.

Definition currentlyAsleep (state : CoreState) : bool :=
  match lastNapStart state with
  | None => false
  | Some napStart =>
      match lastNapEnd state with
      | None => true
      | Some napEnd => napEnd <? napStart
      end
  end.

Definition isLateNap (host : Host) (config : ConstraintConfig) (state : CoreState)
  (timeZone : string) : bool :=
  match lastNapEnd state with
  | None => false
  | Some napEnd => lateNapHour config <=? hour (getZonedParts host napEnd timeZone)
  end.

(** The four lists that the branches of [computeOutputs] push to and splice:
    window allowed, window suppressed, activity allowed, activity
    suppressed. *)
Record Lists : Type := mkLists {
  windowAllowed : list string;
  windowSuppressed : list string;
  actAllowed : list (string * option Z);
  actSuppressed : list (string * string)
}.

Definition noLists : Lists := mkLists [] [] [] [].

Definition earlyTier (endWindow : Z) : Lists :=
  mkLists
    ["Regulation / low stimulation"; "Outdoor light"; "Routine reset"]%string
    ["High stimulation"; "New novel activities"]%string
    [("Low-stim movement", Some endWindow); ("Quiet bonding", Some endWindow);
     ("Feeding window prep", Some endWindow)]%string
    [("High stimulation", "wake window still early");
     ("New novel activities", "wake window still early")]%string.

Definition midTier (endWindow : Z) : Lists :=
  mkLists
    ["Regulation / low stimulation"; "Outdoor light"; "Routine reset"]%string
    ["High stimulation"; "New novel activities"]%string
    [("Active play", Some endWindow); ("Outdoor light", Some endWindow);
     ("Routine reset", Some endWindow)]%string
    [("High stimulation", "wake window mid-cycle");
     ("New novel activities", "wake window mid-cycle")]%string.

Definition lateTier (endWindow : Z) : Lists :=
  mkLists
    ["Regulation / low stimulation"; "Routine reset"]%string
    ["High stimulation"; "New novel activities"; "Outdoor light"]%string
    [("Wind-down", Some endWindow); ("Low-light calm", Some endWindow);
     ("Routine start", Some endWindow)]%string
    [("High stimulation", "wake window near cap");
     ("New novel activities", "wake window near cap");
     ("Outdoor light", "wake window near cap")]%string.

Definition exceededTier (endWindow : Z) : Lists :=
  mkLists
    ["Regulation / low stimulation"]%string
    ["High stimulation"; "New novel activities"; "Outdoor light"]%string
    [("Minimal stimulation", Some endWindow); ("Reduce novelty", Some endWindow);
     ("Bridge to sleep", Some endWindow)]%string
    [("High stimulation", "wake window exceeded");
     ("New novel activities", "wake window exceeded");
     ("Outdoor light", "wake window exceeded")]%string.

Definition uncalibratedTier : Lists :=
  mkLists
    ["Log first awake"]%string
    ["High stimulation"; "New novel activities"]%string
    [("Log first awake", None); ("Record a feed", None);
     ("Start routine when ready", None)]%string
    [("High stimulation", "system not yet calibrated");
     ("New novel activities", "system not yet calibrated")]%string.

Definition levelName (l : RegulationLevel) : string :=
  match l with low => "low" | medium => "medium" | high => "high" end.

(** The last part of [computeOutputs]: the summary lines. *)
Definition summaryLines (host : Host) (state : CoreState) (now : Z)
  (timeZone : string) (expectedWake : option Z) : list string :=
  let sleepLines :=
    match lastNapStart state with
    | Some napStart =>
        if currentlyAsleep state && truthy (lastNapStart state) then
          Some
            [("Asleep for " ++ string_of_Z (minutesFromMs (now - napStart)) ++ " min")%string;
             (if truthy expectedWake then
                match expectedWake with
                | Some w => ("Expected wake " ++ formatTime host w timeZone)%string
                | None => "Expected wake —"%string
                end
              else "Expected wake —"%string)]
        else None
    | None => None
    end in
  let stateLines :=
    match sleepLines with
    | Some ls => ls
    | None =>
        match lastWakeTime state with
        | Some wake =>
            if truthy (lastWakeTime state) then
              [("Awake for " ++ string_of_Z (minutesFromMs (now - wake)) ++ " min")%string;
               match lastNapDuration state with
               | Some d =>
                   if truthy (lastNapDuration state)
                   then ("Last slept " ++ string_of_Z (minutesFromMs d) ++ " min")%string
                   else "Last slept —"%string
               | None => "Last slept —"%string
               end]
            else ["Awaiting first awake marker"; "Last slept —"]%string
        | None => ["Awaiting first awake marker"; "Last slept —"]%string
        end
    end in
  let feedLine :=
    match lastFeedTime state with
    | Some feed =>
        if truthy (lastFeedTime state)
        then ("Last feed " ++ string_of_Z (minutesFromMs (now - feed)) ++ " min ago")%string
        else "No feed logged yet"%string
    | None => "No feed logged yet"%string
    end in
  stateLines ++ [feedLine; ("Regulation level: " ++ levelName (regulationLevel state))%string].

(** The local constants [shorten], [minWake] and [maxWake]. *)
Definition shortenOf (config : ConstraintConfig) (state : CoreState) : bool :=
  match minutesIfTruthy (lastNapDuration state) with
  | Some d => Qltb d (inject_Z (shortNapThresholdMin config))
  | None => false
  end.

Definition minWakeOf (config : ConstraintConfig) (state : CoreState) : Z :=
  minWakeWindowMin config
  - (if shortenOf config state then shortenWakeByMinIfShortNap config else 0).

Definition maxWakeOf (config : ConstraintConfig) (state : CoreState) : Z :=
  maxWakeWindowMin config
  - (if shortenOf config state then shortenWakeByMinIfShortNap config else 0).

(** [expectedWakeUtc], computed after the main branch in the source and
    independent of it. *)
Definition expectedWakeOf (host : Host) (config : ConstraintConfig)
  (state : CoreState) (timeZone : string) : option Z :=
  match lastNapStart state with
  | Some napStart =>
      if currentlyAsleep state && truthy (lastNapStart state) then
        let estimatedDuration :=
          if isLateNap host config state timeZone
          then Z.min (expectedNapDurationMin config) (nextNapCapMinIfLateNap config)
          else expectedNapDurationMin config in
        Some (addMinutes napStart estimatedDuration)
      else None
  | None => None
  end.

(** The [else] branch of [if (state.lastWakeTime)]: nothing is calibrated. *)
Definition uncalibratedOutputs (summary : list string) (asleep : bool)
  (expectedWake : option Z) : OutputModel :=
  {| stateSummary := summary;
     nextWindow := None;
     nextHardStop := None;
     isAsleep := asleep;
     nextWindowStartUtc := None;
     nextWindowEndUtc := None;
     nextHardStopUtc := None;
     wakeWindowRemainingMin := None;
     expectedWakeUtc := expectedWake;
     activityCategories :=
       mkActivity (actAllowed uncalibratedTier) (actSuppressed uncalibratedTier);
     windowCategories :=
       mkCategories (windowAllowed uncalibratedTier)
         (windowSuppressed uncalibratedTier);
     shiftPreview := [("First awake marker → system window active"%string, pending)];
     pressureIndicator := mkPressure None up risk_rising |}.

Definition computeOutputs (host : Host) (state : AppState) (now : Z)
  (timeZone : string) (config : ConstraintConfig) : OutputModel :=
  let asleep := currentlyAsleep state in
  let expectedWake := expectedWakeOf host config state timeZone in
  let summary := summaryLines host state now timeZone expectedWake in
  match lastWakeTime state with
  | Some wake =>
      if truthy (lastWakeTime state) then
        let shorten := shortenOf config state in
        let minWake := minWakeOf config state in
        let maxWake := maxWakeOf config state in
        let startWindow := addMinutes wake minWake in
        let endWindow := addMinutes wake maxWake in
        let lateNap := isLateNap host config state timeZone in
        let bedtimeCap :=
          dayBoundUtc host now timeZone (bedtimeLatestHour config)
            (bedtimeLatestMinute config) in
        let bedtimeLatest :=
          if lateNap
          then addMinutes bedtimeCap (- bedtimeEarlierByMinIfLateNap config)
          else bedtimeCap in
        let routineLatest :=
          addMinutes bedtimeLatest
            (- (routineLatencyMin config + setupLatencyMin config)) in
        let awakeMin := minutesFromMs (now - wake) in
        let utilization := x_min (1 # 1) (x_max (0 # 1) (x_div awakeMin maxWake)) in
        let tier :=
          if asleep then noLists
          else if Qltb (inject_Z awakeMin) (inject_Z minWake * (6 # 10)) then
            earlyTier endWindow
          else if Qltb (inject_Z awakeMin) (inject_Z maxWake * (9 # 10)) then
            midTier endWindow
          else lateTier endWindow in
        let lists := if maxWake <? awakeMin then exceededTier endWindow else tier in
        let shifts :=
          [(("Nap <" ++ string_of_Z (shortNapThresholdMin config)
               ++ " min → next wake window −"
               ++ string_of_Z (shortenWakeByMinIfShortNap config) ++ " min")%string,
            if shorten then applied else pending);
           (("Nap after " ++ string_of_Z (lateNapHour config)
               ++ ":00 → bedtime cap −"
               ++ string_of_Z (bedtimeEarlierByMinIfLateNap config) ++ " min")%string,
            if lateNap then applied else pending);
           (("Late nap detected → next nap capped at "
               ++ string_of_Z (nextNapCapMinIfLateNap config) ++ " min")%string,
            if lateNap then applied else pending)] in
        {| stateSummary := summary;
           nextWindow :=
             if asleep then None
             else Some (formatTime host startWindow timeZone ++ " – "
                          ++ formatTime host endWindow timeZone)%string;
           nextHardStop :=
             if asleep then None
             else Some ("Routine latest " ++ formatTime host routineLatest timeZone
                          ++ " (bedtime cap " ++ formatTime host bedtimeLatest timeZone
                          ++ ")")%string;
           isAsleep := asleep;
           nextWindowStartUtc := if asleep then None else Some startWindow;
           nextWindowEndUtc := if asleep then None else Some endWindow;
           nextHardStopUtc := if asleep then None else Some routineLatest;
           wakeWindowRemainingMin :=
             if asleep then None else Some (Z.max 0 (maxWake - awakeMin));
           expectedWakeUtc := expectedWake;
           activityCategories := mkActivity (actAllowed lists) (actSuppressed lists);
           windowCategories := mkCategories (windowAllowed lists) (windowSuppressed lists);
           shiftPreview := shifts;
           pressureIndicator :=
             mkPressure (Some utilization) (if asleep then down else up)
               (match regulationLevel state with
                | low => risk_low
                | high => risk_high
                | medium => risk_rising
                end) |}
      else uncalibratedOutputs summary asleep expectedWake
  | None => uncalibratedOutputs summary asleep expectedWake
  end.

(** ** Vocabulary of the statements *)

(** The time stamp of the event reads as an instant. *)
Definition parseable (event : CareEvent) : bool :=
  match Date_parse (timestampUtc event) with Some _ => true | None => false end.

(** The event passes the guard of the reducer: its time stamp reads as an
    instant that is not after [now]. *)
Definition countsAt (now : Z) (event : CareEvent) : bool :=
  match Date_parse (timestampUtc event) with
  | Some timestamp => timestamp <=? now
  | None => false
  end.

Definition isMilkGiven (event : CareEvent) : bool :=
  EventType_eqb (type event) MilkGiven.

(** [defaultConfig] completed with a value for [feedIntervalMinMin]. *)
Definition configWithFeed (feedMin : Z) : ConstraintConfig := {|
  minWakeWindowMin := minWakeWindowMin defaultConfig;
  maxWakeWindowMin := maxWakeWindowMin defaultConfig;
  shortenWakeByMinIfShortNap := shortenWakeByMinIfShortNap defaultConfig;
  shortNapThresholdMin := shortNapThresholdMin defaultConfig;
  lateNapHour := lateNapHour defaultConfig;
  bedtimeLatestHour := bedtimeLatestHour defaultConfig;
  bedtimeLatestMinute := bedtimeLatestMinute defaultConfig;
  bedtimeEarlierByMinIfLateNap := bedtimeEarlierByMinIfLateNap defaultConfig;
  routineLatencyMin := routineLatencyMin defaultConfig;
  setupLatencyMin := setupLatencyMin defaultConfig;
  nextNapCapMinIfLateNap := nextNapCapMinIfLateNap defaultConfig;
  feedIntervalMaxMin := feedIntervalMaxMin defaultConfig;
  expectedNapDurationMin := expectedNapDurationMin defaultConfig;
  feedIntervalMinMin := Some feedMin
|}.

(** The short-nap penalty that the reducer applies, read off the state in
    milliseconds: a recorded duration that is not [0] and is under 45
    minutes. *)
Definition napPenaltyOf (lastNapDuration : option Z) : Q :=
  match lastNapDuration with
  | Some d => if negb (d =? 0) && (d <? 45 * MS_MIN) then 15 # 100 else 0 # 1
  | None => 0 # 1
  end.

(** The sleep pressure in the words of the specification: no pressure
    without a last wake time, and the penalty for every last nap under 45
    minutes, a nap of duration [0] included. *)
Definition specSleepPressure (lastWake lastNapDuration : option Z) (now : Z) : Q :=
  match lastWake with
  | None => 0 # 1
  | Some wake =>
      let awakeMinutes := Qmax (0 # 1) (inject_Z (now - wake) / inject_Z MS_MIN) in
      let napPenalty :=
        match lastNapDuration with
        | Some d => if d <? 45 * MS_MIN then 15 # 100 else 0 # 1
        | None => 0 # 1
        end in
      Qmin (1 # 1) (awakeMinutes / (150 # 1) + napPenalty)%Q
  end.

(** The horizon in the words of the specification: the latest time stamp
    among the last three real events, or [now] when there are fewer than
    three. *)
Definition specHorizon (host : Host) (eventLog : list CareEvent) (now : Z) : num :=
  let reals := realEvents host eventLog now in
  if (List.length reals <? 3)%nat then Some now
  else Math_max (map (fun event => Date_parse (timestampUtc event)) (sliceLast 3 reals)).

(** Sample instants and events: 2024-01-15, 07:00 UTC, and offsets in
    minutes from it. *)
Definition sevenAm : Z := 1705302000000.

Definition after (minutes : Z) : Z := sevenAm + minutes * MS_MIN.

Definition logged (name : string) (kind : EventType) (at_ : Z) : CareEvent :=
  mkEvent name kind (toISOString at_) false.

(** The instant of an event whose time stamp parses. *)
Definition time (event : CareEvent) : Z :=
  match Date_parse (timestampUtc event) with Some t => t | None => 0 end.

(** Every time stamp of the log parses. *)
Definition allParseable (log : list CareEvent) : bool := forallb parseable log.

(** Ascending by instant. *)
Definition ascending (log : list CareEvent) : Prop :=
  StronglySorted (fun a b => time a <= time b) log.

(** A candidate that the merge lets through: its time stamp parses and no
    suppression entry of its type lies within the tolerance. *)
Definition unsuppressed (suppressed : list Suppressed.entry) (c : CareEvent) : Prop :=
  exists t, Date_parse (timestampUtc c) = Some t
            /\ isSuppressedAuto suppressed (type c) t = false.

(** ** App.tsx: the state updates behind the handlers

    The functions that the handlers of the component pass to [setState], and
    the derived values that the component computes from the state.  The
    closure variables ([nowUtcMs], the selected id, the zone) are arguments. *)

Definition hasId (eventId : string) (event : CareEvent) : bool :=
  String.eqb (id event) eventId.

(** [deleteEvent]: the updater [(prev) => ...]. *)
Definition deleteEvent (host : Host) (cfg : ConstraintConfig) (prev : AppState)
  (eventId : string) (now : Z) : AppState :=
  let target := find (hasId eventId) (eventLog prev) in
  let log := filter (fun event => negb (hasId eventId event)) (eventLog prev) in
  let suppressed' :=
    match target with
    | Some t =>
        if autoPredicted t
        then autoSuppressed prev ++ [Suppressed.mk (type t) (timestampUtc t)]
        else autoSuppressed prev
    | None => autoSuppressed prev
    end in
  rebuildFromLog host cfg log now suppressed'.

(** [commitEdit]: the updater, entered once the new instant is known not to
    be [NaN]. *)
Definition commitEdit (host : Host) (cfg : ConstraintConfig) (prev : AppState)
  (editId : string) (newTimestampUtc : Z) (now : Z) : AppState :=
  let target := find (hasId editId) (eventLog prev) in
  let updatedTimestampUtc := toISOString newTimestampUtc in
  let log :=
    map (fun event =>
           if hasId editId event
           then mkEvent (id event) (type event) updatedTimestampUtc false
           else event)
      (eventLog prev) in
  let suppressed' :=
    match target with
    | Some t =>
        if autoPredicted t
        then autoSuppressed prev ++ [Suppressed.mk (type t) (timestampUtc t)]
        else autoSuppressed prev
    | None => autoSuppressed prev
    end in
  rebuildFromLog host cfg (sortByTime log) now suppressed'.

(** The effect on the clock tick: [rebuildFromLog(prev.eventLog, nowUtcMs)],
    the third parameter left to its default [[]]. *)
Definition tick (host : Host) (cfg : ConstraintConfig) (prev : AppState) (now : Z)
  : AppState :=
  rebuildFromLog host cfg (eventLog prev) now [].

(** [xs.pop() ?? null] on a copy: the last element. *)
Fixpoint pop {A : Type} (xs : list A) : option A :=
  match xs with
  | [] => None
  | [x] => Some x
  | _ :: rest => pop rest
  end.

(** [getLastEvent]: the instant of the last event of the type, in log order,
    among those whose time stamp parses and is not after [now]. *)
Definition getLastEvent (log : list CareEvent) (now : Z) (kind : EventType)
  : option Z :=
  pop
    (filter (fun timestamp => timestamp <=? now)
       (flat_map
          (fun event =>
             match Date_parse (timestampUtc event) with
             | Some timestamp => [timestamp]
             | None => []
             end)
          (filter (fun event => EventType_eqb (type event) kind) log))).

(** [routineDurations]: the events with a parseable stamp, sorted; each
    [RoutineStarted] is paired with the next event of another type, and the
    rounded minutes between them are kept when positive. *)
Fixpoint routineLoop (events : list CareEvent) : list Z :=
  match events with
  | [] => []
  | entry :: rest =>
      (if EventType_eqb (type entry) RoutineStarted then
         match find (fun item => negb (EventType_eqb (type item) RoutineStarted)) rest with
         | Some next =>
             let minutes := Z.max 0 (round_div (time next - time entry) MS_MIN) in
             if 0 <? minutes then [minutes] else []
         | None => []
         end
       else [])
      ++ routineLoop rest
  end.

Definition routineDurations (log : list CareEvent) : list Z :=
  routineLoop (sortByTime (filter parseable log)).

(** [zonedToUtc] of the component. *)
Definition zonedToUtc (host : Host) (parts : ZonedParts) (timeZone : string) : Z :=
  let utcGuess :=
    Date_UTC (year parts) (month parts - 1) (day parts) (hour parts) (minute parts) in
  let zoned := getZonedParts host utcGuess timeZone in
  let desired :=
    Date_UTC (year parts) (month parts - 1) (day parts) (hour parts) (minute parts) in
  let actual :=
    Date_UTC (year zoned) (month zoned - 1) (day zoned) (hour zoned) (minute zoned) in
  utcGuess + (desired - actual).

(** ** More vocabulary *)

(** The host reads civil time in the zone at a fixed offset of [offset]
    minutes east of Greenwich. *)
Definition keepsOffset (host : Host) (timeZone : string) (offset : Z) : Prop :=
  forall t, formatToParts host timeZone t
            = fixedOffsetParts (fun _ => offset) timeZone t.

(** The reducer reads [SolidsGiven] as [MilkGiven] and [Asleep] as
    [NapStarted]. *)
Definition sameEffect (kind : EventType) : EventType :=
  match kind with
  | SolidsGiven => MilkGiven
  | Asleep => NapStarted
  | other => other
  end.

Definition relabel (event : CareEvent) : CareEvent :=
  mkEvent (id event) (sameEffect (type event)) (timestampUtc event)
    (autoPredicted event).

(** The instant of the last event, in log order, that passes the guard of
    the reducer and whose type satisfies [wanted]. *)
Definition lastCounted (wanted : EventType -> bool) (log : list CareEvent) (now : Z)
  : option Z :=
  pop (map time (filter (fun event => countsAt now event && wanted (type event)) log)).

Definition isFeed (kind : EventType) : bool :=
  match kind with MilkGiven | SolidsGiven => true | _ => false end.

Definition isWake (kind : EventType) : bool :=
  match kind with FirstAwake | NapEnded => true | _ => false end.

(** One day of the era of 400 years: the year, month and day that
    [civilFromDays] computes from the day of the era are in range and lead
    [daysFromCivil] back to that day. *)
Definition doeOk (doe : Z) : bool :=
  let yoe := (doe - doe / 1460 + doe / 36524 - doe / 146096) / 365 in
  let doy := doe - (365 * yoe + yoe / 4 - yoe / 100) in
  let mp := (5 * doy + 2) / 153 in
  let d := doy - (153 * mp + 2) / 5 + 1 in
  let m := if mp <? 10 then mp + 3 else mp - 9 in
  let mp' := if 2 <? m then m - 3 else m + 9 in
  (0 <=? yoe) && (yoe <? 400) && (1 <=? m) && (m <=? 12) && (1 <=? d) && (d <=? 31)
  && (yoe * 365 + yoe / 4 - yoe / 100 + ((153 * mp' + 2) / 5 + d - 1) =? doe).

Fixpoint allFrom (fuel : nat) (i : Z) (f : Z -> bool) : bool :=
  match fuel with
  | O => true
  | S k => f i && allFrom k (i + 1) f
  end.

(** The first awake that the Normalizer synthesizes for a log without one. *)
Definition predictedFirstAwake (host : Host) (now : Z) : CareEvent :=
  mkEvent ("auto-first-awake-" ++ string_of_Z (getDayStartUtc host now)) FirstAwake
    (toISOString (getDayStartUtc host now)) true.

Definition nonAuto (event : CareEvent) : bool := negb (autoPredicted event).

Definition isRealFirstAwake (event : CareEvent) : bool :=
  isFirstAwake event && negb (autoPredicted event).

(** A nullable instant that, when set, is not after [now]. *)
Definition notAfter (now : Z) (x : option Z) : Prop :=
  match x with Some v => v <= now | None => True end.

(** What the loop of the reducer keeps true of [nextState] and
    [totalDaySleep]. *)
Definition loopInvariant (now : Z) (acc : CoreState * Z) : Prop :=
  notAfter now (lastWakeTime (fst acc))
  /\ notAfter now (lastNapStart (fst acc))
  /\ notAfter now (lastNapEnd (fst acc))
  /\ notAfter now (lastFeedTime (fst acc))
  /\ 0 <= snd acc
  /\ forall d, lastNapDuration (fst acc) = Some d ->
               0 <= d <= snd acc
               /\ lastNapEnd (fst acc) <> None
               /\ lastNapStart (fst acc) <> None.

Definition isRoutineStarted (event : CareEvent) : bool :=
  EventType_eqb (type event) RoutineStarted.

(** The last nap is recorded, is not of duration [0] and is shorter than the
    short-nap threshold of the configuration. *)
Definition shortNap (config : ConstraintConfig) (state : CoreState) : bool :=
  match lastNapDuration state with
  | Some d => negb (d =? 0) && (d <? shortNapThresholdMin config * MS_MIN)
  | None => false
  end.




(** * Properties *)

(** Split the fact that a non-empty log parses into its head and its tail. *)
Ltac parse_cons H Hhead :=
  cbn in H; apply andb_true_iff in H; destruct H as [Hhead H].

Create HintDb timesort.

(** ** The Core State Reducer *)

Section Reducer.

Variable now : Z.

Lemma reduceEvent_skips (acc : CoreState * Z) (event : CareEvent) :
  countsAt now event = false -> reduceEvent now acc event = acc.
Proof.
  unfold countsAt, reduceEvent.
  destruct acc as [nextState total].
  destruct (Date_parse (timestampUtc event)) as [timestamp|]; [|reflexivity].
  intros Hlate.
  apply Z.leb_gt in Hlate.
  apply Z.ltb_lt in Hlate.
  now rewrite Hlate.
Qed.

Lemma fold_reduce_filter (events : list CareEvent) (acc : CoreState * Z) :
  fold_left (reduceEvent now) (filter (countsAt now) events) acc
  = fold_left (reduceEvent now) events acc.
Proof.
  revert acc.
  induction events as [|event events IH]; intros acc; [reflexivity|].
  cbn [filter fold_left].
  destruct (countsAt now event) eqn:Hcounts.
  - cbn [fold_left]. apply IH.
  - rewrite (reduceEvent_skips acc event Hcounts). apply IH.
Qed.

(** C5: the reducer ignores every event whose time stamp is after "now" or
    does not parse: the state computed from a log is the state computed
    from the log without those events, whatever the log.  The reducer is a
    total function: it yields a state on every log. *)
Theorem recomputeCoreState_ignores_late_and_unparseable (events : list CareEvent) :
  recomputeCoreState events now
  = recomputeCoreState (filter (countsAt now) events) now.
Proof.
  unfold recomputeCoreState.
  now rewrite fold_reduce_filter.
Qed.

End Reducer.

(** Minutes against whole milliseconds. *)
Lemma minutes_le (bound ms : Z) :
  Qle_bool (bound # 1) (inject_Z ms / inject_Z MS_MIN) = (bound * MS_MIN <=? ms).
Proof.
  apply eq_true_iff_eq.
  rewrite Qle_bool_iff, Z.leb_le.
  unfold Qle, Qdiv, Qmult, Qinv, inject_Z, MS_MIN. simpl. lia.
Qed.

Lemma minutes_lt (ms bound : Z) :
  Qltb (inject_Z ms / inject_Z MS_MIN) (bound # 1) = (ms <? bound * MS_MIN).
Proof.
  unfold Qltb. rewrite minutes_le.
  rewrite Z.ltb_antisym. reflexivity.
Qed.

Lemma Qle_bool_false (x y : Q) : Qle_bool x y = false <-> ~ (x <= y)%Q.
Proof.
  rewrite <- Qle_bool_iff. now destruct (Qle_bool x y).
Qed.

Lemma recomputeCoreState_level (events : list CareEvent) (now : Z) :
  let st := recomputeCoreState events now in
  regulationLevel st
  = levelFromSignals (estimatedSleepPressure st) (minutesIfTruthy (timeSinceLastFeed st)).
Proof.
  unfold recomputeCoreState.
  destruct (fold_left (reduceEvent now) events (initialCoreState, 0)) as [nextState total].
  reflexivity.
Qed.

(** The tiers of [levelFromSignals] on a pressure and a time since the last
    feed given in milliseconds, as the reducer calls it. *)
Lemma levelFromSignals_ms (pressure : Q) (sinceFeed : option Z) :
  levelFromSignals pressure (minutesIfTruthy sinceFeed)
  = if Qle_bool (8 # 10) pressure
       || match sinceFeed with Some ms => 180 * MS_MIN <=? ms | None => false end
    then high
    else if Qle_bool pressure (35 # 100)
            && match sinceFeed with Some ms => ms <? 120 * MS_MIN | None => true end
    then low
    else medium.
Proof.
  unfold levelFromSignals, minutesIfTruthy.
  destruct sinceFeed as [ms|]; [|reflexivity].
  destruct (ms =? 0) eqn:Hzero.
  - apply Z.eqb_eq in Hzero. subst ms. reflexivity.
  - now rewrite minutes_le, minutes_lt.
Qed.

(** C4: the regulation level of the reduced state is "high" exactly when the
    pressure is at least 0.8 or the time since the last feed is at least 180
    minutes; "low" exactly when the pressure is at most 0.35 and the time
    since the last feed is null or under 120 minutes (and the level is not
    "high"); "medium" otherwise.  A pressure of 0.79 without feed data is not
    "high"; a pressure of 0.8 is "high" whatever the feed timing. *)
Theorem regulationLevel_tiers (events : list CareEvent) (now : Z) :
  let st := recomputeCoreState events now in
  let pressure := estimatedSleepPressure st in
  let isHigh :=
    (8 # 10 <= pressure)%Q
    \/ exists ms, timeSinceLastFeed st = Some ms /\ 180 * MS_MIN <= ms in
  let isLow :=
    (pressure <= 35 # 100)%Q
    /\ (timeSinceLastFeed st = None
        \/ exists ms, timeSinceLastFeed st = Some ms /\ ms < 120 * MS_MIN) in
  (regulationLevel st = high <-> isHigh)
  /\ (regulationLevel st = low <-> isLow /\ ~ isHigh)
  /\ (regulationLevel st = medium <-> ~ isHigh /\ ~ isLow)
  /\ levelFromSignals (79 # 100) None <> high
  /\ (forall sinceFeedMin, levelFromSignals (8 # 10) sinceFeedMin = high).
Proof.
  intros st pressure isHigh isLow.
  assert (Hlevel : regulationLevel st
                   = levelFromSignals pressure (minutesIfTruthy (timeSinceLastFeed st)))
    by apply recomputeCoreState_level.
  rewrite levelFromSignals_ms in Hlevel.
  assert (HhighIff : isHigh <->
            Qle_bool (8 # 10) pressure
            || match timeSinceLastFeed st with
               | Some ms => 180 * MS_MIN <=? ms
               | None => false
               end = true).
  { unfold isHigh. rewrite orb_true_iff, Qle_bool_iff. split.
    - intros [Hp|[ms [Hms Hle]]]; [now left|right].
      rewrite Hms. now apply Z.leb_le.
    - intros [Hp|Hfeed]; [now left|right].
      destruct (timeSinceLastFeed st) as [ms|]; [|discriminate].
      exists ms. split; [reflexivity|now apply Z.leb_le]. }
  assert (HlowIff : isLow <->
            Qle_bool pressure (35 # 100)
            && match timeSinceLastFeed st with
               | Some ms => ms <? 120 * MS_MIN
               | None => true
               end = true).
  { unfold isLow. rewrite andb_true_iff, Qle_bool_iff. split.
    - intros [Hp [Hnone|[ms [Hms Hlt]]]]; (split; [exact Hp|]).
      + now rewrite Hnone.
      + rewrite Hms. now apply Z.ltb_lt.
    - intros [Hp Hfeed]. split; [exact Hp|].
      destruct (timeSinceLastFeed st) as [ms|]; [right|now left].
      exists ms. split; [reflexivity|now apply Z.ltb_lt]. }
  destruct (Qle_bool (8 # 10) pressure
            || match timeSinceLastFeed st with
               | Some ms => 180 * MS_MIN <=? ms
               | None => false
               end) eqn:Hh;
    destruct (Qle_bool pressure (35 # 100)
              && match timeSinceLastFeed st with
                 | Some ms => ms <? 120 * MS_MIN
                 | None => true
                 end) eqn:Hl;
    rewrite Hlevel;
    (split; [|split; [|split; [|split]]]);
    rewrite ?HhighIff, ?HlowIff;
    try (intros sinceFeedMin; destruct sinceFeedMin; reflexivity);
    try discriminate;
    intuition discriminate.
Qed.

Lemma recomputeCoreState_pressure (events : list CareEvent) (now : Z) :
  let st := recomputeCoreState events now in
  estimatedSleepPressure st
  = computeSleepPressure (lastWakeTime st) (minutesIfTruthy (lastNapDuration st)) now.
Proof.
  unfold recomputeCoreState.
  destruct (fold_left (reduceEvent now) events (initialCoreState, 0)) as [nextState total].
  reflexivity.
Qed.

(** C3, as amended: the pressure of the reduced state is 0 when the last wake
    time is null (or the instant 0, which the code reads as none); otherwise
    it is min(1, awakeMinutes / 150 + napPenalty), where the penalty is 0.15
    exactly when a last nap duration is recorded, is not 0 and is under 45
    minutes. *)
Theorem sleepPressure_formula (events : list CareEvent) (now : Z) :
  let st := recomputeCoreState events now in
  estimatedSleepPressure st
  = match lastWakeTime st with
    | None => 0 # 1
    | Some wake =>
        if wake =? 0 then 0 # 1
        else
          Qmin (1 # 1)
            (Qmax (0 # 1) (inject_Z (now - wake) / inject_Z MS_MIN) / (150 # 1)
             + napPenaltyOf (lastNapDuration st))%Q
    end.
Proof.
  intros st.
  unfold st. rewrite recomputeCoreState_pressure. fold st.
  unfold computeSleepPressure, napPenaltyOf, minutesIfTruthy.
  destruct (lastWakeTime st) as [wake|]; [|reflexivity].
  destruct (wake =? 0); [reflexivity|].
  destruct (lastNapDuration st) as [d|]; [|reflexivity].
  destruct (d =? 0); [reflexivity|].
  now rewrite minutes_lt.
Qed.

(** C3, as stated, fails: after a nap of duration 0 (started and ended at
    08:00) the reducer applies no penalty at 09:00: the pressure is 0.4 and
    not the 0.55 of the statement. *)
Lemma sleepPressure_zero_nap_no_penalty :
  let events :=
    [logged "a" FirstAwake (after 0); logged "b" NapStarted (after 60);
     logged "c" NapEnded (after 60)] in
  let st := recomputeCoreState events (after 120) in
  lastNapDuration st = Some 0
  /\ (estimatedSleepPressure st == 4 # 10)%Q
  /\ (specSleepPressure (lastWakeTime st) (lastNapDuration st) (after 120) == 55 # 100)%Q
  /\ ~ (estimatedSleepPressure st
        == specSleepPressure (lastWakeTime st) (lastNapDuration st) (after 120))%Q.
Proof.
  vm_compute. repeat split; intros H; discriminate H.
Qed.

(** C10: [applyEvent] hands the suppression list through unchanged. *)
Theorem applyEvent_keeps_autoSuppressed
  (host : Host) (cfg : ConstraintConfig) (state : AppState) (event : CareEvent)
  (now : Z) :
  autoSuppressed (applyEvent host cfg state event now) = autoSuppressed state.
Proof.
  reflexivity.
Qed.

(** ** Baseline synthesis *)

Lemma baselineCycles_no_feed_property
  (cfg : ConstraintConfig) (cyclesLeft : nat) (wakeStart : Z) (horizon : num) :
  feedIntervalMinMin cfg = None ->
  existsb isMilkGiven (baselineCycles cfg cyclesLeft wakeStart horizon) = false.
Proof.
  intros Habsent.
  revert wakeStart.
  induction cyclesLeft as [|cyclesLeft IH]; intros wakeStart; [reflexivity|].
  cbn [baselineCycles].
  rewrite Habsent. cbn [num_mul num_add NaN app].
  destruct (num_ltb (Some wakeStart) horizon); [|reflexivity].
  destruct (num_leb (Some (wakeStart + minWakeWindowMin cfg * MS_MIN)) horizon);
    [|reflexivity].
  destruct (num_leb _ horizon); [|reflexivity].
  cbn [existsb isMilkGiven type EventType_eqb orb].
  apply IH.
Qed.

(** One full cycle when the feed interval is defined and the horizon leaves
    room for the feed and the nap: feed, nap start, nap end, and the next
    cycle from the nap end. *)
Lemma baselineCycles_full_cycle
  (cfg : ConstraintConfig) (feedMin : Z) (cyclesLeft : nat) (wakeStart horizon : Z) :
  feedIntervalMinMin cfg = Some feedMin ->
  wakeStart < horizon ->
  wakeStart + feedMin * MS_MIN <= horizon ->
  wakeStart + minWakeWindowMin cfg * MS_MIN + expectedNapDurationMin cfg * MS_MIN
  <= horizon ->
  0 <= expectedNapDurationMin cfg ->
  let feedTime := wakeStart + feedMin * MS_MIN in
  let napStart := wakeStart + minWakeWindowMin cfg * MS_MIN in
  let napEnd := napStart + expectedNapDurationMin cfg * MS_MIN in
  baselineCycles cfg (S cyclesLeft) wakeStart (Some horizon)
  = mkEvent ("auto-feed-" ++ string_of_Z feedTime) MilkGiven (toISOString feedTime) true
    :: mkEvent ("auto-nap-start-" ++ string_of_Z napStart) NapStarted
         (toISOString napStart) true
    :: mkEvent ("auto-nap-end-" ++ string_of_Z napEnd) NapEnded (toISOString napEnd) true
    :: baselineCycles cfg cyclesLeft napEnd (Some horizon).
Proof.
  intros Hfeed Hwake HfeedFits HnapFits Hnap feedTime napStart napEnd.
  cbn [baselineCycles].
  rewrite Hfeed. cbn [num_mul num_add num_ltb num_leb].
  assert (H1 : (wakeStart <? horizon) = true) by now apply Z.ltb_lt.
  assert (H2 : (wakeStart + feedMin * MS_MIN <=? horizon) = true) by now apply Z.leb_le.
  assert (H3 : (wakeStart + minWakeWindowMin cfg * MS_MIN <=? horizon) = true).
  { apply Z.leb_le. unfold MS_MIN in *. lia. }
  assert (H4 : (wakeStart + minWakeWindowMin cfg * MS_MIN
                + expectedNapDurationMin cfg * MS_MIN <=? horizon) = true)
    by now apply Z.leb_le.
  rewrite H1, H2, H3, H4. reflexivity.
Qed.

Section BaselineSchedule.

Variable cfg : ConstraintConfig.
Variable feedMin : Z.
Hypothesis Hfeed : feedIntervalMinMin cfg = Some feedMin.
Hypothesis HfeedPos : 0 < feedMin.
Hypothesis HwakePos : 0 < minWakeWindowMin cfg.
Hypothesis HnapPos : 0 <= expectedNapDurationMin cfg.






End BaselineSchedule.

(** The configuration object of the constraints.ts at hand has no
    [feedIntervalMinMin]: paired with it the feed time is [NaN] and the
    baseline holds no [MilkGiven], whatever the first wake and the horizon. *)
Remark buildBaselineEvents_defaultConfig_never_feeds (firstWakeUtc : Z) (horizon : num) :
  existsb isMilkGiven (buildBaselineEvents defaultConfig firstWakeUtc horizon) = false.
Proof.
  apply baselineCycles_no_feed_property. reflexivity.
Qed.

(** The day from 07:00 with the horizon a day ahead: eight cycles of nap
    start and nap end, sixteen events, none of them a feed. *)
Lemma buildBaselineEvents_defaultConfig_day :
  map type (buildBaselineEvents defaultConfig sevenAm (Some (after 1440)))
  = [NapStarted; NapEnded; NapStarted; NapEnded; NapStarted; NapEnded;
     NapStarted; NapEnded; NapStarted; NapEnded; NapStarted; NapEnded;
     NapStarted; NapEnded; NapStarted; NapEnded].
Proof.
  vm_compute. reflexivity.
Qed.

(** Whatever the configuration, the baseline has at most eight cycles of at
    most three events, and none of its events lies after the horizon. *)
Lemma baselineCycles_length
  (cfg : ConstraintConfig) (cyclesLeft : nat) (wakeStart : Z) (horizon : num) :
  (List.length (baselineCycles cfg cyclesLeft wakeStart horizon) <= 3 * cyclesLeft)%nat.
Proof.
  revert wakeStart.
  induction cyclesLeft as [|cyclesLeft IH]; intros wakeStart; [cbn; lia|].
  cbn [baselineCycles].
  destruct (num_ltb (Some wakeStart) horizon); [|cbn; lia].
  match goal with
  | |- context [match ?feedTime with Some _ => _ | None => _ end] =>
      destruct feedTime as [t|]
  end.
  - destruct (num_leb (Some t) horizon);
      destruct (num_leb (Some (wakeStart + minWakeWindowMin cfg * MS_MIN)) horizon);
      try (cbn; lia);
      destruct (num_leb _ horizon);
      try (cbn; lia);
      cbn [app List.length];
      match goal with
      | |- context [baselineCycles cfg cyclesLeft ?w horizon] =>
          specialize (IH w); lia
      end.
  - destruct (num_leb (Some (wakeStart + minWakeWindowMin cfg * MS_MIN)) horizon);
      try (cbn; lia);
      destruct (num_leb _ horizon);
      try (cbn; lia);
      cbn [app List.length];
      match goal with
      | |- context [baselineCycles cfg cyclesLeft ?w horizon] =>
          specialize (IH w); lia
      end.
Qed.

Lemma buildBaselineEvents_at_most_eight_cycles
  (cfg : ConstraintConfig) (firstWakeUtc : Z) (horizon : num) :
  (List.length (buildBaselineEvents cfg firstWakeUtc horizon) <= 24)%nat.
Proof.
  apply (baselineCycles_length cfg maxCycles).
Qed.

Lemma baselineCycles_within_horizon
  (cfg : ConstraintConfig) (cyclesLeft : nat) (wakeStart : Z) (horizon : num) :
  Forall (fun c => num_leb (Date_parse (timestampUtc c)) horizon = true)
    (baselineCycles cfg cyclesLeft wakeStart horizon).
Proof.
  revert wakeStart.
  induction cyclesLeft as [|cyclesLeft IH]; intros wakeStart; [constructor|].
  cbn [baselineCycles].
  repeat match goal with
         | |- Forall _ (if ?b then _ else _) => destruct b eqn:?
         | |- Forall _ (match ?x with Some _ => _ | None => _ end) => destruct x eqn:?
         | |- Forall _ (_ ++ _) => apply Forall_app; split
         | |- Forall _ (baselineCycles _ _ _ _) => apply IH
         | |- Forall _ (_ :: _) => constructor
         | |- Forall _ [] => constructor
         end;
    cbn [timestampUtc toISOString Date_parse]; assumption.
Qed.

(** ** The Constraint/Output Projector *)

(** C8, as amended: while the currently-asleep condition holds, the next
    window, the hard stop, their instants and the remaining wake-window
    minutes are null.  When a last wake time is known, the wake-window
    utilization is not null: it is clamp(awakeMin / maxWake, 0, 1); and as
    long as the minutes awake do not exceed the maximum wake window the
    activity and window category lists are empty.  The utilization is null
    when no last wake time is known. *)
Theorem computeOutputs_while_asleep
  (host : Host) (state : AppState) (now : Z) (timeZone : string)
  (config : ConstraintConfig) :
  currentlyAsleep state = true ->
  let out := computeOutputs host state now timeZone config in
  isAsleep out = true
  /\ nextWindow out = None /\ nextHardStop out = None
  /\ nextWindowStartUtc out = None /\ nextWindowEndUtc out = None
  /\ nextHardStopUtc out = None /\ wakeWindowRemainingMin out = None
  /\ (truthy (lastWakeTime state) = false ->
      wakeUtilization (pressureIndicator out) = None
      /\ activityCategories out
         = mkActivity (actAllowed uncalibratedTier) (actSuppressed uncalibratedTier)
      /\ windowCategories out
         = mkCategories (windowAllowed uncalibratedTier)
             (windowSuppressed uncalibratedTier))
  /\ (forall wake, lastWakeTime state = Some wake -> wake <> 0 ->
      let awakeMin := minutesFromMs (now - wake) in
      let maxWake := maxWakeOf config state in
      wakeUtilization (pressureIndicator out)
      = Some (x_min (1 # 1) (x_max (0 # 1) (x_div awakeMin maxWake)))
      /\ (awakeMin <= maxWake ->
          activityCategories out = mkActivity [] []
          /\ windowCategories out = mkCategories [] [])).
Proof.
  intros Hasleep out. unfold out, computeOutputs.
  rewrite Hasleep.
  destruct (lastWakeTime state) as [wake|] eqn:Hwake.
  - destruct (truthy (Some wake)) eqn:Htruthy.
    + cbn [isAsleep nextWindow nextHardStop nextWindowStartUtc nextWindowEndUtc
             nextHardStopUtc wakeWindowRemainingMin pressureIndicator wakeUtilization
             activityCategories windowCategories].
      do 7 (split; [reflexivity|]).
      split; [discriminate|].
      intros wake' Heq Hnz. injection Heq as <-.
      split; [reflexivity|].
      intros Hfits.
      apply Z.ltb_ge in Hfits. rewrite Hfits.
      split; reflexivity.
    + do 7 (split; [reflexivity|]).
      split; [intros _; repeat split|].
      intros wake' Heq Hnz. injection Heq as <-.
      cbn in Htruthy. apply negb_false_iff, Z.eqb_eq in Htruthy. contradiction.
  - do 7 (split; [reflexivity|]).
    split; [intros _; repeat split|].
    intros wake' Heq. discriminate.
Qed.

(** C8, as stated, fails.  First awake at 07:00, nap started at 08:30 and not
    ended, "now" 09:00: the state is asleep and the lists are empty, but the
    wake-window utilization is 120/130 and not null.  And a log that holds
    only a nap start at 08:30, seen at 09:00: the state is asleep, no wake is
    known, and the window lists are those of the not-yet-calibrated tier. *)
Lemma computeOutputs_asleep_utilization_not_null :
  let events := [logged "a" FirstAwake (after 0); logged "b" NapStarted (after 90)] in
  let state := mkApp (recomputeCoreState events (after 120)) events [] in
  let out := computeOutputs utcHost state (after 120) "UTC" defaultConfig in
  let events' := [logged "b" NapStarted (after 90)] in
  let state' := mkApp (recomputeCoreState events' (after 120)) events' [] in
  let out' := computeOutputs utcHost state' (after 120) "UTC" defaultConfig in
  (currentlyAsleep state = true
   /\ wakeUtilization (pressureIndicator out) = Some (Fin (120 # 130))
   /\ wakeUtilization (pressureIndicator out) <> None)
  /\ (currentlyAsleep state' = true
      /\ allowed (windowCategories out') = ["Log first awake"%string]
      /\ allowed (windowCategories out') <> []).
Proof.
  vm_compute. repeat split; discriminate.
Qed.

(** While asleep past the maximum wake window the lists do not stay empty:
    first awake at 07:00, nap started at 09:00, "now" 09:30, 150 minutes
    after the last wake.  The asleep branch empties the lists and the
    override for an exceeded wake window then fills them again. *)
Lemma computeOutputs_asleep_lists_refilled :
  let events := [logged "a" FirstAwake (after 0); logged "b" NapStarted (after 120)] in
  let state := mkApp (recomputeCoreState events (after 150)) events [] in
  let out := computeOutputs utcHost state (after 150) "UTC" defaultConfig in
  currentlyAsleep state = true
  /\ nextWindow out = None
  /\ allowed (windowCategories out) = ["Regulation / low stimulation"%string]
  /\ map fst (activityAllowed (activityCategories out))
     = ["Minimal stimulation"; "Reduce novelty"; "Bridge to sleep"]%string.
Proof.
  vm_compute. repeat split.
Qed.

(** ** The sort by time stamp *)

Section Sorting.

Lemma insertByTime_perm (x : CareEvent) (l : list CareEvent) :
  Permutation (insertByTime x l) (x :: l).
Proof.
  induction l as [|y l IH]; cbn [insertByTime].
  - apply Permutation_refl.
  - destruct (sortsAfter x y).
    + eapply Permutation_trans; [apply perm_skip, IH|apply perm_swap].
    + apply Permutation_refl.
Qed.

Lemma sortByTime_perm (l : list CareEvent) : Permutation (sortByTime l) l.
Proof.
  induction l as [|x l IH]; cbn [sortByTime].
  - apply perm_nil.
  - eapply Permutation_trans; [apply insertByTime_perm|now apply perm_skip].
Qed.

Lemma sortByTime_In (e : CareEvent) (l : list CareEvent) :
  In e (sortByTime l) <-> In e l.
Proof.
  split; apply Permutation_in;
    [apply sortByTime_perm|apply Permutation_sym, sortByTime_perm].
Qed.

Lemma existsb_perm (f : CareEvent -> bool) (l l' : list CareEvent) :
  Permutation l l' -> existsb f l = existsb f l'.
Proof.
  intros Hperm.
  apply eq_true_iff_eq. rewrite !existsb_exists.
  split; intros [e [Hin Hf]]; exists e; split; try exact Hf.
  - now apply (Permutation_in _ Hperm).
  - now apply (Permutation_in _ (Permutation_sym Hperm)).
Qed.

Lemma allParseable_Forall (l : list CareEvent) :
  allParseable l = true <-> Forall (fun e => parseable e = true) l.
Proof.
  unfold allParseable. rewrite forallb_forall, Forall_forall. reflexivity.
Qed.

Lemma allParseable_perm (l l' : list CareEvent) :
  Permutation l l' -> allParseable l = true -> allParseable l' = true.
Proof.
  rewrite !allParseable_Forall. intros Hperm. now apply Permutation_Forall.
Qed.

Lemma allParseable_app (l l' : list CareEvent) :
  allParseable (l ++ l') = allParseable l && allParseable l'.
Proof.
  apply forallb_app.
Qed.

Lemma allParseable_filter (p : CareEvent -> bool) (l : list CareEvent) :
  allParseable l = true -> allParseable (filter p l) = true.
Proof.
  unfold allParseable. rewrite !forallb_forall.
  intros Hall e Hin. apply filter_In in Hin. now apply Hall.
Qed.

Lemma sortsAfter_time (a b : CareEvent) :
  parseable a = true -> parseable b = true ->
  sortsAfter a b = (time b <? time a).
Proof.
  unfold parseable, sortsAfter, time.
  destruct (Date_parse (timestampUtc a)) as [ta|]; [|discriminate].
  destruct (Date_parse (timestampUtc b)) as [tb|]; [|discriminate].
  intros _ _.
  apply eq_true_iff_eq. rewrite !Z.ltb_lt. lia.
Qed.

Lemma insertByTime_ascending (x : CareEvent) (l : list CareEvent) :
  parseable x = true -> allParseable l = true -> ascending l ->
  ascending (insertByTime x l).
Proof.
  intros Hx Hl Hsorted.
  induction Hsorted as [|y l Hsorted IH Hhead]; cbn [insertByTime].
  - constructor; constructor.
  - parse_cons Hl Hy.
    rewrite (sortsAfter_time x y Hx Hy).
    destruct (time y <? time x) eqn:Hcmp.
    + apply Z.ltb_lt in Hcmp.
      constructor; [now apply IH|].
      eapply Permutation_Forall;
        [apply Permutation_sym, insertByTime_perm|].
      constructor; [lia|exact Hhead].
    + apply Z.ltb_ge in Hcmp.
      constructor; [now constructor|].
      constructor; [exact Hcmp|].
      eapply Forall_impl; [|exact Hhead].
      cbn. intros z Hz. lia.
Qed.

Lemma sortByTime_allParseable (l : list CareEvent) :
  allParseable l = true -> allParseable (sortByTime l) = true.
Proof.
  apply allParseable_perm, Permutation_sym, sortByTime_perm.
Qed.

Lemma sortByTime_ascending (l : list CareEvent) :
  allParseable l = true -> ascending (sortByTime l).
Proof.
  induction l as [|x l IH]; intros Hl; cbn [sortByTime].
  - constructor.
  - parse_cons Hl Hx.
    apply insertByTime_ascending; auto using sortByTime_allParseable.
Qed.

Lemma sortByTime_of_ascending (l : list CareEvent) :
  allParseable l = true -> ascending l -> sortByTime l = l.
Proof.
  intros Hl Hsorted.
  induction Hsorted as [|x l Hsorted IH Hhead]; [reflexivity|].
  parse_cons Hl Hx.
  cbn [sortByTime]. rewrite (IH Hl).
  destruct l as [|y l]; [reflexivity|].
  cbn [insertByTime].
  parse_cons Hl Hy.
  rewrite (sortsAfter_time x y Hx Hy).
  inversion Hhead as [|? ? Hxy _]; subst.
  apply Z.ltb_ge in Hxy. now rewrite Hxy.
Qed.

Lemma sortByTime_idempotent (l : list CareEvent) :
  allParseable l = true -> sortByTime (sortByTime l) = sortByTime l.
Proof.
  intros Hl.
  apply sortByTime_of_ascending;
    auto using sortByTime_allParseable, sortByTime_ascending.
Qed.

Lemma ascending_filter (p : CareEvent -> bool) (l : list CareEvent) :
  ascending l -> ascending (filter p l).
Proof.
  intros Hsorted.
  induction Hsorted as [|x l Hsorted IH Hhead]; cbn [filter]; [constructor|].
  destruct (p x); [|exact IH].
  constructor; [exact IH|].
  rewrite Forall_forall in *. intros y Hy.
  apply filter_In in Hy. now apply Hhead.
Qed.

Lemma ascending_app_one (l : list CareEvent) (x : CareEvent) :
  ascending l -> Forall (fun y => time y <= time x) l -> ascending (l ++ [x]).
Proof.
  intros Hsorted Hbelow.
  induction Hsorted as [|y l Hsorted IH Hhead]; cbn [app].
  - constructor; constructor.
  - inversion Hbelow as [|? ? Hyx Hrest]; subst.
    constructor; [now apply IH|].
    apply Forall_app. split; [exact Hhead|].
    constructor; [exact Hyx|constructor].
Qed.

Lemma filter_insertByTime (p : CareEvent -> bool) (x : CareEvent)
  (l : list CareEvent) :
  parseable x = true -> allParseable l = true -> ascending l ->
  filter p (insertByTime x l)
  = if p x then insertByTime x (filter p l) else filter p l.
Proof.
  intros Hx Hl Hsorted.
  induction Hsorted as [|y l Hsorted IH Hhead].
  - cbn. now destruct (p x).
  - parse_cons Hl Hy.
    cbn [insertByTime]. rewrite (sortsAfter_time x y Hx Hy).
    destruct (time y <? time x) eqn:Hcmp.
    + cbn [filter]. rewrite (IH Hl).
      destruct (p x) eqn:Hpx; destruct (p y) eqn:Hpy; try reflexivity.
      cbn [insertByTime]. rewrite (sortsAfter_time x y Hx Hy), Hcmp.
      reflexivity.
    + cbn [filter]. destruct (p x) eqn:Hpx; [|reflexivity].
      apply Z.ltb_ge in Hcmp.
      destruct (p y) eqn:Hpy.
      * cbn [insertByTime]. rewrite (sortsAfter_time x y Hx Hy).
        apply Z.ltb_ge in Hcmp. now rewrite Hcmp.
      * destruct (filter p l) as [|z rest] eqn:Hfilter; [reflexivity|].
        cbn [insertByTime].
        assert (Hz : In z (filter p l)) by (rewrite Hfilter; now left).
        apply filter_In in Hz. destruct Hz as [Hz _].
        assert (Hpz : parseable z = true).
        { apply allParseable_Forall in Hl.
          rewrite Forall_forall in Hl. now apply Hl. }
        rewrite (sortsAfter_time x z Hx Hpz).
        rewrite Forall_forall in Hhead. specialize (Hhead z Hz).
        assert (Hxz : (time z <? time x) = false) by (apply Z.ltb_ge; lia).
        now rewrite Hxz.
Qed.

Lemma filter_sortByTime (p : CareEvent -> bool) (l : list CareEvent) :
  allParseable l = true ->
  filter p (sortByTime l) = sortByTime (filter p l).
Proof.
  induction l as [|x l IH]; intros Hl; [reflexivity|].
  parse_cons Hl Hx.
  cbn [sortByTime filter].
  rewrite filter_insertByTime;
    auto using sortByTime_allParseable, sortByTime_ascending.
  rewrite (IH Hl).
  now destruct (p x).
Qed.

(** The sort is stable: the events of one instant keep their order.  With
    [sortByTime_perm] and [sortByTime_ascending] this determines the sorted
    log. *)
Lemma sortByTime_stable (t : Z) (l : list CareEvent) :
  allParseable l = true ->
  filter (fun e => time e =? t) (sortByTime l) = filter (fun e => time e =? t) l.
Proof.
  intros Hl.
  rewrite filter_sortByTime by exact Hl.
  apply sortByTime_of_ascending.
  - now apply allParseable_filter.
  - clear Hl. induction l as [|x l IH]; cbn [filter]; [constructor|].
    destruct (time x =? t) eqn:Hx; [|exact IH].
    constructor; [exact IH|].
    apply Forall_forall. intros y Hy.
    apply filter_In in Hy. destruct Hy as [_ Hy].
    apply Z.eqb_eq in Hx, Hy. lia.
Qed.

End Sorting.

#[global] Hint Resolve sortByTime_allParseable sortByTime_ascending
  allParseable_filter ascending_filter : timesort.

(** ** The Normalizer *)

Section Normalizer.

Variable host : Host.
Variable cfg : ConstraintConfig.
Variable now : Z.

(** The first awake that the Normalizer synthesizes when the log has none. *)
Let predicted : CareEvent :=
  mkEvent ("auto-first-awake-" ++ string_of_Z (getDayStartUtc host now)) FirstAwake
    (toISOString (getDayStartUtc host now)) true.

Lemma cleaned_In (log : list CareEvent) (e : CareEvent) :
  In e (cleaned log) -> In e log.
Proof.
  unfold cleaned, ordered. intros Hin.
  apply filter_In in Hin. destruct Hin as [Hin _].
  now apply sortByTime_In.
Qed.

Lemma withFirstAwake_cases (log : list CareEvent) :
  (existsb isFirstAwake (cleaned log) = true
   /\ withFirstAwake host log now = cleaned log)
  \/ (existsb isFirstAwake (cleaned log) = false
      /\ withFirstAwake host log now = cleaned log ++ [predicted]).
Proof.
  unfold withFirstAwake.
  destruct (existsb isFirstAwake (cleaned log)); [left|right]; split; reflexivity.
Qed.

Lemma withFirstAwake_In (log : list CareEvent) (e : CareEvent) :
  In e (withFirstAwake host log now) -> In e log \/ e = predicted.
Proof.
  destruct (withFirstAwake_cases log) as [[_ ->]|[_ ->]]; intros Hin.
  - left. now apply cleaned_In.
  - apply in_app_or in Hin. destruct Hin as [Hin|[<-|[]]].
    + left. now apply cleaned_In.
    + now right.
Qed.

Lemma withFirstAwake_has_first (log : list CareEvent) :
  existsb isFirstAwake (withFirstAwake host log now) = true.
Proof.
  destruct (withFirstAwake_cases log) as [[Hhas ->]|[_ ->]]; [exact Hhas|].
  rewrite existsb_app. cbn. apply orb_true_r.
Qed.

Lemma filter_filter_implied (p q : CareEvent -> bool) (l : list CareEvent) :
  (forall e, p e = true -> q e = true) ->
  filter p (filter q l) = filter p l.
Proof.
  intros Himp.
  induction l as [|x l IH]; [reflexivity|].
  cbn [filter].
  destruct (q x) eqn:Hq; cbn [filter].
  - now rewrite IH.
  - destruct (p x) eqn:Hp; [|exact IH].
    apply Himp in Hp. congruence.
Qed.

Lemma isReal_not_auto (e : CareEvent) : isReal e = true -> autoPredicted e = false.
Proof.
  unfold isReal. intros H. apply andb_true_iff in H.
  destruct H as [H _]. now apply negb_true_iff in H.
Qed.

Lemma filter_isReal_cleaned (log : list CareEvent) :
  filter isReal (cleaned log) = filter isReal (sortByTime log).
Proof.
  unfold cleaned, ordered.
  apply filter_filter_implied.
  intros e Hreal. apply isReal_not_auto in Hreal.
  rewrite Hreal. now rewrite andb_false_r.
Qed.

(** The real events are those of the input log, in sorted order: neither
    the dropped nor the synthesized first awake is real. *)
Lemma realEvents_of_log (log : list CareEvent) :
  realEvents host log now = filter isReal (sortByTime log).
Proof.
  unfold realEvents.
  destruct (withFirstAwake_cases log) as [[_ ->]|[_ ->]].
  - apply filter_isReal_cleaned.
  - rewrite filter_app. cbn. rewrite app_nil_r. apply filter_isReal_cleaned.
Qed.

(** *** The candidates *)

Lemma baselineCycles_Forall_shape (cyclesLeft : nat) (wakeStart : Z) (horizon : num) :
  Forall
    (fun c => autoPredicted c = true /\ isFirstAwake c = false /\ parseable c = true)
    (baselineCycles cfg cyclesLeft wakeStart horizon).
Proof.
  revert wakeStart.
  induction cyclesLeft as [|cyclesLeft IH]; intros wakeStart; [constructor|].
  cbn [baselineCycles].
  repeat match goal with
         | |- Forall _ (if ?b then _ else _) => destruct b
         | |- Forall _ (match ?x with Some _ => _ | None => _ end) => destruct x
         | |- Forall _ (_ ++ _) => apply Forall_app; split
         | |- Forall _ (baselineCycles _ _ _ _) => apply IH
         | |- Forall _ (_ :: _) => constructor
         | |- Forall _ [] => constructor
         | |- _ /\ _ => split
         | |- _ = _ => reflexivity
         end.
Qed.

Lemma baselineCycles_shape (cyclesLeft : nat) (wakeStart : Z) (horizon : num)
  (c : CareEvent) :
  In c (baselineCycles cfg cyclesLeft wakeStart horizon) ->
  autoPredicted c = true /\ isFirstAwake c = false /\ parseable c = true.
Proof.
  intros Hin.
  pose proof (baselineCycles_Forall_shape cyclesLeft wakeStart horizon) as Hall.
  rewrite Forall_forall in Hall. now apply Hall.
Qed.

(** *** The merge *)

Variable suppressed : list Suppressed.entry.

Lemma merge_appends (candidates merged : list CareEvent) :
  exists added,
    fold_left (mergeCandidate suppressed) candidates merged = merged ++ added
    /\ Forall (fun a => In a candidates /\ unsuppressed suppressed a) added.
Proof.
  revert merged.
  induction candidates as [|c candidates IH]; intros merged.
  - exists []. split; [now rewrite app_nil_r|constructor].
  - cbn [fold_left].
    assert (Hweaken : forall added,
              Forall (fun a => In a candidates /\ unsuppressed suppressed a) added ->
              Forall (fun a => In a (c :: candidates) /\ unsuppressed suppressed a) added).
    { intros added. apply Forall_impl. intros a [Hin Hfree].
      split; [now right|exact Hfree]. }
    unfold mergeCandidate at 2.
    destruct (Date_parse (timestampUtc c)) as [t|] eqn:Hparse.
    + destruct (isSuppressedAuto suppressed (type c) t) eqn:Hsupp.
      * destruct (IH merged) as [added [Heq Hall]].
        exists added. split; [exact Heq|now apply Hweaken].
      * destruct (hasMatchingEvent merged (type c) t).
        -- destruct (IH merged) as [added [Heq Hall]].
           exists added. split; [exact Heq|now apply Hweaken].
        -- destruct (IH (merged ++ [c])) as [added [Heq Hall]].
           exists (c :: added). split.
           ++ rewrite Heq, <- app_assoc. reflexivity.
           ++ constructor; [|now apply Hweaken].
              split; [now left|]. exists t. now split.
    + destruct (IH merged) as [added [Heq Hall]].
      exists added. split; [exact Heq|now apply Hweaken].
Qed.

(** Every event of the normalized log is an event of the input log, the
    synthesized first awake, or a baseline candidate that is not suppressed. *)
Lemma normalizeEventLog_In (log : list CareEvent) (e : CareEvent) :
  In e (normalizeEventLog host cfg log now suppressed) ->
  In e log \/ e = predicted
  \/ (autoPredicted e = true /\ isFirstAwake e = false /\ unsuppressed suppressed e).
Proof.
  unfold normalizeEventLog.
  destruct (find isFirstAwake (withFirstAwake host log now)) as [firstWake|].
  - destruct (Date_parse (timestampUtc firstWake)) as [firstWakeUtc|].
    + rewrite sortByTime_In.
      destruct (merge_appends
                  (buildBaselineEvents cfg firstWakeUtc (horizonUtc host log now))
                  (withFirstAwake host log now)) as [added [-> Hall]].
      intros Hin. apply in_app_or in Hin. destruct Hin as [Hin|Hin].
      * apply withFirstAwake_In in Hin. tauto.
      * right. right.
        rewrite Forall_forall in Hall. destruct (Hall e Hin) as [Hcand Hfree].
        apply baselineCycles_shape in Hcand. tauto.
    + rewrite sortByTime_In. intros Hin.
      apply withFirstAwake_In in Hin. tauto.
  - rewrite sortByTime_In. intros Hin.
    apply withFirstAwake_In in Hin. tauto.
Qed.

Lemma isSuppressedAuto_false_far (kind : EventType) (t : Z)
  (entry : Suppressed.entry) (T : Z) :
  isSuppressedAuto suppressed kind t = false ->
  In entry suppressed ->
  Suppressed.type entry = kind ->
  Date_parse (Suppressed.timestampUtc entry) = Some T ->
  BASELINE_TOLERANCE_MIN * MS_MIN < Z.abs (t - T).
Proof.
  unfold isSuppressedAuto. intros Hnone Hin Hkind Hparse.
  assert (Hentry : withinTolerance kind t (Suppressed.type entry)
                     (Suppressed.timestampUtc entry) = false).
  { destruct (withinTolerance kind t (Suppressed.type entry)
                (Suppressed.timestampUtc entry)) eqn:Hw; [|reflexivity].
    assert (Hex : existsb
                    (fun entry0 =>
                       withinTolerance kind t (Suppressed.type entry0)
                         (Suppressed.timestampUtc entry0)) suppressed = true).
    { apply existsb_exists. exists entry. now split. }
    congruence. }
  unfold withinTolerance in Hentry.
  rewrite Hkind, Hparse in Hentry.
  assert (Hrefl : EventType_eqb kind kind = true) by now destruct kind.
  rewrite Hrefl in Hentry. cbn [negb] in Hentry.
  apply Z.leb_gt in Hentry. lia.
Qed.

(** C1: whatever the log and "now", when the suppression list holds a
    [MilkGiven] entry at instant T, every [MilkGiven] event of the
    normalized log that was not already in the input log, that is, every
    one that the Normalizer added, lies more than 20 minutes from T. *)
Theorem normalizeEventLog_honours_suppression
  (log : list CareEvent) (entry : Suppressed.entry) (T : Z) (e : CareEvent) (t : Z) :
  In entry suppressed ->
  Suppressed.type entry = MilkGiven ->
  Date_parse (Suppressed.timestampUtc entry) = Some T ->
  In e (normalizeEventLog host cfg log now suppressed) ->
  ~ In e log ->
  type e = MilkGiven ->
  Date_parse (timestampUtc e) = Some t ->
  20 * MS_MIN < Z.abs (t - T).
Proof.
  intros Hentry Hkind HT Hout Hnew Hmilk Ht.
  apply normalizeEventLog_In in Hout.
  destruct Hout as [Hin|[Heq|[_ [_ [t' [Ht' Hfree]]]]]].
  - contradiction.
  - subst e. discriminate Hmilk.
  - rewrite Ht in Ht'. injection Ht' as <-.
    rewrite Hmilk in Hfree.
    exact (isSuppressedAuto_false_far MilkGiven t entry T Hfree Hentry Hkind HT).
Qed.

End Normalizer.

(** ** The horizon *)

Section Horizon.

Lemma Math_max_latest (l : list CareEvent) :
  l <> [] -> allParseable l = true ->
  exists h,
    Math_max (map (fun e => Date_parse (timestampUtc e)) l) = Some h
    /\ In h (map time l)
    /\ forall e, In e l -> time e <= h.
Proof.
  induction l as [|x l IH]; [congruence|].
  intros _ Hl. parse_cons Hl Hx.
  unfold parseable in Hx.
  destruct (Date_parse (timestampUtc x)) as [tx|] eqn:Hparse; [|discriminate].
  assert (Htime : time x = tx) by (unfold time; now rewrite Hparse).
  destruct l as [|y l].
  - exists tx. cbn. rewrite Hparse, Htime. repeat split; [now left|].
    intros e [<-|[]]. lia.
  - destruct (IH ltac:(discriminate) Hl) as [h [Hmax [Hin Hle]]].
    exists (Z.max tx h).
    change (Math_max (map (fun e => Date_parse (timestampUtc e)) (x :: y :: l)))
      with (match Date_parse (timestampUtc x),
                  Math_max (map (fun e => Date_parse (timestampUtc e)) (y :: l)) with
            | Some a, Some b => Some (Z.max a b)
            | _, _ => NaN
            end).
    rewrite Hparse, Hmax. split; [reflexivity|]. split.
    + destruct (Z.max_spec tx h) as [[_ ->]|[_ ->]].
      * now right.
      * left. exact Htime.
    + intros e [<-|Hin']; [lia|].
      specialize (Hle e Hin'). lia.
Qed.

Lemma sliceLast_split {A : Type} (n : nat) (l : list A) :
  l = firstn (List.length l - n) l ++ sliceLast n l.
Proof.
  unfold sliceLast. symmetry. apply firstn_skipn.
Qed.

Lemma sliceLast_nonempty {A : Type} (n : nat) (l : list A) :
  (0 < n)%nat -> l <> [] -> sliceLast n l <> [].
Proof.
  intros Hn Hl Hnil.
  assert (Hlen : List.length (sliceLast n l) = 0%nat) by now rewrite Hnil.
  unfold sliceLast in Hlen. rewrite length_skipn in Hlen.
  destruct l; [congruence|]. cbn [List.length] in Hlen. lia.
Qed.

Lemma sliceLast_In {A : Type} (n : nat) (l : list A) (x : A) :
  In x (sliceLast n l) -> In x l.
Proof.
  intros Hin. rewrite (sliceLast_split n l). apply in_or_app. now right.
Qed.

Lemma ascending_app_le (l1 l2 : list CareEvent) (a b : CareEvent) :
  ascending (l1 ++ l2) -> In a l1 -> In b l2 -> time a <= time b.
Proof.
  induction l1 as [|x l1 IH]; [intros _ []|].
  cbn [app]. intros Hsorted Ha Hb.
  apply StronglySorted_inv in Hsorted. destruct Hsorted as [Hrest Hhead].
  destruct Ha as [<-|Ha].
  - rewrite Forall_forall in Hhead. apply Hhead. apply in_or_app. now right.
  - now apply IH.
Qed.

Variable host : Host.

(** C6, as amended: the horizon is "now" only when the log has no real
    event at all; as soon as there is one, the horizon is the latest time
    stamp among the last three real events of the sorted log (the last one
    or two when there are fewer), which is the latest time stamp of all
    real events. *)
Theorem horizonUtc_latest_real (log : list CareEvent) (now : Z) :
  allParseable log = true ->
  let reals := filter isReal (sortByTime log) in
  realEvents host log now = reals
  /\ (reals = [] -> horizonUtc host log now = Some now)
  /\ (reals <> [] ->
      exists h,
        horizonUtc host log now = Some h
        /\ In h (map time (sliceLast 3 reals))
        /\ (forall e, In e (sliceLast 3 reals) -> time e <= h)
        /\ (forall e, In e log -> isReal e = true -> time e <= h)).
Proof.
  intros Hlog reals.
  assert (Hreals : realEvents host log now = reals) by apply realEvents_of_log.
  split; [exact Hreals|]. split.
  - intros Hnil. unfold horizonUtc. rewrite Hreals, Hnil. reflexivity.
  - intros Hsome.
    assert (Hparse : allParseable reals = true) by (unfold reals; auto with timesort).
    assert (Hlast : allParseable (sliceLast 3 reals) = true).
    { apply allParseable_Forall, Forall_forall. intros e He.
      apply sliceLast_In in He.
      apply allParseable_Forall in Hparse. rewrite Forall_forall in Hparse.
      now apply Hparse. }
    assert (Hne : sliceLast 3 reals <> [])
      by (apply sliceLast_nonempty; [lia|exact Hsome]).
    destruct (Math_max_latest _ Hne Hlast) as [h [Hmax [Hin Hle]]].
    exists h. split; [|split; [exact Hin|split; [exact Hle|]]].
    + unfold horizonUtc. rewrite Hreals.
      destruct (sliceLast 3 reals) as [|e0 rest] eqn:Hslice; [congruence|].
      exact Hmax.
    + intros e He Hreal.
      assert (Hin' : In e reals).
      { apply filter_In. split; [now apply sortByTime_In|exact Hreal]. }
      assert (Hsorted : ascending reals) by (unfold reals; auto with timesort).
      rewrite (sliceLast_split 3 reals) in Hin', Hsorted.
      apply in_app_or in Hin'. destruct Hin' as [Hfront|Hback]; [|now apply Hle].
      destruct (sliceLast 3 reals) as [|e0 rest] eqn:Hslice; [congruence|].
      assert (H0 : time e <= time e0).
      { apply (ascending_app_le _ _ e e0 Hsorted Hfront). now left. }
      assert (H1 : time e0 <= h) by (apply Hle; now left).
      lia.
Qed.

End Horizon.

(** C6, as stated, fails: with one real event, a first awake logged at
    07:00, and "now" at 10:00, there are fewer than three real events and
    the horizon is 07:00, not "now". *)
Lemma horizonUtc_single_real_not_now :
  let log := [logged "a" FirstAwake (after 0)] in
  List.length (realEvents utcHost log (after 180)) = 1%nat
  /\ horizonUtc utcHost log (after 180) = Some (after 0)
  /\ specHorizon utcHost log (after 180) = Some (after 180)
  /\ horizonUtc utcHost log (after 180) <> specHorizon utcHost log (after 180).
Proof.
  vm_compute. repeat split. discriminate.
Qed.

(** ** The ambient time zone *)

Section AmbientZone.

Variables h1 h2 : Host.
Variable cfg : ConstraintConfig.

Lemma withFirstAwake_same_day_start (log : list CareEvent) (now : Z) :
  getDayStartUtc h1 now = getDayStartUtc h2 now ->
  withFirstAwake h1 log now = withFirstAwake h2 log now.
Proof.
  intros Hday. unfold withFirstAwake. now rewrite Hday.
Qed.

Lemma normalizeEventLog_same_withFirstAwake
  (log : list CareEvent) (now : Z) (suppressed : list Suppressed.entry) :
  withFirstAwake h1 log now = withFirstAwake h2 log now ->
  normalizeEventLog h1 cfg log now suppressed
  = normalizeEventLog h2 cfg log now suppressed.
Proof.
  intros Hsame.
  unfold normalizeEventLog, horizonUtc, realEvents. now rewrite Hsame.
Qed.

Lemma getDayStartUtc_same_zone (now : Z) :
  resolveTimeZone h1 = resolveTimeZone h2 ->
  (forall t, formatToParts h1 (resolveTimeZone h1) t
             = formatToParts h2 (resolveTimeZone h1) t) ->
  getDayStartUtc h1 now = getDayStartUtc h2 now.
Proof.
  intros Hzone Hparts.
  unfold getDayStartUtc, getUtcMsFromZoned, getTimeZoneOffsetMs, getZonedParts.
  rewrite <- Hzone. now rewrite !Hparts.
Qed.

Lemma existsb_filter_kept (p q : CareEvent -> bool) (l : list CareEvent) :
  (forall e, In e l -> p e = true -> q e = true) ->
  existsb p l = true -> existsb p (filter q l) = true.
Proof.
  intros Hkeep Hex.
  apply existsb_exists in Hex. destruct Hex as [e [Hin Hp]].
  apply existsb_exists. exists e. split; [|exact Hp].
  apply filter_In. split; [exact Hin|now apply Hkeep].
Qed.

Lemma cleaned_has_first (log : list CareEvent) :
  existsb isFirstAwake log = true -> existsb isFirstAwake (cleaned log) = true.
Proof.
  intros Hex.
  assert (Hsorted : existsb isFirstAwake (ordered log) = true).
  { unfold ordered.
    now rewrite (existsb_perm isFirstAwake _ _ (sortByTime_perm log)). }
  unfold cleaned.
  destruct (existsb (fun event => isFirstAwake event && negb (autoPredicted event))
              (ordered log)) eqn:Hreal.
  - apply existsb_exists in Hreal. destruct Hreal as [r [Hin Hr]].
    apply andb_true_iff in Hr. destruct Hr as [Hfirst Hnot].
    apply existsb_exists. exists r. split; [|exact Hfirst].
    apply filter_In. split; [exact Hin|].
    apply negb_true_iff in Hnot. rewrite Hnot.
    now rewrite andb_false_r.
  - apply existsb_filter_kept; [|exact Hsorted].
    intros e _ _. now rewrite andb_false_r.
Qed.

(** C9, as amended: the Normalizer is a function of the log, the
    suppression list, "now" and the ambient time zone of the host.  Two
    hosts that resolve the same zone and read civil time in it alike give
    the same output; and the host plays no part once the log holds a first
    awake. *)
Theorem normalizeEventLog_function_of_inputs_and_zone
  (log : list CareEvent) (now : Z) (suppressed : list Suppressed.entry) :
  (resolveTimeZone h1 = resolveTimeZone h2 ->
   (forall t, formatToParts h1 (resolveTimeZone h1) t
              = formatToParts h2 (resolveTimeZone h1) t) ->
   normalizeEventLog h1 cfg log now suppressed
   = normalizeEventLog h2 cfg log now suppressed)
  /\ (existsb isFirstAwake log = true ->
      normalizeEventLog h1 cfg log now suppressed
      = normalizeEventLog h2 cfg log now suppressed).
Proof.
  split.
  - intros Hzone Hparts.
    apply normalizeEventLog_same_withFirstAwake, withFirstAwake_same_day_start.
    now apply getDayStartUtc_same_zone.
  - intros Hfirst.
    apply normalizeEventLog_same_withFirstAwake.
    unfold withFirstAwake. now rewrite (cleaned_has_first log Hfirst).
Qed.

End AmbientZone.

(** C9, as stated, fails: on the empty log at 10:00 UTC of 2024-01-15, with
    no suppression, a host in UTC and a host in Asia/Tokyo return different
    logs: the synthesized first awake is at 07:00 UTC on the one and at 07:00
    Tokyo time (22:00 UTC of the day before) on the other. *)
Lemma normalizeEventLog_differs_between_zones :
  getDayStartUtc utcHost (after 180) = after 0
  /\ getDayStartUtc tokyoHost (after 180) = after (-540)
  /\ normalizeEventLog utcHost defaultConfig [] (after 180) []
     <> normalizeEventLog tokyoHost defaultConfig [] (after 180) [].
Proof.
  split; [vm_compute; reflexivity|].
  split; [vm_compute; reflexivity|].
  vm_compute. discriminate.
Qed.

(** ** Idempotence of the Normalizer *)

Section Idempotence.

Variable host : Host.
Variable cfg : ConstraintConfig.
Variable now : Z.
Variable suppressed : list Suppressed.entry.

Lemma find_hd_filter (p : CareEvent -> bool) (l : list CareEvent) :
  find p l = hd_error (filter p l).
Proof.
  induction l as [|x l IH]; [reflexivity|].
  cbn. now destruct (p x).
Qed.

Lemma filter_none (p : CareEvent -> bool) (l : list CareEvent) :
  (forall e, In e l -> p e = false) -> filter p l = [].
Proof.
  induction l as [|x l IH]; [reflexivity|].
  intros Hnone. cbn [filter].
  rewrite (Hnone x (or_introl eq_refl)).
  apply IH. intros e He. apply Hnone. now right.
Qed.

Lemma filter_all (p : CareEvent -> bool) (l : list CareEvent) :
  (forall e, In e l -> p e = true) -> filter p l = l.
Proof.
  induction l as [|x l IH]; [reflexivity|].
  intros Hall. cbn [filter].
  rewrite (Hall x (or_introl eq_refl)).
  f_equal. apply IH. intros e He. apply Hall. now right.
Qed.

Lemma existsb_false_all (p : CareEvent -> bool) (l : list CareEvent) (e : CareEvent) :
  existsb p l = false -> In e l -> p e = false.
Proof.
  intros Hnone Hin.
  destruct (p e) eqn:Hp; [|reflexivity].
  assert (Hex : existsb p l = true) by (apply existsb_exists; now exists e).
  congruence.
Qed.

(** *** The log with its first awake *)

Lemma cleaned_allParseable (log : list CareEvent) :
  allParseable log = true -> allParseable (cleaned log) = true.
Proof.
  intros Hlog. unfold cleaned, ordered. auto with timesort.
Qed.

Lemma cleaned_ascending (log : list CareEvent) :
  allParseable log = true -> ascending (cleaned log).
Proof.
  intros Hlog. unfold cleaned, ordered. auto with timesort.
Qed.

Lemma withFirstAwake_allParseable (log : list CareEvent) :
  allParseable log = true -> allParseable (withFirstAwake host log now) = true.
Proof.
  intros Hlog.
  destruct (withFirstAwake_cases host now log) as [[_ ->]|[_ ->]].
  - now apply cleaned_allParseable.
  - rewrite allParseable_app, cleaned_allParseable by exact Hlog. reflexivity.
Qed.

(** The first awakes of the log with its first awake are in ascending
    order, and so are its real events. *)
Lemma withFirstAwake_firsts_ascending (log : list CareEvent) :
  allParseable log = true ->
  ascending (filter isFirstAwake (withFirstAwake host log now)).
Proof.
  intros Hlog.
  destruct (withFirstAwake_cases host now log) as [[_ ->]|[Hnone ->]].
  - now apply ascending_filter, cleaned_ascending.
  - rewrite filter_app.
    rewrite (filter_none isFirstAwake (cleaned log))
      by (intros e He; exact (existsb_false_all _ _ e Hnone He)).
    cbn. constructor; constructor.
Qed.

(** A real first awake in the log with its first awake leaves no
    auto-predicted first awake there. *)
Lemma withFirstAwake_real_wins (log : list CareEvent) (r e : CareEvent) :
  In r (withFirstAwake host log now) ->
  isFirstAwake r = true -> autoPredicted r = false ->
  In e (withFirstAwake host log now) ->
  isFirstAwake e && autoPredicted e = false.
Proof.
  intros Hr Hfirst Hreal He.
  assert (Hrc : In r (cleaned log)).
  { destruct (withFirstAwake_cases host now log) as [[_ Heq]|[_ Heq]];
      rewrite Heq in Hr; [exact Hr|].
    apply in_app_or in Hr. destruct Hr as [Hr|[<-|[]]]; [exact Hr|].
    discriminate Hreal. }
  assert (Hhas : existsb isFirstAwake (cleaned log) = true)
    by (apply existsb_exists; now exists r).
  assert (Heq : withFirstAwake host log now = cleaned log)
    by (unfold withFirstAwake; now rewrite Hhas).
  rewrite Heq in He.
  unfold cleaned in He, Hrc.
  apply filter_In in He. destruct He as [_ He].
  apply filter_In in Hrc. destruct Hrc as [Hrc _].
  assert (Hflag : existsb (fun event => isFirstAwake event && negb (autoPredicted event))
                    (ordered log) = true).
  { apply existsb_exists. exists r. split; [exact Hrc|].
    now rewrite Hfirst, Hreal. }
  rewrite Hflag, andb_true_r in He.
  now apply negb_true_iff in He.
Qed.

(** *** The merge *)

Lemma withinTolerance_self (c : CareEvent) (t : Z) :
  Date_parse (timestampUtc c) = Some t ->
  withinTolerance (type c) t (type c) (timestampUtc c) = true.
Proof.
  intros Hparse. unfold withinTolerance. rewrite Hparse.
  assert (Hrefl : EventType_eqb (type c) (type c) = true) by now destruct (type c).
  rewrite Hrefl. cbn [negb].
  apply Z.leb_le. rewrite Z.sub_diag. cbn. discriminate.
Qed.

Lemma merge_keeps_matches (candidates merged : list CareEvent)
  (kind : EventType) (t : Z) :
  hasMatchingEvent merged kind t = true ->
  hasMatchingEvent (fold_left (mergeCandidate suppressed) candidates merged) kind t
  = true.
Proof.
  intros Hmatch.
  destruct (merge_appends suppressed candidates merged) as [added [-> _]].
  unfold hasMatchingEvent in *. rewrite existsb_app, Hmatch. reflexivity.
Qed.

(** After the merge every candidate that is not suppressed has a match in
    the merged log: an earlier event or the candidate itself. *)
Lemma merge_covers (candidates merged : list CareEvent) (c : CareEvent) (t : Z) :
  In c candidates ->
  Date_parse (timestampUtc c) = Some t ->
  isSuppressedAuto suppressed (type c) t = false ->
  hasMatchingEvent (fold_left (mergeCandidate suppressed) candidates merged)
    (type c) t = true.
Proof.
  revert merged.
  induction candidates as [|c0 candidates IH]; intros merged [].
  - subst c0. intros Hparse Hfree.
    cbn [fold_left]. apply merge_keeps_matches.
    unfold mergeCandidate. rewrite Hparse, Hfree.
    destruct (hasMatchingEvent merged (type c) t) eqn:Hmatch; [exact Hmatch|].
    unfold hasMatchingEvent. rewrite existsb_app. cbn [existsb].
    rewrite (withinTolerance_self c t Hparse). cbn.
    now rewrite orb_true_r.
  - intros Hparse Hfree. cbn [fold_left]. now apply IH.
Qed.

(** A log in which every unsuppressed candidate already has its match is
    left as it is by the merge. *)
Lemma merge_fixed (candidates merged : list CareEvent) :
  (forall c t, In c candidates ->
               Date_parse (timestampUtc c) = Some t ->
               isSuppressedAuto suppressed (type c) t = false ->
               hasMatchingEvent merged (type c) t = true) ->
  fold_left (mergeCandidate suppressed) candidates merged = merged.
Proof.
  induction candidates as [|c candidates IH]; intros Hcovered; [reflexivity|].
  cbn [fold_left].
  assert (Hstep : mergeCandidate suppressed merged c = merged).
  { unfold mergeCandidate.
    destruct (Date_parse (timestampUtc c)) as [t|] eqn:Hparse; [|reflexivity].
    destruct (isSuppressedAuto suppressed (type c) t) eqn:Hfree; [reflexivity|].
    now rewrite (Hcovered c t (or_introl eq_refl) Hparse Hfree). }
  rewrite Hstep. apply IH.
  intros c' t' Hin. apply Hcovered. now right.
Qed.

(** *** The theorem *)


End Idempotence.


(** * More of the code

    The shape of the normalized log, the handlers of the component, the
    reducer's invariants and closed forms, civil time in a zone at a fixed
    offset, and the Projector while awake. *)

Section NormalizerStructure.

Variable host : Host.
Variable cfg : ConstraintConfig.
Variable now : Z.
Variable suppressed : list Suppressed.entry.

(** What the merge adds. *)
Lemma merge_adds_unmatched (candidates merged : list CareEvent) :
  exists added,
    fold_left (mergeCandidate suppressed) candidates merged = merged ++ added
    /\ (List.length added <= List.length candidates)%nat
    /\ Forall
         (fun a =>
            In a candidates
            /\ exists t, Date_parse (timestampUtc a) = Some t
                         /\ isSuppressedAuto suppressed (type a) t = false
                         /\ hasMatchingEvent merged (type a) t = false)
         added.
Proof.
  revert merged.
  induction candidates as [|c candidates IH]; intros merged.
  - exists []. split; [now rewrite app_nil_r|]. split; [cbn; lia|constructor].
  - cbn [fold_left].
    assert (Hweaken : forall merged' added,
              (forall k t, hasMatchingEvent merged' k t = false ->
                           hasMatchingEvent merged k t = false) ->
              Forall
                (fun a =>
                   In a candidates
                   /\ exists t, Date_parse (timestampUtc a) = Some t
                                /\ isSuppressedAuto suppressed (type a) t = false
                                /\ hasMatchingEvent merged' (type a) t = false)
                added ->
              Forall
                (fun a =>
                   In a (c :: candidates)
                   /\ exists t, Date_parse (timestampUtc a) = Some t
                                /\ isSuppressedAuto suppressed (type a) t = false
                                /\ hasMatchingEvent merged (type a) t = false)
                added).
    { intros merged' added Hmono. apply Forall_impl.
      intros a [Hin [t [Hp [Hs Hm]]]].
      split; [now right|]. exists t. repeat split; auto. }
    assert (Hsame : forall k t, hasMatchingEvent merged k t = false ->
                                hasMatchingEvent merged k t = false) by auto.
    unfold mergeCandidate at 2.
    destruct (Date_parse (timestampUtc c)) as [t|] eqn:Hparse.
    + destruct (isSuppressedAuto suppressed (type c) t) eqn:Hsupp.
      * destruct (IH merged) as [added [Heq [Hlen Hall]]].
        exists added. split; [exact Heq|]. split; [cbn; lia|].
        now apply (Hweaken merged).
      * destruct (hasMatchingEvent merged (type c) t) eqn:Hmatch.
        -- destruct (IH merged) as [added [Heq [Hlen Hall]]].
           exists added. split; [exact Heq|]. split; [cbn; lia|].
           now apply (Hweaken merged).
        -- destruct (IH (merged ++ [c])) as [added [Heq [Hlen Hall]]].
           exists (c :: added). split; [|split].
           ++ rewrite Heq, <- app_assoc. reflexivity.
           ++ cbn. lia.
           ++ constructor.
              ** split; [now left|]. exists t. now repeat split.
              ** apply (Hweaken (merged ++ [c])); [|exact Hall].
                 intros k t'. unfold hasMatchingEvent. rewrite existsb_app.
                 intros H. now apply orb_false_iff in H.
    + destruct (IH merged) as [added [Heq [Hlen Hall]]].
      exists added. split; [exact Heq|]. split; [cbn; lia|].
      now apply (Hweaken merged).
Qed.

(** The shape of the normalized log: the log with its first awake, and the
    synthesized events, sorted together. *)
Lemma normalizeEventLog_shape (log : list CareEvent) :
  exists added,
    normalizeEventLog host cfg log now suppressed
    = sortByTime (withFirstAwake host log now ++ added)
    /\ (List.length added <= 24)%nat
    /\ Forall
         (fun a =>
            autoPredicted a = true /\ isFirstAwake a = false
            /\ num_leb (Date_parse (timestampUtc a)) (horizonUtc host log now) = true
            /\ exists t, Date_parse (timestampUtc a) = Some t
                         /\ isSuppressedAuto suppressed (type a) t = false
                         /\ hasMatchingEvent (withFirstAwake host log now) (type a) t
                            = false)
         added.
Proof.
  unfold normalizeEventLog.
  assert (Hnone : exists added : list CareEvent,
            sortByTime (withFirstAwake host log now)
            = sortByTime (withFirstAwake host log now ++ added)
            /\ (List.length added <= 24)%nat
            /\ Forall
                 (fun a =>
                    autoPredicted a = true /\ isFirstAwake a = false
                    /\ num_leb (Date_parse (timestampUtc a)) (horizonUtc host log now)
                       = true
                    /\ exists t, Date_parse (timestampUtc a) = Some t
                                 /\ isSuppressedAuto suppressed (type a) t = false
                                 /\ hasMatchingEvent (withFirstAwake host log now)
                                      (type a) t = false)
                 added).
  { exists []. rewrite app_nil_r. split; [reflexivity|]. split; [cbn; lia|constructor]. }
  destruct (find isFirstAwake (withFirstAwake host log now)) as [firstWake|];
    [|exact Hnone].
  destruct (Date_parse (timestampUtc firstWake)) as [firstWakeUtc|]; [|exact Hnone].
  destruct (merge_adds_unmatched
              (buildBaselineEvents cfg firstWakeUtc (horizonUtc host log now))
              (withFirstAwake host log now)) as [added [Heq [Hlen Hall]]].
  exists added. split; [now rewrite Heq|]. split.
  - pose proof (buildBaselineEvents_at_most_eight_cycles cfg firstWakeUtc
                  (horizonUtc host log now)). lia.
  - rewrite Forall_forall in *. intros a Ha.
    destruct (Hall a Ha) as [Hcand Hrest].
    pose proof (baselineCycles_shape cfg _ _ _ a Hcand) as [Hauto [Hfirst _]].
    pose proof (baselineCycles_within_horizon cfg maxCycles firstWakeUtc
                  (horizonUtc host log now)) as Hwithin.
    rewrite Forall_forall in Hwithin.
    repeat split; auto.
Qed.

End NormalizerStructure.

Section NormalizerFacts.

Variable host : Host.
Variable cfg : ConstraintConfig.
Variable now : Z.
Variable suppressed : list Suppressed.entry.

Lemma withFirstAwake_predicted (log : list CareEvent) :
  existsb isFirstAwake log = false ->
  withFirstAwake host log now = cleaned log ++ [predictedFirstAwake host now].
Proof.
  intros Hnone. unfold withFirstAwake.
  assert (Hclean : existsb isFirstAwake (cleaned log) = false).
  { destruct (existsb isFirstAwake (cleaned log)) eqn:Hex; [|reflexivity].
    apply existsb_exists in Hex. destruct Hex as [e [Hin He]].
    apply cleaned_In in Hin.
    assert (Hex : existsb isFirstAwake log = true)
      by (apply existsb_exists; now exists e).
    congruence. }
  now rewrite Hclean.
Qed.

Lemma cleaned_keeps (log : list CareEvent) (e : CareEvent) :
  In e log -> autoPredicted e = false \/ isFirstAwake e = false -> In e (cleaned log).
Proof.
  intros Hin Hkeep. unfold cleaned, ordered.
  apply filter_In. split; [now apply sortByTime_In|].
  destruct Hkeep as [-> | ->]; [now rewrite andb_false_r|reflexivity].
Qed.

Lemma withFirstAwake_keeps (log : list CareEvent) (e : CareEvent) :
  In e log -> autoPredicted e = false \/ isFirstAwake e = false ->
  In e (withFirstAwake host log now).
Proof.
  intros Hin Hkeep.
  pose proof (cleaned_keeps log e Hin Hkeep) as Hc.
  destruct (withFirstAwake_cases host now log) as [[_ ->]|[_ ->]]; [exact Hc|].
  apply in_or_app. now left.
Qed.

Lemma normalizeEventLog_contains_withFirstAwake (log : list CareEvent) (e : CareEvent) :
  In e (withFirstAwake host log now) ->
  In e (normalizeEventLog host cfg log now suppressed).
Proof.
  intros Hin.
  destruct (normalizeEventLog_shape host cfg now suppressed log) as [added [-> _]].
  apply sortByTime_In, in_or_app. now left.
Qed.

(** X1: the normalized log always holds a first awake; for a log without one
    it is the synthesized first awake of the operational day, whatever the
    suppression list holds. *)
Theorem normalizeEventLog_has_first_awake (log : list CareEvent) :
  existsb isFirstAwake (normalizeEventLog host cfg log now suppressed) = true
  /\ (existsb isFirstAwake log = false ->
      In (predictedFirstAwake host now)
        (normalizeEventLog host cfg log now suppressed)).
Proof.
  split.
  - pose proof (withFirstAwake_has_first host now log) as Hex.
    apply existsb_exists in Hex. destruct Hex as [e [Hin He]].
    apply existsb_exists. exists e. split; [|exact He].
    now apply normalizeEventLog_contains_withFirstAwake.
  - intros Hnone.
    apply normalizeEventLog_contains_withFirstAwake.
    rewrite (withFirstAwake_predicted log Hnone).
    apply in_or_app. right. now left.
Qed.

(** X2: a real first awake wins: when the log holds a first awake that is not
    auto-predicted, the normalized log holds no auto-predicted first awake. *)
Theorem normalizeEventLog_real_first_awake_wins (log : list CareEvent) (e : CareEvent) :
  existsb isRealFirstAwake log = true ->
  In e (normalizeEventLog host cfg log now suppressed) ->
  isFirstAwake e = true ->
  autoPredicted e = false.
Proof.
  intros Hreal Hin Hfirst.
  apply existsb_exists in Hreal. destruct Hreal as [r [Hr Hrr]].
  apply andb_true_iff in Hrr. destruct Hrr as [Hrfirst Hrreal].
  apply negb_true_iff in Hrreal.
  destruct (normalizeEventLog_shape host cfg now suppressed log) as [added [Heq [_ Hall]]].
  rewrite Heq in Hin. apply sortByTime_In, in_app_or in Hin.
  destruct Hin as [Hin|Hin].
  - assert (HrW : In r (withFirstAwake host log now))
      by (apply withFirstAwake_keeps; auto).
    pose proof (withFirstAwake_real_wins host now log r e HrW Hrfirst Hrreal Hin) as H.
    rewrite Hfirst in H. exact H.
  - rewrite Forall_forall in Hall. destruct (Hall e Hin) as [_ [Hnot _]]. congruence.
Qed.

Lemma Permutation_filter_events (p : CareEvent -> bool) (l l' : list CareEvent) :
  Permutation l l' -> Permutation (filter p l) (filter p l').
Proof.
  induction 1 as [|x l l' _ IH|x y l|l l' l'' _ IH1 _ IH2]; cbn [filter].
  - constructor.
  - destruct (p x); [now constructor|exact IH].
  - destruct (p x), (p y); try apply Permutation_refl; apply perm_swap.
  - now apply Permutation_trans with (filter p l').
Qed.

(** X3: nothing logged is lost.  Every event of the input that is not an
    auto-predicted first awake is in the normalized log, and the events of
    the normalized log that are not auto-predicted are those of the input,
    one for one. *)
Theorem normalizeEventLog_keeps_logged (log : list CareEvent) :
  (forall e, In e log -> autoPredicted e = false \/ isFirstAwake e = false ->
             In e (normalizeEventLog host cfg log now suppressed))
  /\ Permutation (filter nonAuto (normalizeEventLog host cfg log now suppressed))
       (filter nonAuto log).
Proof.
  split.
  - intros e Hin Hkeep.
    now apply normalizeEventLog_contains_withFirstAwake, withFirstAwake_keeps.
  - destruct (normalizeEventLog_shape host cfg now suppressed log) as [added [-> [_ Hall]]].
    eapply Permutation_trans;
      [apply Permutation_filter_events, sortByTime_perm|].
    rewrite filter_app.
    rewrite (filter_none nonAuto added).
    2:{ intros a Ha. rewrite Forall_forall in Hall.
        destruct (Hall a Ha) as [Hauto _]. unfold nonAuto. now rewrite Hauto. }
    rewrite app_nil_r.
    assert (Hw : filter nonAuto (withFirstAwake host log now)
                 = filter nonAuto (cleaned log)).
    { destruct (withFirstAwake_cases host now log) as [[_ ->]|[_ ->]]; [reflexivity|].
      rewrite filter_app. cbn. now rewrite app_nil_r. }
    rewrite Hw. unfold cleaned, ordered.
    rewrite filter_filter_implied.
    + apply Permutation_filter_events, sortByTime_perm.
    + intros e He. unfold nonAuto in He. apply negb_true_iff in He.
      rewrite He. now rewrite andb_false_r.
Qed.

(** X4: for a log whose time stamps parse, the normalized log is in ascending
    order of time and all its time stamps parse. *)
Theorem normalizeEventLog_ascending (log : list CareEvent) :
  allParseable log = true ->
  ascending (normalizeEventLog host cfg log now suppressed)
  /\ allParseable (normalizeEventLog host cfg log now suppressed) = true.
Proof.
  intros Hlog.
  destruct (normalizeEventLog_shape host cfg now suppressed log) as [added [-> [_ Hall]]].
  assert (Hparse : allParseable (withFirstAwake host log now ++ added) = true).
  { rewrite allParseable_app, (withFirstAwake_allParseable host now log Hlog). cbn.
    apply allParseable_Forall. eapply Forall_impl; [|exact Hall].
    cbn. intros a [_ [_ [_ [t [Ht _]]]]]. unfold parseable. now rewrite Ht. }
  split; auto with timesort.
Qed.

(** X5: synthesis adds no duplicate: an event that the Normalizer adds lies
    more than 20 minutes from every event of its type in the input log. *)
Theorem normalizeEventLog_adds_no_duplicate
  (log : list CareEvent) (e e' : CareEvent) (t t' : Z) :
  In e (normalizeEventLog host cfg log now suppressed) ->
  ~ In e log ->
  isFirstAwake e = false ->
  In e' log ->
  type e' = type e ->
  Date_parse (timestampUtc e) = Some t ->
  Date_parse (timestampUtc e') = Some t' ->
  BASELINE_TOLERANCE_MIN * MS_MIN < Z.abs (t' - t).
Proof.
  intros Hin Hnew Hnot Hin' Hkind Ht Ht'.
  destruct (normalizeEventLog_shape host cfg now suppressed log) as [added [Heq [_ Hall]]].
  rewrite Heq in Hin. apply sortByTime_In, in_app_or in Hin.
  destruct Hin as [Hin|Hin].
  - apply withFirstAwake_In in Hin. destruct Hin as [Hin|Hin]; [contradiction|].
    subst e. discriminate Hnot.
  - rewrite Forall_forall in Hall.
    destruct (Hall e Hin) as [_ [_ [_ [t0 [Ht0 [_ Hmatch]]]]]].
    rewrite Ht in Ht0. injection Ht0 as <-.
    assert (HW : In e' (withFirstAwake host log now)).
    { apply withFirstAwake_keeps; [exact Hin'|]. right.
      unfold isFirstAwake in *. now rewrite Hkind. }
    assert (Hfar : withinTolerance (type e) t (type e') (timestampUtc e') = false).
    { destruct (withinTolerance (type e) t (type e') (timestampUtc e')) eqn:Hw;
        [|reflexivity].
      assert (Hex : hasMatchingEvent (withFirstAwake host log now) (type e) t = true).
      { unfold hasMatchingEvent. apply existsb_exists. exists e'. now split. }
      congruence. }
    unfold withinTolerance in Hfar. rewrite Hkind, Ht' in Hfar.
    assert (Hrefl : EventType_eqb (type e) (type e) = true) by now destruct (type e).
    rewrite Hrefl in Hfar. cbn [negb] in Hfar.
    now apply Z.leb_gt in Hfar.
Qed.

(** X6: the Normalizer adds at most 25 events: one first awake and eight
    cycles of three. *)
Theorem normalizeEventLog_length (log : list CareEvent) :
  (List.length log <= List.length (normalizeEventLog host cfg log now suppressed)
   + List.length (filter (fun e => isFirstAwake e && autoPredicted e) log))%nat
  /\ (List.length (normalizeEventLog host cfg log now suppressed)
      <= List.length log + 25)%nat.
Proof.
  destruct (normalizeEventLog_shape host cfg now suppressed log) as [added [-> [Hlen _]]].
  rewrite (Permutation_length (sortByTime_perm _)), length_app.
  assert (Hsort : List.length (sortByTime log) = List.length log)
    by apply Permutation_length, sortByTime_perm.
  assert (Hdrop : forall (q : CareEvent -> bool) l,
            (forall e, q e = false -> isFirstAwake e && autoPredicted e = true) ->
            (List.length l
             <= List.length (filter q l)
                + List.length (filter (fun e => isFirstAwake e && autoPredicted e) l))%nat).
  { intros q l Hq. induction l as [|x l IH]; [cbn; lia|].
    cbn [filter]. destruct (q x) eqn:Hqx.
    - destruct (isFirstAwake x && autoPredicted x); cbn [List.length]; lia.
    - rewrite (Hq x Hqx). cbn [List.length]. lia. }
  assert (Hclean : (List.length (cleaned log) <= List.length log)%nat).
  { unfold cleaned, ordered. rewrite <- Hsort. apply filter_length_le. }
  assert (Hkept : (List.length log
                   <= List.length (cleaned log)
                      + List.length
                          (filter (fun e => isFirstAwake e && autoPredicted e) log))%nat).
  { unfold cleaned, ordered.
    rewrite <- Hsort at 1.
    rewrite <- (Permutation_length
                  (Permutation_filter_events
                     (fun e => isFirstAwake e && autoPredicted e) _ _
                     (sortByTime_perm log))).
    apply Hdrop. intros e He. apply negb_false_iff in He.
    apply andb_true_iff in He. tauto. }
  destruct (withFirstAwake_cases host now log) as [[_ ->]|[_ ->]].
  - lia.
  - rewrite length_app. cbn [List.length]. lia.
Qed.

(** X7: no synthesized event lies after the horizon. *)
Theorem normalizeEventLog_within_horizon (log : list CareEvent) (e : CareEvent) :
  In e (normalizeEventLog host cfg log now suppressed) ->
  ~ In e log ->
  isFirstAwake e = false ->
  exists t h,
    Date_parse (timestampUtc e) = Some t
    /\ horizonUtc host log now = Some h
    /\ t <= h.
Proof.
  intros Hin Hnew Hnot.
  destruct (normalizeEventLog_shape host cfg now suppressed log) as [added [Heq [_ Hall]]].
  rewrite Heq in Hin. apply sortByTime_In, in_app_or in Hin.
  destruct Hin as [Hin|Hin].
  - apply withFirstAwake_In in Hin. destruct Hin as [Hin|Hin]; [contradiction|].
    subst e. discriminate Hnot.
  - rewrite Forall_forall in Hall.
    destruct (Hall e Hin) as [_ [_ [Hle [t [Ht _]]]]].
    rewrite Ht in Hle.
    destruct (horizonUtc host log now) as [h|]; [|discriminate].
    exists t, h. split; [exact Ht|]. split; [reflexivity|]. now apply Z.leb_le.
Qed.

End NormalizerFacts.

Section SuppressionGrowth.

Variable host : Host.
Variable cfg : ConstraintConfig.
Variable now : Z.

Lemma isSuppressedAuto_incl (smaller larger : list Suppressed.entry)
  (kind : EventType) (t : Z) :
  (forall entry, In entry smaller -> In entry larger) ->
  isSuppressedAuto larger kind t = false ->
  isSuppressedAuto smaller kind t = false.
Proof.
  intros Hincl Hfree.
  destruct (isSuppressedAuto smaller kind t) eqn:Hs; [|reflexivity].
  unfold isSuppressedAuto in *.
  apply existsb_exists in Hs. destruct Hs as [entry [Hin Hw]].
  assert (Hex : existsb
                  (fun entry0 =>
                     withinTolerance kind t (Suppressed.type entry0)
                       (Suppressed.timestampUtc entry0)) larger = true).
  { apply existsb_exists. exists entry. split; [now apply Hincl|exact Hw]. }
  congruence.
Qed.

(** Re-normalizing a normalized log under a suppression list that has only
    grown leaves it as it is. *)
Lemma normalizeEventLog_fixed_under_growth
  (log : list CareEvent) (suppressed suppressed' : list Suppressed.entry) :
  allParseable log = true ->
  (forall entry, In entry suppressed -> In entry suppressed') ->
  normalizeEventLog host cfg (normalizeEventLog host cfg log now suppressed)
    now suppressed'
  = normalizeEventLog host cfg log now suppressed.
Proof.
  intros Hlog Hincl.
  set (W := withFirstAwake host log now).
  assert (HW : allParseable W = true) by now apply withFirstAwake_allParseable.
  assert (Hfirst : exists firstWake firstWakeUtc,
             find isFirstAwake W = Some firstWake
             /\ Date_parse (timestampUtc firstWake) = Some firstWakeUtc).
  { pose proof (withFirstAwake_has_first host now log) as Hex. fold W in Hex.
    destruct (find isFirstAwake W) as [firstWake|] eqn:Hfind.
    - apply find_some in Hfind. destruct Hfind as [Hin _].
      apply allParseable_Forall in HW. rewrite Forall_forall in HW.
      specialize (HW firstWake Hin). unfold parseable in HW.
      destruct (Date_parse (timestampUtc firstWake)) as [firstWakeUtc|] eqn:Hutc;
        [|discriminate].
      now exists firstWake, firstWakeUtc.
    - apply existsb_exists in Hex. destruct Hex as [e [Hin He]].
      now rewrite (find_none _ _ Hfind e Hin) in He. }
  destruct Hfirst as [firstWake [firstWakeUtc [Hfind HfirstUtc]]].
  set (B := buildBaselineEvents cfg firstWakeUtc (horizonUtc host log now)).
  destruct (merge_appends suppressed B W) as [A [Hmerged HA]].
  set (M := normalizeEventLog host cfg log now suppressed).
  assert (HM : M = sortByTime (W ++ A)).
  { unfold M, normalizeEventLog. fold W. rewrite Hfind, HfirstUtc.
    fold B. now rewrite Hmerged. }
  rewrite Forall_forall in HA.
  assert (HAshape : forall a, In a A ->
            autoPredicted a = true /\ isFirstAwake a = false /\ parseable a = true).
  { intros a Ha. destruct (HA a Ha) as [Hcand _].
    exact (baselineCycles_shape cfg _ _ _ a Hcand). }
  assert (HWA : allParseable (W ++ A) = true).
  { rewrite allParseable_app, HW. cbn.
    apply allParseable_Forall, Forall_forall. intros a Ha.
    now apply HAshape. }
  assert (HMin : forall e, In e M <-> In e W \/ In e A).
  { intros e. rewrite HM, sortByTime_In. split.
    - apply in_app_or.
    - apply in_or_app. }
  assert (HMsorted : sortByTime M = M)
    by (rewrite HM; now apply sortByTime_idempotent).
  assert (Hcleaned : cleaned M = M).
  { unfold cleaned, ordered. rewrite HMsorted.
    apply filter_all. intros e He.
    destruct (existsb (fun event => isFirstAwake event && negb (autoPredicted event)) M)
      eqn:Hreal; [|now rewrite andb_false_r].
    rewrite andb_true_r. apply negb_true_iff.
    apply existsb_exists in Hreal. destruct Hreal as [r [Hr Hrr]].
    apply andb_true_iff in Hrr. destruct Hrr as [Hrfirst Hrreal].
    apply negb_true_iff in Hrreal.
    apply HMin in Hr. destruct Hr as [Hr|Hr].
    2:{ apply HAshape in Hr. destruct Hr as [Hauto _]. congruence. }
    apply HMin in He. destruct He as [He|He].
    - exact (withFirstAwake_real_wins host now log r e Hr Hrfirst Hrreal He).
    - apply HAshape in He. destruct He as [_ [Hnot _]]. now rewrite Hnot. }
  assert (Hwith : withFirstAwake host M now = M).
  { unfold withFirstAwake. rewrite Hcleaned.
    assert (Hhas : existsb isFirstAwake M = true).
    { pose proof (withFirstAwake_has_first host now log) as Hex. fold W in Hex.
      apply existsb_exists in Hex. destruct Hex as [e [Hin He]].
      apply existsb_exists. exists e. split; [|exact He].
      apply HMin. now left. }
    now rewrite Hhas. }
  assert (HfilterA : forall p,
            (forall a, In a A -> p a = false) ->
            filter p M = sortByTime (filter p W)).
  { intros p Hp. rewrite HM, filter_sortByTime by exact HWA.
    rewrite filter_app, (filter_none p A Hp), app_nil_r. reflexivity. }
  assert (Hreals : realEvents host M now = realEvents host log now).
  { rewrite (realEvents_of_log host now M), HMsorted.
    rewrite HfilterA.
    - change (filter isReal W) with (realEvents host log now).
      rewrite (realEvents_of_log host now log).
      apply sortByTime_of_ascending; auto with timesort.
    - intros a Ha. apply HAshape in Ha. destruct Ha as [Hauto _].
      unfold isReal. now rewrite Hauto. }
  assert (Hhorizon : horizonUtc host M now = horizonUtc host log now)
    by (unfold horizonUtc; now rewrite Hreals).
  assert (Hfind' : find isFirstAwake M = Some firstWake).
  { rewrite find_hd_filter, HfilterA.
    - rewrite sortByTime_of_ascending.
      + now rewrite <- find_hd_filter.
      + now apply allParseable_filter.
      + now apply withFirstAwake_firsts_ascending.
    - intros a Ha. now apply HAshape in Ha. }
  assert (Hfixed : fold_left (mergeCandidate suppressed') B M = M).
  { apply merge_fixed. intros c t Hc Hparse Hfree.
    unfold hasMatchingEvent.
    rewrite HM.
    rewrite (existsb_perm _ _ _ (sortByTime_perm (W ++ A))).
    rewrite <- Hmerged.
    apply (merge_covers suppressed B W c t Hc Hparse).
    exact (isSuppressedAuto_incl suppressed suppressed' _ _ Hincl Hfree). }
  unfold normalizeEventLog at 1. fold M.
  rewrite Hwith, Hfind', HfirstUtc, Hhorizon. fold B.
  now rewrite Hfixed.
Qed.

(** X8: suppression is not retroactive.  For a log whose time stamps parse,
    normalizing the normalized log again under a suppression list that
    contains the first one changes nothing: an event synthesized before its
    suppression entry existed stays in the log. *)
Theorem normalizeEventLog_suppression_not_retroactive
  (log : list CareEvent) (suppressed extra : list Suppressed.entry) :
  allParseable log = true ->
  normalizeEventLog host cfg (normalizeEventLog host cfg log now suppressed)
    now (suppressed ++ extra)
  = normalizeEventLog host cfg log now suppressed.
Proof.
  intros Hlog.
  apply normalizeEventLog_fixed_under_growth; [exact Hlog|].
  intros entry Hin. apply in_or_app. now left.
Qed.

End SuppressionGrowth.

Section Handlers.

Variable host : Host.
Variable cfg : ConstraintConfig.
Variable now : Z.

Lemma find_none_filter_all (eventId : string) (log : list CareEvent) :
  find (hasId eventId) log = None ->
  filter (fun event => negb (hasId eventId event)) log = log.
Proof.
  intros Hnone. apply filter_all. intros e He.
  now rewrite (find_none _ _ Hnone e He).
Qed.

(** X9: deleting an id that the log does not hold only rebuilds the state;
    and a deletion never shortens the suppression list: it leaves it or
    appends one entry, the type and time stamp of the deleted event. *)
Theorem deleteEvent_suppression (prev : AppState) (eventId : string) :
  (find (hasId eventId) (eventLog prev) = None ->
   deleteEvent host cfg prev eventId now
   = rebuildFromLog host cfg (eventLog prev) now (autoSuppressed prev))
  /\ (autoSuppressed (deleteEvent host cfg prev eventId now) = autoSuppressed prev
      \/ exists target,
           find (hasId eventId) (eventLog prev) = Some target
           /\ autoPredicted target = true
           /\ autoSuppressed (deleteEvent host cfg prev eventId now)
              = autoSuppressed prev
                ++ [Suppressed.mk (type target) (timestampUtc target)]).
Proof.
  unfold deleteEvent. split.
  - intros Hnone. rewrite Hnone. now rewrite (find_none_filter_all _ _ Hnone).
  - cbn [rebuildFromLog autoSuppressed].
    destruct (find (hasId eventId) (eventLog prev)) as [target|]; [|now left].
    destruct (autoPredicted target) eqn:Hauto; [right|now left].
    exists target. now repeat split.
Qed.

(** X10: a deleted synthesized event stays deleted.  After the deletion of an
    auto-predicted event other than a first awake, every event of its type
    within 20 minutes of it in the new log is an event of the old log with
    another id: the Normalizer has put nothing in its place. *)
Theorem deleteEvent_stays_deleted
  (prev : AppState) (eventId : string) (target e : CareEvent) (T t : Z) :
  find (hasId eventId) (eventLog prev) = Some target ->
  autoPredicted target = true ->
  isFirstAwake target = false ->
  Date_parse (timestampUtc target) = Some T ->
  In e (eventLog (deleteEvent host cfg prev eventId now)) ->
  type e = type target ->
  Date_parse (timestampUtc e) = Some t ->
  Z.abs (t - T) <= BASELINE_TOLERANCE_MIN * MS_MIN ->
  In e (eventLog prev) /\ hasId eventId e = false.
Proof.
  intros Hfind Hauto Hnot HT Hin Hkind Ht Hnear.
  unfold deleteEvent in Hin. rewrite Hfind, Hauto in Hin.
  cbn [rebuildFromLog eventLog] in Hin.
  apply normalizeEventLog_In in Hin.
  destruct Hin as [Hin|[Heq|[_ [_ [t0 [Ht0 Hfree]]]]]].
  - apply filter_In in Hin. destruct Hin as [Hin Hid].
    split; [exact Hin|now apply negb_true_iff in Hid].
  - subst e. unfold isFirstAwake in Hnot. rewrite <- Hkind in Hnot. discriminate Hnot.
  - rewrite Ht in Ht0. injection Ht0 as <-.
    exfalso.
    pose proof (isSuppressedAuto_false_far
                  (autoSuppressed prev
                   ++ [Suppressed.mk (type target) (timestampUtc target)])
                  (type e) t (Suppressed.mk (type target) (timestampUtc target)) T
                  Hfree) as Hfar.
    cbn [Suppressed.type Suppressed.timestampUtc] in Hfar.
    specialize (Hfar ltac:(apply in_or_app; right; now left)
                     ltac:(symmetry; exact Hkind) HT).
    lia.
Qed.

(** X11: an edit keeps the edited event: it is in the new log with the new
    instant and no longer auto-predicted; and when the edited event was
    auto-predicted its original type and time stamp are the last suppression
    entry. *)
Theorem commitEdit_keeps_edited
  (prev : AppState) (editId : string) (newTimestampUtc : Z) (e : CareEvent) :
  In e (eventLog prev) ->
  hasId editId e = true ->
  In (mkEvent (id e) (type e) (toISOString newTimestampUtc) false)
    (eventLog (commitEdit host cfg prev editId newTimestampUtc now))
  /\ exists target,
       find (hasId editId) (eventLog prev) = Some target
       /\ autoSuppressed (commitEdit host cfg prev editId newTimestampUtc now)
          = if autoPredicted target
            then autoSuppressed prev
                 ++ [Suppressed.mk (type target) (timestampUtc target)]
            else autoSuppressed prev.
Proof.
  intros Hin Hid. unfold commitEdit. cbn [rebuildFromLog eventLog autoSuppressed].
  split.
  - apply normalizeEventLog_contains_withFirstAwake, withFirstAwake_keeps.
    + apply sortByTime_In, in_map_iff. exists e. split; [|exact Hin].
      now rewrite Hid.
    + now left.
  - destruct (find (hasId editId) (eventLog prev)) as [target|] eqn:Hfind.
    + exists target. split; [reflexivity|]. now destruct (autoPredicted target).
    + now rewrite (find_none _ _ Hfind e Hin) in Hid.
Qed.

(** X12: logging never loses a logged event: after [applyEvent] the new log
    holds the appended event when it is not auto-predicted and every event
    of the previous log that is not auto-predicted, and the core state is the
    reduction of the new log. *)
Theorem applyEvent_keeps_logged (state : AppState) (event : CareEvent) :
  (autoPredicted event = false ->
   In event (eventLog (applyEvent host cfg state event now)))
  /\ (forall e, In e (eventLog state) -> autoPredicted e = false ->
                In e (eventLog (applyEvent host cfg state event now)))
  /\ core (applyEvent host cfg state event now)
     = recomputeCoreState (eventLog (applyEvent host cfg state event now)) now.
Proof.
  unfold applyEvent. cbn [eventLog core].
  split; [|split; [|reflexivity]].
  - intros Hreal.
    apply normalizeEventLog_contains_withFirstAwake, withFirstAwake_keeps.
    + apply in_or_app. right. now left.
    + now left.
  - intros e Hin Hreal.
    apply normalizeEventLog_contains_withFirstAwake, withFirstAwake_keeps.
    + apply in_or_app. now left.
    + now left.
Qed.

End Handlers.

Section Tick.

Variable host : Host.
Variable cfg : ConstraintConfig.
Variable now : Z.

(** X30: the clock tick is idempotent at a fixed "now": for a log whose time
    stamps all parse, a second tick at the same instant returns the state of
    the first, log, core fields and suppression list alike; and the
    suppression list after a tick is always empty. *)
Theorem tick_idempotent (prev : AppState) :
  allParseable (eventLog prev) = true ->
  tick host cfg (tick host cfg prev now) now = tick host cfg prev now
  /\ autoSuppressed (tick host cfg prev now) = [].
Proof.
  intros Hlog. split; [|reflexivity].
  unfold tick, rebuildFromLog. cbn [eventLog].
  rewrite (normalizeEventLog_fixed_under_growth host cfg now (eventLog prev) [] []);
    [reflexivity|exact Hlog|].
  intros entry Hin. exact Hin.
Qed.

(** The tick passes no suppression list: a synthesized feed that was deleted
    is back after the next tick. *)
Remark tick_restores_deleted_event :
  let log := [logged "a" FirstAwake (after 0); logged "b" SolidsGiven (after 360)] in
  let prev := rebuildFromLog utcHost (configWithFeed 120) log (after 400) [] in
  let feed :=
    mkEvent ("auto-feed-" ++ string_of_Z (after 120)) MilkGiven
      (toISOString (after 120)) true in
  let deleted :=
    deleteEvent utcHost (configWithFeed 120) prev (id feed) (after 400) in
  In feed (eventLog prev)
  /\ ~ In feed (eventLog deleted)
  /\ In feed (eventLog (tick utcHost (configWithFeed 120) deleted (after 400))).
Proof.
  intros log prev feed deleted.
  split; [vm_compute; repeat (first [left; reflexivity|right])|].
  split; [|vm_compute; repeat (first [left; reflexivity|right])].
  vm_compute. intros H.
  repeat (destruct H as [H|H]; [discriminate H|]). exact H.
Qed.

End Tick.

Section ReducerFacts.

Lemma computeSleepPressure_bounds (wake : option Z) (napMin : option Q) (now : Z) :
  (0 <= computeSleepPressure wake napMin now <= 1)%Q.
Proof.
  unfold computeSleepPressure.
  destruct wake as [w|]; [|split; discriminate].
  destruct (w =? 0); [split; discriminate|].
  split.
  - apply Q.min_glb; [discriminate|].
    assert (H0 : (0 <= Qmax (0 # 1) (inject_Z (now - w) / inject_Z MS_MIN))%Q)
      by apply Q.le_max_l.
    assert (H1 : (0 <= Qmax (0 # 1) (inject_Z (now - w) / inject_Z MS_MIN) / (150 # 1))%Q).
    { apply Qle_shift_div_l; [reflexivity|]. now rewrite Qmult_0_l. }
    assert (H2 : (0 <= match napMin with
                       | Some d => if Qltb d (45 # 1) then 15 # 100 else 0 # 1
                       | None => 0 # 1
                       end)%Q).
    { destruct napMin as [d|]; [destruct (Qltb d (45 # 1))|]; discriminate. }
    rewrite <- (Qplus_0_l 0). now apply Qplus_le_compat.
  - apply Q.le_min_l.
Qed.

(** X13: the sleep pressure of the reduced state lies between 0 and 1. *)
Theorem estimatedSleepPressure_bounds (events : list CareEvent) (now : Z) :
  (0 <= estimatedSleepPressure (recomputeCoreState events now) <= 1)%Q.
Proof.
  rewrite recomputeCoreState_pressure. apply computeSleepPressure_bounds.
Qed.

Lemma computeSleepPressure_monotone (wake : option Z) (napMin : option Q)
  (now1 now2 : Z) :
  now1 <= now2 ->
  (computeSleepPressure wake napMin now1 <= computeSleepPressure wake napMin now2)%Q.
Proof.
  intros Hle. unfold computeSleepPressure.
  destruct wake as [w|]; [|apply Qle_refl].
  destruct (w =? 0); [apply Qle_refl|].
  apply Q.min_le_compat_l.
  apply Qplus_le_compat; [|apply Qle_refl].
  apply Qmult_le_compat_r; [|discriminate].
  apply Q.max_le_compat_l.
  apply Qmult_le_compat_r; [|discriminate].
  rewrite <- Zle_Qle. lia.
Qed.

Lemma reduceEvent_guard (now1 now2 : Z) (acc : CoreState * Z) (event : CareEvent) :
  countsAt now1 event = countsAt now2 event ->
  reduceEvent now1 acc event = reduceEvent now2 acc event.
Proof.
  unfold countsAt, reduceEvent. destruct acc as [s total].
  destruct (Date_parse (timestampUtc event)) as [t|]; [|reflexivity].
  intros Hsame.
  rewrite !Z.ltb_antisym, Hsame. reflexivity.
Qed.

Lemma fold_reduce_guard (now1 now2 : Z) (events : list CareEvent) (acc : CoreState * Z) :
  (forall e, In e events -> countsAt now1 e = countsAt now2 e) ->
  fold_left (reduceEvent now1) events acc = fold_left (reduceEvent now2) events acc.
Proof.
  revert acc. induction events as [|e events IH]; intros acc Hsame; [reflexivity|].
  cbn [fold_left].
  rewrite (reduceEvent_guard now1 now2 acc e) by (apply Hsame; now left).
  apply IH. intros e' He'. apply Hsame. now right.
Qed.

(** X14: while no event of the log falls between two instants, the wake and
    nap history of the reduced state is the same at both and the sleep
    pressure does not decrease from the earlier to the later. *)
Theorem estimatedSleepPressure_monotone (events : list CareEvent) (now1 now2 : Z) :
  now1 <= now2 ->
  (forall e, In e events -> countsAt now1 e = countsAt now2 e) ->
  let st1 := recomputeCoreState events now1 in
  let st2 := recomputeCoreState events now2 in
  lastWakeTime st1 = lastWakeTime st2
  /\ lastNapDuration st1 = lastNapDuration st2
  /\ totalDaySleep st1 = totalDaySleep st2
  /\ (estimatedSleepPressure st1 <= estimatedSleepPressure st2)%Q.
Proof.
  intros Hle Hsame st1 st2.
  assert (Hfold := fold_reduce_guard now1 now2 events (initialCoreState, 0) Hsame).
  unfold st1, st2.
  rewrite !recomputeCoreState_pressure.
  unfold recomputeCoreState. rewrite Hfold.
  destruct (fold_left (reduceEvent now2) events (initialCoreState, 0)) as [s total].
  cbn [lastWakeTime lastNapDuration totalDaySleep].
  repeat split. now apply computeSleepPressure_monotone.
Qed.

End ReducerFacts.

Section ReducerInvariants.

Variable now : Z.

Lemma reduceEvent_invariant (acc : CoreState * Z) (event : CareEvent) :
  loopInvariant now acc -> loopInvariant now (reduceEvent now acc event).
Proof.
  destruct acc as [s total]. unfold loopInvariant. cbn [fst snd].
  intros [Hw [Hs [He [Hf [Ht Hd]]]]].
  assert (Hsame : notAfter now (lastWakeTime s)
                  /\ notAfter now (lastNapStart s)
                  /\ notAfter now (lastNapEnd s)
                  /\ notAfter now (lastFeedTime s)
                  /\ 0 <= total
                  /\ forall d, lastNapDuration s = Some d ->
                               0 <= d <= total
                               /\ lastNapEnd s <> None /\ lastNapStart s <> None)
    by tauto.
  unfold reduceEvent.
  destruct (Date_parse (timestampUtc event)) as [t|]; [|exact Hsame].
  destruct (now <? t) eqn:Hlate; [exact Hsame|].
  apply Z.ltb_ge in Hlate.
  assert (Hkeep : forall d, lastNapDuration s = Some d ->
                            0 <= d <= total /\ lastNapEnd s <> None) by
    (intros d Hd'; destruct (Hd d Hd') as [? [? ?]]; now split).
  destruct (type event); try exact Hsame; cbn -[Z.max];
    try (destruct (lastNapStart s) as [napStart|] eqn:Hstart; cbn -[Z.max];
         [destruct (negb (napStart =? 0)); cbn -[Z.max]|]; rewrite ?Hstart);
    repeat split; auto; try lia; try discriminate;
    try (match goal with
         | H : lastNapDuration s = Some _ |- _ => destruct (Hd _ H) as [? [? ?]]
         end; auto; try lia; try discriminate);
    try (match goal with
         | H : Some _ = Some _ |- _ => injection H as <-
         end; try lia; discriminate).
Qed.

Lemma fold_reduce_invariant (events : list CareEvent) (acc : CoreState * Z) :
  loopInvariant now acc -> loopInvariant now (fold_left (reduceEvent now) events acc).
Proof.
  revert acc. induction events as [|e events IH]; intros acc Hinv; [exact Hinv|].
  cbn [fold_left]. apply IH. now apply reduceEvent_invariant.
Qed.

Lemma initial_invariant : loopInvariant now (initialCoreState, 0).
Proof.
  unfold loopInvariant. cbn. repeat split; try lia. all: discriminate.
Qed.

(** X15: in the reduced state no recorded instant is after "now", the day's
    sleep and the last nap duration are not negative, the last nap duration
    is at most the day's sleep and comes with a nap start and a nap end, and
    the time since the last feed is "now" minus the last feed time. *)
Theorem recomputeCoreState_invariants (events : list CareEvent) :
  let st := recomputeCoreState events now in
  notAfter now (lastWakeTime st)
  /\ notAfter now (lastNapStart st)
  /\ notAfter now (lastNapEnd st)
  /\ notAfter now (lastFeedTime st)
  /\ 0 <= totalDaySleep st
  /\ (forall d, lastNapDuration st = Some d ->
                0 <= d <= totalDaySleep st
                /\ lastNapEnd st <> None /\ lastNapStart st <> None)
  /\ (forall v, timeSinceLastFeed st = Some v ->
                exists feed, lastFeedTime st = Some feed /\ v = now - feed /\ 0 <= v).
Proof.
  pose proof (fold_reduce_invariant events _ initial_invariant) as Hinv.
  unfold recomputeCoreState.
  destruct (fold_left (reduceEvent now) events (initialCoreState, 0)) as [s total].
  unfold loopInvariant in Hinv. cbn [fst snd] in Hinv.
  destruct Hinv as [Hw [Hs [He [Hf [Ht Hd]]]]].
  cbn [lastWakeTime lastNapStart lastNapEnd lastFeedTime totalDaySleep
       lastNapDuration timeSinceLastFeed].
  do 5 (split; [assumption|]). split; [exact Hd|].
  intros v Hv.
  destruct (lastFeedTime s) as [feed|]; [|discriminate].
  destruct (feed =? 0); [discriminate|].
  injection Hv as <-. cbn in Hf.
  exists feed. repeat split; lia.
Qed.

Lemma reduceEvent_routine (acc : CoreState * Z) (event : CareEvent) :
  isRoutineStarted event = true -> reduceEvent now acc event = acc.
Proof.
  unfold isRoutineStarted, reduceEvent. destruct acc as [s total].
  intros Hr.
  destruct (Date_parse (timestampUtc event)); [|reflexivity].
  destruct (now <? z); [reflexivity|].
  destruct (type event); try discriminate Hr. reflexivity.
Qed.

(** X16: routine logs do not affect the state: the reduced state of a log is
    that of the log without its [RoutineStarted] events. *)
Theorem recomputeCoreState_ignores_routines (events : list CareEvent) :
  recomputeCoreState (filter (fun e => negb (isRoutineStarted e)) events) now
  = recomputeCoreState events now.
Proof.
  unfold recomputeCoreState.
  assert (Hfold : forall acc,
            fold_left (reduceEvent now)
              (filter (fun e => negb (isRoutineStarted e)) events) acc
            = fold_left (reduceEvent now) events acc).
  { induction events as [|e events IH]; intros acc; [reflexivity|].
    cbn [filter fold_left].
    destruct (isRoutineStarted e) eqn:Hr; cbn [negb].
    - rewrite (reduceEvent_routine acc e Hr). apply IH.
    - cbn [fold_left]. apply IH. }
  now rewrite Hfold.
Qed.

Lemma reduceEvent_relabel (acc : CoreState * Z) (event : CareEvent) :
  reduceEvent now acc (relabel event) = reduceEvent now acc event.
Proof.
  unfold reduceEvent, relabel. destruct acc as [s total].
  cbn [timestampUtc type].
  destruct (Date_parse (timestampUtc event)); [|reflexivity].
  destruct (now <? z); [reflexivity|].
  now destruct (type event).
Qed.

(** X17: the reducer does not tell solids from milk nor a sleep from a nap
    start: relabelling [SolidsGiven] as [MilkGiven] and [Asleep] as
    [NapStarted] throughout a log leaves the reduced state unchanged. *)
Theorem recomputeCoreState_relabel (events : list CareEvent) :
  recomputeCoreState (map relabel events) now = recomputeCoreState events now.
Proof.
  unfold recomputeCoreState.
  assert (Hfold : forall acc,
            fold_left (reduceEvent now) (map relabel events) acc
            = fold_left (reduceEvent now) events acc).
  { induction events as [|e events IH]; intros acc; [reflexivity|].
    cbn [map fold_left]. rewrite reduceEvent_relabel. apply IH. }
  now rewrite Hfold.
Qed.

(** X18: 150 minutes after the last wake the pressure is 1 and the level
    "high", whatever the naps and feeds. *)
Theorem awake_150_minutes_is_high (events : list CareEvent) (wake : Z) :
  let st := recomputeCoreState events now in
  lastWakeTime st = Some wake ->
  wake <> 0 ->
  150 * MS_MIN <= now - wake ->
  (estimatedSleepPressure st == 1)%Q /\ regulationLevel st = high.
Proof.
  intros st Hwake Hnz Hlong.
  assert (Hp : (estimatedSleepPressure st == 1)%Q).
  { unfold st. rewrite recomputeCoreState_pressure. fold st. rewrite Hwake.
    unfold computeSleepPressure.
    apply Z.eqb_neq in Hnz. rewrite Hnz.
    apply Q.min_l.
    assert (H1 : (1 <= Qmax (0 # 1) (inject_Z (now - wake) / inject_Z MS_MIN) / (150 # 1))%Q).
    { apply Qle_shift_div_l; [reflexivity|].
      eapply Qle_trans; [|apply Q.le_max_r].
      apply Qle_shift_div_l; [reflexivity|].
      unfold MS_MIN in *. unfold Qle, Qmult, inject_Z. cbn. lia. }
    assert (H2 : (0 <= match minutesIfTruthy (lastNapDuration st) with
                       | Some d => if Qltb d (45 # 1) then 15 # 100 else 0 # 1
                       | None => 0 # 1
                       end)%Q).
    { destruct (minutesIfTruthy (lastNapDuration st)) as [d|];
        [destruct (Qltb d (45 # 1))|]; discriminate. }
    rewrite <- (Qplus_0_r 1). now apply Qplus_le_compat. }
  split; [exact Hp|].
  unfold st. rewrite recomputeCoreState_level. fold st.
  unfold levelFromSignals.
  assert (Hb : Qle_bool (8 # 10) (estimatedSleepPressure st) = true).
  { apply Qle_bool_iff. rewrite Hp. discriminate. }
  now rewrite Hb.
Qed.

End ReducerInvariants.

Section ClosedForms.

Variable now : Z.

Lemma EventType_eqb_eq (a b : EventType) : EventType_eqb a b = true <-> a = b.
Proof.
  destruct a, b; cbn; split; intros H; try reflexivity; discriminate H.
Qed.

Lemma pop_snoc {A : Type} (xs : list A) (x : A) : pop (xs ++ [x]) = Some x.
Proof.
  induction xs as [|y xs IH]; [reflexivity|].
  cbn [app]. destruct (xs ++ [x]) eqn:Happ.
  - now destruct xs.
  - cbn [pop]. exact IH.
Qed.

Lemma lastCounted_snoc (wanted : EventType -> bool) (log : list CareEvent)
  (e : CareEvent) :
  lastCounted wanted (log ++ [e]) now
  = if countsAt now e && wanted (type e) then Some (time e)
    else lastCounted wanted log now.
Proof.
  unfold lastCounted. rewrite filter_app. cbn [filter].
  destruct (countsAt now e && wanted (type e)).
  - rewrite map_app. cbn [map]. apply pop_snoc.
  - now rewrite app_nil_r.
Qed.

Lemma reduceEvent_wake_feed (acc : CoreState * Z) (e : CareEvent) :
  lastWakeTime (fst (reduceEvent now acc e))
  = (if countsAt now e && isWake (type e) then Some (time e)
     else lastWakeTime (fst acc))
  /\ lastFeedTime (fst (reduceEvent now acc e))
     = (if countsAt now e && isFeed (type e) then Some (time e)
        else lastFeedTime (fst acc)).
Proof.
  destruct acc as [s total]. unfold reduceEvent, countsAt, time.
  destruct (Date_parse (timestampUtc e)) as [t|]; [|now split].
  rewrite Z.ltb_antisym.
  destruct (t <=? now); cbn [negb]; [|now split].
  destruct (type e); cbn; try (now split).
  destruct (lastNapStart s) as [napStart|]; cbn; [|now split].
  destruct (negb (napStart =? 0)); now split.
Qed.

(** The last wake and the last feed of the reduced state, in closed form. *)
Lemma recomputeCoreState_lastCounted (events : list CareEvent) :
  let st := recomputeCoreState events now in
  lastWakeTime st = lastCounted isWake events now
  /\ lastFeedTime st = lastCounted isFeed events now.
Proof.
  assert (Hfold : lastWakeTime (fst (fold_left (reduceEvent now) events (initialCoreState, 0)))
                  = lastCounted isWake events now
                  /\ lastFeedTime (fst (fold_left (reduceEvent now) events (initialCoreState, 0)))
                     = lastCounted isFeed events now).
  { induction events as [|e events IH] using rev_ind; [now split|].
    rewrite fold_left_app. cbn [fold_left].
    rewrite !lastCounted_snoc.
    destruct (reduceEvent_wake_feed
                (fold_left (reduceEvent now) events (initialCoreState, 0)) e)
      as [Hw Hf].
    destruct IH as [IHw IHf].
    rewrite Hw, Hf, IHw, IHf. now split. }
  intros st. unfold st, recomputeCoreState.
  destruct (fold_left (reduceEvent now) events (initialCoreState, 0)) as [s total].
  exact Hfold.
Qed.

(** X19: the last wake time of the reduced state is the time stamp of the last
    event of the log, in log order, that counts at "now" and is a first
    awake or a nap end; the last feed time is that of the last counted milk
    or solids.  The last feed time is null exactly when [getLastEvent] finds
    neither milk nor solids. *)
Theorem recomputeCoreState_last_events (events : list CareEvent) :
  let st := recomputeCoreState events now in
  lastWakeTime st = lastCounted isWake events now
  /\ lastFeedTime st = lastCounted isFeed events now
  /\ (lastFeedTime st = None <->
      getLastEvent events now MilkGiven = None
      /\ getLastEvent events now SolidsGiven = None).
Proof.
  intros st.
  destruct (recomputeCoreState_lastCounted events) as [Hw Hf]. fold st in Hw, Hf.
  split; [exact Hw|]. split; [exact Hf|].
  rewrite Hf. clear.
  assert (Hget : forall kind,
            getLastEvent events now kind = None <->
            forall e, In e events -> type e = kind -> countsAt now e = false).
  { intros kind. unfold getLastEvent.
    induction events as [|e events IH] using rev_ind.
    - cbn. split; [intros _ e []|reflexivity].
    - rewrite filter_app, flat_map_app, filter_app. cbn [filter].
      assert (Hsplit : (forall e0, In e0 (events ++ [e]) -> type e0 = kind ->
                                   countsAt now e0 = false)
                       <-> (forall e0, In e0 events -> type e0 = kind ->
                                       countsAt now e0 = false)
                           /\ (type e = kind -> countsAt now e = false)).
      { split.
        - intros H. split.
          + intros e0 H0. apply H, in_or_app. now left.
          + apply H, in_or_app. right. now left.
        - intros [H1 H2] e0 H0. apply in_app_or in H0.
          destruct H0 as [H0|[<-|[]]]; auto. }
      rewrite Hsplit, <- IH. clear Hsplit IH.
      unfold countsAt.
      destruct (EventType_eqb (type e) kind) eqn:Hk.
      + assert (Hkind : type e = kind) by now apply EventType_eqb_eq.
        cbn [flat_map]. rewrite app_nil_r.
        destruct (Date_parse (timestampUtc e)) as [t|].
        * cbn [filter]. destruct (t <=? now) eqn:Ht.
          -- rewrite pop_snoc. split; [discriminate|].
             intros [_ H]. specialize (H Hkind). discriminate.
          -- rewrite app_nil_r. tauto.
        * cbn [filter]. rewrite app_nil_r. tauto.
      + assert (Hkind : type e <> kind).
        { intros Heq. apply EventType_eqb_eq in Heq. congruence. }
        cbn [flat_map filter]. rewrite app_nil_r. tauto. }
  rewrite !Hget.
  unfold lastCounted.
  split.
  - intros Hnone.
    assert (Hnil : filter (fun event => countsAt now event && isFeed (type event)) events = []).
    { destruct (filter _ events) as [|x l] eqn:Hfil; [reflexivity|].
      exfalso. clear Hfil. revert x Hnone.
      induction l as [|y l IH]; intros x Hnone; [discriminate|].
      cbn [map pop] in Hnone. destruct (map time l) eqn:Hm.
      - destruct l; discriminate.
      - apply (IH y). cbn [map]. rewrite Hm. exact Hnone. }
    split; intros e He Hk;
      (destruct (countsAt now e) eqn:Hc; [|reflexivity]);
      (assert (Hin : In e (filter (fun event => countsAt now event && isFeed (type event))
                             events))
        by (apply filter_In; split; [exact He|now rewrite Hc, Hk]));
      rewrite Hnil in Hin; destruct Hin.
  - intros [Hm Hs].
    rewrite (filter_none _ events); [reflexivity|].
    intros e He.
    destruct (type e) eqn:Hk; cbn; try apply andb_false_r.
    + now rewrite (Hm e He Hk).
    + now rewrite (Hs e He Hk).
Qed.

End ClosedForms.

Section CivilTime.

Lemma allFrom_spec (fuel : nat) (i : Z) (f : Z -> bool) :
  allFrom fuel i f = true ->
  forall j, i <= j < i + Z.of_nat fuel -> f j = true.
Proof.
  revert i. induction fuel as [|k IH]; intros i H j Hj.
  - cbn in Hj. lia.
  - cbn [allFrom] in H. apply andb_true_iff in H. destruct H as [Hi Hk].
    destruct (Z.eq_dec j i) as [->|Hne]; [exact Hi|].
    apply (IH (i + 1) Hk). lia.
Qed.

(** Every day of the era of 146097 days passes the check. *)
Lemma era_checked : allFrom (Z.to_nat 146097) 0 doeOk = true.
Proof.
  vm_compute. reflexivity.
Qed.

(** The civil date of a day number leads back to the day number. *)
Lemma daysFromCivil_civilFromDays (z : Z) :
  let '(y, m, d) := civilFromDays z in
  daysFromCivil y m d = z /\ 1 <= m <= 12 /\ 1 <= d <= 31
  /\ (z + 719468) / 146097 * 400 <= y.
Proof.
  unfold civilFromDays.
  set (zz := z + 719468).
  set (era := zz / 146097).
  set (doe := zz - era * 146097).
  assert (Hdoe : 0 <= doe < 146097).
  { unfold doe, era. pose proof (Z.div_mod zz 146097 ltac:(lia)).
    pose proof (Z.mod_pos_bound zz 146097 ltac:(lia)). lia. }
  pose proof (allFrom_spec _ _ _ era_checked doe) as Hok.
  rewrite Z2Nat.id in Hok by lia.
  specialize (Hok ltac:(lia)).
  unfold doeOk in Hok.
  cbv zeta in Hok |- *.
  set (yoe := (doe - doe / 1460 + doe / 36524 - doe / 146096) / 365) in *.
  set (doy := doe - (365 * yoe + yoe / 4 - yoe / 100)) in *.
  set (mp := (5 * doy + 2) / 153) in *.
  set (d := doy - (153 * mp + 2) / 5 + 1) in *.
  set (m := if mp <? 10 then mp + 3 else mp - 9) in *.
  repeat (apply andb_true_iff in Hok; destruct Hok as [Hok ?]).
  repeat match goal with
         | H : (_ <=? _) = true |- _ => apply Z.leb_le in H
         | H : (_ <? _) = true |- _ => apply Z.ltb_lt in H
         | H : (_ =? _) = true |- _ => apply Z.eqb_eq in H
         end.
  unfold daysFromCivil. cbv zeta.
  assert (Hy : (if m <=? 2
                then (if m <=? 2 then yoe + era * 400 + 1 else yoe + era * 400) - 1
                else (if m <=? 2 then yoe + era * 400 + 1 else yoe + era * 400))
               = yoe + era * 400) by (destruct (m <=? 2); lia).
  rewrite Hy.
  assert (Hera : (yoe + era * 400) / 400 = era).
  { rewrite Z.div_add by lia. rewrite Z.div_small by lia. lia. }
  rewrite Hera.
  replace (yoe + era * 400 - era * 400) with yoe by lia.
  split; [|split; [lia|split; [lia|]]].
  - fold zz in doe. unfold doe in *. lia.
  - destruct (m <=? 2); lia.
Qed.

Lemma daysFromCivil_day (y m d : Z) :
  daysFromCivil y m 1 + (d - 1) = daysFromCivil y m d.
Proof.
  unfold daysFromCivil. cbv zeta. lia.
Qed.

(** [Date.UTC] of the civil fields of a fixed-offset zone is the local
    minute, counted in milliseconds. *)
Lemma Date_UTC_fixedOffsetParts (offsetMin : string -> Z) (timeZone : string) (t : Z) :
  - 525600000 <= t / MS_MIN + offsetMin timeZone ->
  let p := fixedOffsetParts offsetMin timeZone t in
  Date_UTC (year p) (month p - 1) (day p) (hour p) (minute p)
  = (t / MS_MIN + offsetMin timeZone) * MS_MIN.
Proof.
  intros Hrange. unfold fixedOffsetParts.
  set (localMin := t / MS_MIN + offsetMin timeZone) in *.
  pose proof (daysFromCivil_civilFromDays (localMin / 1440)) as Hcivil.
  destruct (civilFromDays (localMin / 1440)) as [[y m] d].
  destruct Hcivil as [Hdays [Hm [Hd Hy]]].
  cbn [year month day hour minute].
  unfold Date_UTC.
  assert (Hera : 1 <= (localMin / 1440 + 719468) / 146097).
  { apply Z.div_le_lower_bound; [lia|].
    assert (-365000 <= localMin / 1440) by (apply Z.div_le_lower_bound; lia).
    lia. }
  assert (Hyear : (0 <=? y) && (y <=? 99) = false).
  { apply andb_false_iff. right. apply Z.leb_gt. lia. }
  rewrite Hyear.
  assert (Hmdiv : (m - 1) / 12 = 0) by (apply Z.div_small; lia).
  assert (Hmmod : (m - 1) mod 12 = m - 1) by (apply Z.mod_small; lia).
  rewrite Hmdiv, Hmmod.
  replace (y + 0) with y by lia.
  replace (m - 1 + 1) with m by lia.
  rewrite daysFromCivil_day, Hdays.
  pose proof (Z.div_mod localMin 1440 ltac:(lia)) as Hsplit.
  pose proof (Z.div_mod (localMin mod 1440) 60 ltac:(lia)) as Hsplit'.
  unfold MS_MIN. lia.
Qed.

Variable host : Host.
Variable timeZone : string.
Variable offset : Z.
Hypothesis Hzone : keepsOffset host timeZone offset.
Hypothesis Hoffset : - 1440 <= offset <= 1440.

Lemma getTimeZoneOffsetMs_fixed (utcMs : Z) :
  0 <= utcMs + 10 * 86400000 ->
  getTimeZoneOffsetMs host utcMs timeZone = utcMs mod MS_MIN - offset * MS_MIN.
Proof.
  intros Hrange.
  unfold getTimeZoneOffsetMs, getZonedParts. rewrite Hzone.
  rewrite Date_UTC_fixedOffsetParts.
  - pose proof (Z.div_mod utcMs MS_MIN ltac:(unfold MS_MIN; lia)). lia.
  - assert (- 14400 <= utcMs / MS_MIN)
      by (apply Z.div_le_lower_bound; unfold MS_MIN; lia).
    lia.
Qed.

Lemma Date_UTC_whole_minute (y mIndex d h mi : Z) :
  Date_UTC y mIndex d h mi mod MS_MIN = 0.
Proof.
  unfold Date_UTC. cbv zeta.
  set (days := daysFromCivil _ _ 1 + (d - 1)).
  replace (days * 86400000 + h * 3600000 + mi * MS_MIN)
    with ((days * 1440 + h * 60 + mi) * MS_MIN) by (unfold MS_MIN; lia).
  apply Z.mod_mul. unfold MS_MIN. lia.
Qed.

Lemma getUtcMsFromZoned_fixed (zoned : ZonedParts) :
  let civil :=
    Date_UTC (year zoned) (month zoned - 1) (day zoned) (hour zoned) (minute zoned) in
  0 <= civil + 10 * 86400000 ->
  getUtcMsFromZoned host zoned timeZone = civil - offset * MS_MIN.
Proof.
  intros civil Hrange. unfold getUtcMsFromZoned. fold civil.
  rewrite getTimeZoneOffsetMs_fixed by exact Hrange.
  unfold civil. rewrite Date_UTC_whole_minute. lia.
Qed.

(** The instant of a civil hour and minute of the local day of [utcMs]. *)
Lemma sameDay_fixed (utcMs hour0 minute0 : Z) :
  0 <= utcMs -> 0 <= hour0 -> 0 <= minute0 ->
  getUtcMsFromZoned host
    (mkParts (year (getZonedParts host utcMs timeZone))
       (month (getZonedParts host utcMs timeZone))
       (day (getZonedParts host utcMs timeZone)) hour0 minute0)
    timeZone
  = (utcMs / MS_MIN + offset) / 1440 * 86400000
    + hour0 * 3600000 + minute0 * MS_MIN - offset * MS_MIN.
Proof.
  intros Hpos Hhour Hminute.
  set (localMin := utcMs / MS_MIN + offset).
  set (days := localMin / 1440).
  assert (Hmin : 0 <= utcMs / MS_MIN) by (apply Z.div_pos; unfold MS_MIN; lia).
  assert (Hdays : -1 <= days).
  { unfold days. apply Z.div_le_lower_bound; unfold localMin; lia. }
  assert (Hcivil :
            Date_UTC (year (getZonedParts host utcMs timeZone))
              (month (getZonedParts host utcMs timeZone) - 1)
              (day (getZonedParts host utcMs timeZone)) hour0 minute0
            = days * 86400000 + hour0 * 3600000 + minute0 * MS_MIN).
  { unfold getZonedParts. rewrite Hzone. unfold fixedOffsetParts.
    fold localMin. fold days.
    pose proof (daysFromCivil_civilFromDays days) as Hc.
    destruct (civilFromDays days) as [[y m] d].
    destruct Hc as [Hd [Hm [Hday Hy]]].
    cbn [year month day]. unfold Date_UTC.
    assert (Hera : 1 <= (days + 719468) / 146097)
      by (apply Z.div_le_lower_bound; lia).
    assert (Hyear : (0 <=? y) && (y <=? 99) = false).
    { apply andb_false_iff. right. apply Z.leb_gt. lia. }
    rewrite Hyear.
    assert (Hmdiv : (m - 1) / 12 = 0) by (apply Z.div_small; lia).
    assert (Hmmod : (m - 1) mod 12 = m - 1) by (apply Z.mod_small; lia).
    rewrite Hmdiv, Hmmod.
    replace (y + 0) with y by lia.
    replace (m - 1 + 1) with m by lia.
    now rewrite daysFromCivil_day, Hd. }
  rewrite getUtcMsFromZoned_fixed; cbn [year month day hour minute]; rewrite Hcivil.
  - reflexivity.
  - unfold MS_MIN. lia.
Qed.

(** The civil hour and minute of an instant given by local day and local
    minute of the day. *)
Lemma fixed_hour_minute (days minuteOfDay : Z) :
  0 <= minuteOfDay < 1440 ->
  let p :=
    getZonedParts host (days * 86400000 + minuteOfDay * MS_MIN - offset * MS_MIN)
      timeZone in
  hour p = minuteOfDay / 60 /\ minute p = minuteOfDay mod 60.
Proof.
  intros Hrange. unfold getZonedParts. rewrite Hzone. unfold fixedOffsetParts.
  assert (Hloc : (days * 86400000 + minuteOfDay * MS_MIN - offset * MS_MIN) / MS_MIN
                 + offset
                 = minuteOfDay + days * 1440).
  { replace (days * 86400000 + minuteOfDay * MS_MIN - offset * MS_MIN)
      with ((days * 1440 + minuteOfDay - offset) * MS_MIN) by (unfold MS_MIN; lia).
    rewrite Z.div_mul by (unfold MS_MIN; lia). lia. }
  rewrite Hloc.
  assert (Hmod : (minuteOfDay + days * 1440) mod 1440 = minuteOfDay).
  { rewrite Z.mod_add by lia. apply Z.mod_small. exact Hrange. }
  rewrite Hmod.
  destruct (civilFromDays ((minuteOfDay + days * 1440) / 1440)) as [[y m] d].
  cbn. split; reflexivity.
Qed.

(** X20: in a zone at a fixed offset, reading the civil fields of an instant
    and converting them back gives the instant cut to the whole minute. *)
Theorem getUtcMsFromZoned_getZonedParts (utcMs : Z) :
  0 <= utcMs ->
  getUtcMsFromZoned host (getZonedParts host utcMs timeZone) timeZone
  = utcMs - utcMs mod MS_MIN.
Proof.
  intros Hpos.
  assert (Hmin : 0 <= utcMs / MS_MIN) by (apply Z.div_pos; unfold MS_MIN; lia).
  assert (Hcivil :
            let p := getZonedParts host utcMs timeZone in
            Date_UTC (year p) (month p - 1) (day p) (hour p) (minute p)
            = (utcMs / MS_MIN + offset) * MS_MIN).
  { unfold getZonedParts. rewrite Hzone.
    apply (Date_UTC_fixedOffsetParts (fun _ => offset)). lia. }
  cbv zeta in Hcivil.
  rewrite getUtcMsFromZoned_fixed; rewrite Hcivil.
  - pose proof (Z.div_mod utcMs MS_MIN ltac:(unfold MS_MIN; lia)). lia.
  - unfold MS_MIN in *. lia.
Qed.

End CivilTime.

Section DayStart.

Variable host : Host.
Variable offset : Z.
Hypothesis Hzone : keepsOffset host (resolveTimeZone host) offset.
Hypothesis Hoffset : - 1440 <= offset <= 1440.

(** X21: on a host whose ambient zone keeps a fixed offset, the operational
    day start is the latest 07:00 of the zone that is not after "now": it is
    at most 24 hours back and reads 07:00 in the zone. *)
Theorem getDayStartUtc_latest_seven (now : Z) :
  0 <= now ->
  let start := getDayStartUtc host now in
  start <= now < start + 24 * 60 * MS_MIN
  /\ hour (getZonedParts host start (resolveTimeZone host)) = DAY_START_HOUR
  /\ minute (getZonedParts host start (resolveTimeZone host)) = 0.
Proof.
  intros Hpos.
  set (tz := resolveTimeZone host) in *.
  set (localMin := now / MS_MIN + offset).
  set (days := localMin / 1440).
  pose proof (sameDay_fixed host tz offset Hzone Hoffset now DAY_START_HOUR 0 Hpos
                ltac:(unfold DAY_START_HOUR; lia) ltac:(lia)) as Htoday.
  fold localMin in Htoday. fold days in Htoday.
  assert (Hlocal : days * 1440 <= localMin < days * 1440 + 1440).
  { unfold days. pose proof (Z.div_mod localMin 1440 ltac:(lia)).
    pose proof (Z.mod_pos_bound localMin 1440 ltac:(lia)). lia. }
  assert (Hnow : (localMin - offset) * MS_MIN <= now < (localMin - offset + 1) * MS_MIN).
  { unfold localMin.
    pose proof (Z.div_mod now MS_MIN ltac:(unfold MS_MIN; lia)).
    pose proof (Z.mod_pos_bound now MS_MIN ltac:(unfold MS_MIN; lia)).
    unfold MS_MIN in *. lia. }
  assert (Hparts : forall k,
            let p := getZonedParts host (k * 86400000 + 7 * 3600000 - offset * MS_MIN) tz in
            hour p = 7 /\ minute p = 0).
  { intros k.
    pose proof (fixed_hour_minute host tz offset Hzone k 420 ltac:(lia)) as H.
    cbv zeta in H |- *.
    replace (k * 86400000 + 7 * 3600000 - offset * MS_MIN)
      with (k * 86400000 + 420 * MS_MIN - offset * MS_MIN) by (unfold MS_MIN; lia).
    exact H. }
  intros start. unfold start, getDayStartUtc. fold tz.
  rewrite Htoday. unfold DAY_START_HOUR.
  replace (days * 86400000 + 7 * 3600000 + 0 * MS_MIN - offset * MS_MIN)
    with (days * 86400000 + 7 * 3600000 - offset * MS_MIN) by lia.
  destruct (now <? days * 86400000 + 7 * 3600000 - offset * MS_MIN) eqn:Hcmp.
  - apply Z.ltb_lt in Hcmp.
    replace (days * 86400000 + 7 * 3600000 - offset * MS_MIN - 24 * 60 * 60 * 1000)
      with ((days - 1) * 86400000 + 7 * 3600000 - offset * MS_MIN) by lia.
    split; [unfold MS_MIN in *; lia|].
    apply (Hparts (days - 1)).
  - apply Z.ltb_ge in Hcmp.
    split; [unfold MS_MIN in *; lia|].
    apply (Hparts days).
Qed.

End DayStart.

Section Conversions.

Variable host : Host.

(** X22: the conversion of the component and the conversion of the state
    module agree on every host, zone and civil fields. *)
Theorem zonedToUtc_is_getUtcMsFromZoned (parts : ZonedParts) (timeZone : string) :
  zonedToUtc host parts timeZone = getUtcMsFromZoned host parts timeZone.
Proof.
  unfold zonedToUtc, getUtcMsFromZoned, getTimeZoneOffsetMs. cbv zeta. lia.
Qed.

End Conversions.

Section Projector.

Variable host : Host.
Variable timeZone : string.
Variable config : ConstraintConfig.

Lemma shortenOf_shortNap (state : CoreState) :
  shortenOf config state = shortNap config state.
Proof.
  unfold shortenOf, shortNap, minutesIfTruthy.
  destruct (lastNapDuration state) as [d|]; [|reflexivity].
  destruct (d =? 0); [reflexivity|].
  cbn [negb andb]. unfold Qltb.
  apply eq_true_iff_eq.
  rewrite negb_true_iff, Qle_bool_false, Z.ltb_lt.
  unfold Qle, Qdiv, Qmult, Qinv, inject_Z, MS_MIN. cbn. lia.
Qed.

(** X23: while awake with a known last wake, the next window runs from the
    last wake plus the minimum to the last wake plus the maximum wake
    window; after a short nap both ends come earlier by the configured
    amount, so the width of the window never changes. *)
Theorem computeOutputs_window (state : AppState) (now wake : Z) :
  lastWakeTime state = Some wake ->
  wake <> 0 ->
  currentlyAsleep state = false ->
  let out := computeOutputs host state now timeZone config in
  let shift := if shortNap config state then shortenWakeByMinIfShortNap config else 0 in
  nextWindowStartUtc out = Some (wake + (minWakeWindowMin config - shift) * MS_MIN)
  /\ nextWindowEndUtc out = Some (wake + (maxWakeWindowMin config - shift) * MS_MIN)
  /\ exists s e,
       nextWindowStartUtc out = Some s /\ nextWindowEndUtc out = Some e
       /\ e - s = (maxWakeWindowMin config - minWakeWindowMin config) * MS_MIN.
Proof.
  intros Hwake Hnz Hawake out shift.
  unfold out, computeOutputs. rewrite Hwake, Hawake.
  assert (Htruthy : truthy (Some wake) = true)
    by (cbn; now apply negb_true_iff, Z.eqb_neq).
  rewrite Htruthy.
  cbn [nextWindowStartUtc nextWindowEndUtc].
  unfold minWakeOf, maxWakeOf, addMinutes. rewrite shortenOf_shortNap. fold shift.
  split; [reflexivity|]. split; [reflexivity|].
  eexists. eexists. split; [reflexivity|]. split; [reflexivity|]. lia.
Qed.

(** X24: while awake with a known last wake and a positive maximum wake
    window, the remaining minutes are not negative, the utilization lies
    between 0 and 1, and the window is used up, utilization 1, exactly when
    no minute remains. *)
Theorem computeOutputs_remaining_and_utilization (state : AppState) (now wake : Z) :
  lastWakeTime state = Some wake ->
  wake <> 0 ->
  currentlyAsleep state = false ->
  0 < maxWakeOf config state ->
  let out := computeOutputs host state now timeZone config in
  exists r u,
    wakeWindowRemainingMin out = Some r
    /\ wakeUtilization (pressureIndicator out) = Some (Fin u)
    /\ 0 <= r
    /\ (0 <= u <= 1)%Q
    /\ (r = 0 <-> (u == 1)%Q)
    /\ (r = 0 <-> maxWakeOf config state <= minutesFromMs (now - wake)).
Proof.
  intros Hwake Hnz Hawake Hmax out.
  unfold out, computeOutputs. rewrite Hwake, Hawake.
  assert (Htruthy : truthy (Some wake) = true)
    by (cbn; now apply negb_true_iff, Z.eqb_neq).
  rewrite Htruthy.
  cbn [wakeWindowRemainingMin pressureIndicator wakeUtilization].
  set (awakeMin := minutesFromMs (now - wake)).
  set (maxWake := maxWakeOf config state) in *.
  unfold x_div.
  assert (Hne : (maxWake =? 0) = false) by (apply Z.eqb_neq; lia).
  rewrite Hne. cbn [x_max x_min].
  eexists. eexists. split; [reflexivity|]. split; [reflexivity|].
  set (ratio := (inject_Z awakeMin / inject_Z maxWake)%Q).
  assert (Hratio : forall k : Z, (inject_Z k <= ratio)%Q <-> k * maxWake <= awakeMin).
  { intros k. unfold ratio, Qle, Qdiv, Qmult, Qinv, inject_Z. cbn.
    destruct maxWake as [|p|p] eqn:Hp; try lia. cbn. lia. }
  split; [lia|]. split.
  - split.
    + apply Q.min_glb; [discriminate|apply Q.le_max_l].
    + apply Q.le_min_l.
  - assert (Hone : (Qmin (1 # 1) (Qmax (0 # 1) ratio) == 1)%Q
                   <-> maxWake <= awakeMin).
    { rewrite Q.min_l_iff, Q.max_le_iff. split.
      - intros [H|H]; [unfold Qle in H; cbn in H; lia|].
        apply (Hratio 1) in H. lia.
      - intros H. right. apply (Hratio 1). lia. }
    rewrite Hone. split; lia.
Qed.

(** X25: high stimulation and new novel activities are never allowed: whatever
    the state, the instant, the zone and the configuration, neither label
    is in the allowed window list or among the allowed activities. *)
Theorem computeOutputs_never_allows_high_stimulation
  (state : AppState) (now : Z) (label : string) :
  label = "High stimulation"%string \/ label = "New novel activities"%string ->
  let out := computeOutputs host state now timeZone config in
  ~ In label (allowed (windowCategories out))
  /\ ~ In label (map fst (activityAllowed (activityCategories out))).
Proof.
  intros Hlabel out. unfold out, computeOutputs.
  destruct (lastWakeTime state) as [wake|];
    [destruct (truthy (Some wake))|];
    cbn [windowCategories activityCategories allowed activityAllowed
         uncalibratedOutputs];
    repeat match goal with
           | |- context [if ?b then _ else _] => destruct b
           end;
    destruct Hlabel as [-> | ->]; cbn; split; intuition discriminate.
Qed.

(** X26: an expected wake is reported exactly while asleep.  It is the nap
    start plus the expected nap duration, or plus the smaller of that and
    the late-nap cap, so it is never later than the nap start plus the
    expected nap duration. *)
Theorem computeOutputs_expected_wake (state : AppState) (now : Z) :
  let out := computeOutputs host state now timeZone config in
  (currentlyAsleep state = false -> expectedWakeUtc out = None)
  /\ (forall napStart,
        currentlyAsleep state = true ->
        lastNapStart state = Some napStart ->
        napStart <> 0 ->
        exists w,
          expectedWakeUtc out = Some w
          /\ w <= napStart + expectedNapDurationMin config * MS_MIN
          /\ (w = napStart + expectedNapDurationMin config * MS_MIN
              \/ w = napStart + nextNapCapMinIfLateNap config * MS_MIN)).
Proof.
  intros out.
  assert (Hout : expectedWakeUtc out = expectedWakeOf host config state timeZone).
  { unfold out, computeOutputs.
    destruct (lastWakeTime state) as [wake|]; [destruct (truthy (Some wake))|];
      reflexivity. }
  rewrite Hout. unfold expectedWakeOf. split.
  - intros Hawake. rewrite Hawake.
    now destruct (lastNapStart state).
  - intros napStart Hasleep Hstart Hnz.
    rewrite Hstart, Hasleep.
    assert (Htruthy : truthy (Some napStart) = true)
      by (cbn; now apply negb_true_iff, Z.eqb_neq).
    rewrite Htruthy. cbn [andb].
    eexists. split; [reflexivity|].
    unfold addMinutes.
    destruct (isLateNap host config state timeZone).
    + destruct (Z.min_spec (expectedNapDurationMin config)
                  (nextNapCapMinIfLateNap config)) as [[Hle ->]|[Hle ->]].
      * split; [lia|now left].
      * split; [|now right].
        apply Z.add_le_mono_l, Z.mul_le_mono_nonneg_r; [unfold MS_MIN; lia|exact Hle].
    + split; [lia|now left].
Qed.

End Projector.

Section Routines.

Lemma routineLoop_positive (events : list CareEvent) :
  Forall (fun minutes => 1 <= minutes) (routineLoop events)
  /\ (List.length (routineLoop events)
      <= List.length (filter isRoutineStarted events))%nat.
Proof.
  induction events as [|entry rest [IHpos IHlen]]; [split; [constructor|cbn; lia]|].
  cbn [routineLoop filter].
  change (EventType_eqb (type entry) RoutineStarted) with (isRoutineStarted entry).
  destruct (isRoutineStarted entry).
  - destruct (find _ rest) as [next|].
    + destruct (0 <? Z.max 0 (round_div (time next - time entry) MS_MIN)) eqn:Hpos.
      * apply Z.ltb_lt in Hpos. cbn [app List.length]. split.
        -- constructor; [lia|exact IHpos].
        -- lia.
      * cbn [app List.length]. split; [exact IHpos|lia].
    + cbn [app List.length]. split; [exact IHpos|lia].
  - cbn [app]. split; [exact IHpos|exact IHlen].
Qed.

(** X27: every routine duration is at least one minute, and there are at most
    as many durations as the log has routine starts. *)
Theorem routineDurations_positive (log : list CareEvent) :
  Forall (fun minutes => 1 <= minutes) (routineDurations log)
  /\ (List.length (routineDurations log)
      <= List.length (filter isRoutineStarted log))%nat.
Proof.
  unfold routineDurations.
  destruct (routineLoop_positive (sortByTime (filter parseable log))) as [Hpos Hlen].
  split; [exact Hpos|].
  eapply Nat.le_trans; [exact Hlen|].
  rewrite (Permutation_length
             (Permutation_filter_events isRoutineStarted _ _
                (sortByTime_perm (filter parseable log)))).
  clear. induction log as [|e log IH]; [cbn; lia|].
  cbn [filter]. destruct (parseable e), (isRoutineStarted e) eqn:Hr;
    cbn [filter List.length]; rewrite ?Hr; cbn [List.length]; lia.
Qed.

End Routines.

Section HardStop.

Variable host : Host.
Variable timeZone : string.
Variable offset : Z.
Variable config : ConstraintConfig.
Hypothesis Hzone : keepsOffset host timeZone offset.
Hypothesis Hoffset : - 1440 <= offset <= 1440.

(** X28: in a zone at a fixed offset, while awake with a known last wake, the
    hard stop lies on the local day of "now": it is the local midnight at or
    before "now" plus the bedtime hour and minute, less the routine and
    setup latency, and less the late-nap amount after a late nap. *)
Theorem computeOutputs_hard_stop (state : AppState) (now wake : Z) :
  0 <= now ->
  0 <= bedtimeLatestHour config ->
  0 <= bedtimeLatestMinute config ->
  lastWakeTime state = Some wake ->
  wake <> 0 ->
  currentlyAsleep state = false ->
  let out := computeOutputs host state now timeZone config in
  let pulled :=
    if isLateNap host config state timeZone
    then bedtimeEarlierByMinIfLateNap config else 0 in
  exists midnight,
    midnight <= now < midnight + 24 * 60 * MS_MIN
    /\ hour (getZonedParts host midnight timeZone) = 0
    /\ minute (getZonedParts host midnight timeZone) = 0
    /\ nextHardStopUtc out
       = Some (midnight
               + (bedtimeLatestHour config * 60 + bedtimeLatestMinute config
                  - pulled - routineLatencyMin config - setupLatencyMin config)
                 * MS_MIN).
Proof.
  intros Hpos Hhour Hminute Hwake Hnz Hawake out pulled.
  set (localMin := now / MS_MIN + offset).
  set (days := localMin / 1440).
  exists (days * 86400000 - offset * MS_MIN).
  assert (Hlocal : days * 1440 <= localMin < days * 1440 + 1440).
  { unfold days. pose proof (Z.div_mod localMin 1440 ltac:(lia)).
    pose proof (Z.mod_pos_bound localMin 1440 ltac:(lia)). lia. }
  assert (Hnow : (localMin - offset) * MS_MIN <= now < (localMin - offset + 1) * MS_MIN).
  { unfold localMin.
    pose proof (Z.div_mod now MS_MIN ltac:(unfold MS_MIN; lia)).
    pose proof (Z.mod_pos_bound now MS_MIN ltac:(unfold MS_MIN; lia)).
    unfold MS_MIN in *. lia. }
  split; [unfold MS_MIN in *; lia|].
  pose proof (fixed_hour_minute host timeZone offset Hzone days 0 ltac:(lia)) as Hmid.
  cbv zeta in Hmid.
  replace (days * 86400000 + 0 * MS_MIN - offset * MS_MIN)
    with (days * 86400000 - offset * MS_MIN) in Hmid by lia.
  split; [apply Hmid|]. split; [apply Hmid|].
  unfold out, computeOutputs. rewrite Hwake, Hawake.
  assert (Htruthy : truthy (Some wake) = true)
    by (cbn; now apply negb_true_iff, Z.eqb_neq).
  rewrite Htruthy. cbn [nextHardStopUtc].
  unfold dayBoundUtc.
  rewrite (sameDay_fixed host timeZone offset Hzone Hoffset now _ _ Hpos Hhour Hminute).
  fold localMin. fold days. fold pulled.
  unfold addMinutes, pulled.
  f_equal.
  destruct (isLateNap host config state timeZone); unfold MS_MIN; lia.
Qed.

End HardStop.

Section Calibration.

Variable host : Host.
Variable cfg : ConstraintConfig.

Lemma pop_nonempty {A : Type} (xs : list A) : xs <> [] -> pop xs <> None.
Proof.
  induction xs as [|x xs IH]; [congruence|].
  intros _. cbn [pop]. destruct xs as [|y xs]; [discriminate|].
  apply IH. discriminate.
Qed.

(** X29: a log without a first awake is calibrated by the rebuild: when the
    operational day start is not after "now", the rebuilt state has a last
    wake time, whatever the log and the suppression list. *)
Theorem rebuildFromLog_calibrates
  (log : list CareEvent) (now : Z) (suppressed : list Suppressed.entry) :
  existsb isFirstAwake log = false ->
  getDayStartUtc host now <= now ->
  lastWakeTime (rebuildFromLog host cfg log now suppressed) <> None.
Proof.
  intros Hnone Hday.
  unfold rebuildFromLog. cbn [core].
  destruct (recomputeCoreState_lastCounted now
              (normalizeEventLog host cfg log now suppressed)) as [Hw _].
  cbv zeta in Hw. rewrite Hw.
  unfold lastCounted.
  apply pop_nonempty.
  assert (Hin : In (predictedFirstAwake host now)
                  (filter (fun event => countsAt now event && isWake (type event))
                     (normalizeEventLog host cfg log now suppressed))).
  { apply filter_In. split.
    - apply normalizeEventLog_contains_withFirstAwake.
      rewrite (withFirstAwake_predicted host now log Hnone).
      apply in_or_app. right. now left.
    - unfold countsAt, predictedFirstAwake. cbn.
      apply andb_true_iff. split; [now apply Z.leb_le|reflexivity]. }
  intros Hnil. apply map_eq_nil in Hnil. rewrite Hnil in Hin. destruct Hin.
Qed.

End Calibration.

(** * The theorems at concrete inputs

    A day with a first awake logged at 07:00 and solids given at 13:00, seen
    at 13:40; the configuration defines a feed interval of 120 minutes, and
    the synthesized feed of 09:00 has been deleted. *)

Lemma normalizeEventLog_honours_suppression_witness :
  let log := [logged "a" FirstAwake (after 0); logged "b" SolidsGiven (after 360)] in
  let suppressed := [Suppressed.mk MilkGiven (toISOString (after 120))] in
  let e :=
    mkEvent ("auto-feed-" ++ string_of_Z (after 255)) MilkGiven
      (toISOString (after 255)) true in
  In e (normalizeEventLog utcHost (configWithFeed 120) log (after 400) suppressed)
  /\ ~ In e log
  /\ 20 * MS_MIN < Z.abs (after 255 - after 120).
Proof.
  intros log suppressed e.
  assert (Hout : In e (normalizeEventLog utcHost (configWithFeed 120) log (after 400)
                         suppressed)).
  { vm_compute. repeat (first [left; reflexivity|right]). }
  assert (Hnew : ~ In e log).
  { intros [H|[H|[]]]; discriminate H. }
  split; [exact Hout|]. split; [exact Hnew|].
  apply (normalizeEventLog_honours_suppression utcHost (configWithFeed 120) (after 400)
           suppressed log (Suppressed.mk MilkGiven (toISOString (after 120)))
           (after 120) e (after 255)).
  - now left.
  - reflexivity.
  - reflexivity.
  - exact Hout.
  - exact Hnew.
  - reflexivity.
  - reflexivity.
Defined.


Lemma horizonUtc_latest_real_witness :
  let log := [logged "b" SolidsGiven (after 360); logged "a" FirstAwake (after 0)] in
  let reals := filter isReal (sortByTime log) in
  allParseable log = true
  /\ realEvents utcHost log (after 400) = reals
  /\ (reals = [] -> horizonUtc utcHost log (after 400) = Some (after 400))
  /\ (reals <> [] ->
      exists h,
        horizonUtc utcHost log (after 400) = Some h
        /\ In h (map time (sliceLast 3 reals))
        /\ (forall e, In e (sliceLast 3 reals) -> time e <= h)
        /\ (forall e, In e log -> isReal e = true -> time e <= h)).
Proof.
  intros log reals.
  split; [reflexivity|].
  apply (horizonUtc_latest_real utcHost log (after 400)).
  reflexivity.
Defined.

Lemma computeOutputs_while_asleep_witness :
  let events := [logged "a" FirstAwake (after 0); logged "b" NapStarted (after 90)] in
  let state := mkApp (recomputeCoreState events (after 120)) events [] in
  let out := computeOutputs utcHost state (after 120) "UTC" defaultConfig in
  currentlyAsleep state = true
  /\ nextWindow out = None /\ nextHardStop out = None
  /\ wakeWindowRemainingMin out = None
  /\ activityCategories out = mkActivity [] []
  /\ windowCategories out = mkCategories [] [].
Proof.
  intros events state out.
  assert (Hasleep : currentlyAsleep state = true) by reflexivity.
  destruct (computeOutputs_while_asleep utcHost state (after 120) "UTC" defaultConfig
              Hasleep)
    as [_ [Hwindow [Hstop [_ [_ [_ [Hremaining [_ Hknown]]]]]]]].
  destruct (Hknown (after 0) eq_refl ltac:(discriminate)) as [_ Hlists].
  destruct (Hlists ltac:(vm_compute; discriminate)) as [Hactivity Hwindows].
  repeat split; assumption.
Defined.

Lemma normalizeEventLog_function_of_inputs_and_zone_witness :
  let unnamed := fixedOffsetHost "" zoneOffsets in
  resolveTimeZone utcHost = resolveTimeZone unnamed
  /\ normalizeEventLog utcHost defaultConfig [] (after 180) []
     = normalizeEventLog unnamed defaultConfig [] (after 180) [].
Proof.
  intros unnamed.
  split; [reflexivity|].
  destruct (normalizeEventLog_function_of_inputs_and_zone utcHost unnamed defaultConfig
              [] (after 180) []) as [Hzone _].
  apply Hzone.
  - reflexivity.
  - intros t. reflexivity.
Defined.

(** ** More of the code, at concrete inputs

    The same day in UTC and in Tokyo: a first awake logged at 07:00, then
    feeds and naps by the minute after it. *)

Lemma normalizeEventLog_real_first_awake_wins_witness :
  let log := [logged "a" FirstAwake (after 0); logged "b" SolidsGiven (after 360)] in
  let e := logged "a" FirstAwake (after 0) in
  existsb isRealFirstAwake log = true
  /\ In e (normalizeEventLog utcHost (configWithFeed 120) log (after 400) [])
  /\ autoPredicted e = false.
Proof.
  intros log e.
  assert (Hin : In e (normalizeEventLog utcHost (configWithFeed 120) log (after 400) []))
    by (vm_compute; left; reflexivity).
  split; [reflexivity|]. split; [exact Hin|].
  apply (normalizeEventLog_real_first_awake_wins utcHost (configWithFeed 120)
           (after 400) [] log e).
  - reflexivity.
  - exact Hin.
  - reflexivity.
Defined.

Lemma normalizeEventLog_ascending_witness :
  let log := [logged "b" SolidsGiven (after 360); logged "a" FirstAwake (after 0)] in
  let out := normalizeEventLog utcHost (configWithFeed 120) log (after 400) [] in
  allParseable log = true /\ ascending out /\ allParseable out = true.
Proof.
  intros log out.
  split; [reflexivity|].
  apply (normalizeEventLog_ascending utcHost (configWithFeed 120) (after 400) [] log).
  reflexivity.
Defined.

Lemma normalizeEventLog_adds_no_duplicate_witness :
  let log :=
    [logged "a" FirstAwake (after 0); logged "m" MilkGiven (after 100);
     logged "s" NapStarted (after 200)] in
  let e :=
    mkEvent ("auto-nap-start-" ++ string_of_Z (after 75)) NapStarted
      (toISOString (after 75)) true in
  In e (normalizeEventLog utcHost (configWithFeed 120) log (after 400) [])
  /\ ~ In e log
  /\ BASELINE_TOLERANCE_MIN * MS_MIN < Z.abs (after 200 - after 75).
Proof.
  intros log e.
  assert (Hout : In e (normalizeEventLog utcHost (configWithFeed 120) log (after 400) [])).
  { vm_compute. repeat (first [left; reflexivity|right]). }
  assert (Hnew : ~ In e log).
  { intros [H|[H|[H|[]]]]; discriminate H. }
  split; [exact Hout|]. split; [exact Hnew|].
  apply (normalizeEventLog_adds_no_duplicate utcHost (configWithFeed 120) (after 400) []
           log e (logged "s" NapStarted (after 200)) (after 75) (after 200)).
  - exact Hout.
  - exact Hnew.
  - reflexivity.
  - right. right. now left.
  - reflexivity.
  - reflexivity.
  - reflexivity.
Defined.

Lemma normalizeEventLog_within_horizon_witness :
  let log := [logged "a" FirstAwake (after 0); logged "b" SolidsGiven (after 360)] in
  let e :=
    mkEvent ("auto-feed-" ++ string_of_Z (after 255)) MilkGiven
      (toISOString (after 255)) true in
  In e (normalizeEventLog utcHost (configWithFeed 120) log (after 400) [])
  /\ ~ In e log
  /\ exists t h,
       Date_parse (timestampUtc e) = Some t
       /\ horizonUtc utcHost log (after 400) = Some h
       /\ t <= h.
Proof.
  intros log e.
  assert (Hout : In e (normalizeEventLog utcHost (configWithFeed 120) log (after 400) [])).
  { vm_compute. repeat (first [left; reflexivity|right]). }
  assert (Hnew : ~ In e log).
  { intros [H|[H|[]]]; discriminate H. }
  split; [exact Hout|]. split; [exact Hnew|].
  apply (normalizeEventLog_within_horizon utcHost (configWithFeed 120) (after 400) []
           log e).
  - exact Hout.
  - exact Hnew.
  - reflexivity.
Defined.

Lemma normalizeEventLog_suppression_not_retroactive_witness :
  let log := [logged "a" FirstAwake (after 0); logged "b" SolidsGiven (after 360)] in
  let extra := [Suppressed.mk MilkGiven (toISOString (after 120))] in
  allParseable log = true
  /\ normalizeEventLog utcHost (configWithFeed 120)
       (normalizeEventLog utcHost (configWithFeed 120) log (after 400) [])
       (after 400) ([] ++ extra)
     = normalizeEventLog utcHost (configWithFeed 120) log (after 400) [].
Proof.
  intros log extra.
  split; [reflexivity|].
  apply (normalizeEventLog_suppression_not_retroactive utcHost (configWithFeed 120)
           (after 400) log [] extra).
  reflexivity.
Defined.

Lemma deleteEvent_stays_deleted_witness :
  let target := mkEvent "auto-feed-x" MilkGiven (toISOString (after 120)) true in
  let e := logged "m" MilkGiven (after 130) in
  let log := [logged "a" FirstAwake (after 0); target; e] in
  let prev := mkApp (recomputeCoreState log (after 400)) log [] in
  In e (eventLog (deleteEvent utcHost (configWithFeed 120) prev "auto-feed-x" (after 400)))
  /\ Z.abs (after 130 - after 120) <= BASELINE_TOLERANCE_MIN * MS_MIN
  /\ In e (eventLog prev) /\ hasId "auto-feed-x" e = false.
Proof.
  intros target e log prev.
  assert (Hin : In e (eventLog (deleteEvent utcHost (configWithFeed 120) prev
                                  "auto-feed-x" (after 400)))).
  { vm_compute. repeat (first [left; reflexivity|right]). }
  split; [exact Hin|]. split; [vm_compute; discriminate|].
  apply (deleteEvent_stays_deleted utcHost (configWithFeed 120) (after 400) prev
           "auto-feed-x" target e (after 120) (after 130)).
  - reflexivity.
  - reflexivity.
  - reflexivity.
  - reflexivity.
  - exact Hin.
  - reflexivity.
  - reflexivity.
  - vm_compute. discriminate.
Defined.

Lemma commitEdit_keeps_edited_witness :
  let e := mkEvent "auto-feed-x" MilkGiven (toISOString (after 120)) true in
  let log := [logged "a" FirstAwake (after 0); e] in
  let prev := mkApp (recomputeCoreState log (after 400)) log [] in
  let next := commitEdit utcHost (configWithFeed 120) prev "auto-feed-x" (after 150)
                (after 400) in
  In (mkEvent "auto-feed-x" MilkGiven (toISOString (after 150)) false) (eventLog next)
  /\ exists target,
       find (hasId "auto-feed-x") (eventLog prev) = Some target
       /\ autoSuppressed next
          = if autoPredicted target
            then autoSuppressed prev
                 ++ [Suppressed.mk (type target) (timestampUtc target)]
            else autoSuppressed prev.
Proof.
  intros e log prev next.
  apply (commitEdit_keeps_edited utcHost (configWithFeed 120) (after 400) prev
           "auto-feed-x" (after 150) e).
  - right. now left.
  - reflexivity.
Defined.

Lemma estimatedSleepPressure_monotone_witness :
  let events := [logged "a" FirstAwake (after 0); logged "s" NapStarted (after 30);
                 logged "e" NapEnded (after 50)] in
  let st1 := recomputeCoreState events (after 60) in
  let st2 := recomputeCoreState events (after 90) in
  after 60 <= after 90
  /\ lastWakeTime st1 = lastWakeTime st2
  /\ lastNapDuration st1 = lastNapDuration st2
  /\ totalDaySleep st1 = totalDaySleep st2
  /\ (estimatedSleepPressure st1 <= estimatedSleepPressure st2)%Q.
Proof.
  intros events st1 st2.
  split; [vm_compute; discriminate|].
  apply (estimatedSleepPressure_monotone events (after 60) (after 90)).
  - vm_compute. discriminate.
  - intros e [<-|[<-|[<-|[]]]]; reflexivity.
Defined.

Lemma awake_150_minutes_is_high_witness :
  let events := [logged "a" FirstAwake (after 0)] in
  let st := recomputeCoreState events (after 200) in
  lastWakeTime st = Some (after 0)
  /\ (estimatedSleepPressure st == 1)%Q /\ regulationLevel st = high.
Proof.
  intros events st.
  split; [reflexivity|].
  apply (awake_150_minutes_is_high (after 200) events (after 0)).
  - reflexivity.
  - vm_compute. discriminate.
  - vm_compute. discriminate.
Defined.

Lemma getUtcMsFromZoned_getZonedParts_witness :
  keepsOffset tokyoHost "Asia/Tokyo" 540
  /\ getUtcMsFromZoned tokyoHost
       (getZonedParts tokyoHost (after 100 + 1234) "Asia/Tokyo") "Asia/Tokyo"
     = after 100 + 1234 - (after 100 + 1234) mod MS_MIN.
Proof.
  assert (Hzone : keepsOffset tokyoHost "Asia/Tokyo" 540) by (intros t; reflexivity).
  split; [exact Hzone|].
  apply (getUtcMsFromZoned_getZonedParts tokyoHost "Asia/Tokyo" 540 Hzone).
  - lia.
  - vm_compute. discriminate.
Defined.

Lemma getDayStartUtc_latest_seven_witness :
  let start := getDayStartUtc tokyoHost (after 100) in
  keepsOffset tokyoHost (resolveTimeZone tokyoHost) 540
  /\ start <= after 100 < start + 24 * 60 * MS_MIN
  /\ hour (getZonedParts tokyoHost start (resolveTimeZone tokyoHost)) = DAY_START_HOUR
  /\ minute (getZonedParts tokyoHost start (resolveTimeZone tokyoHost)) = 0.
Proof.
  intros start.
  assert (Hzone : keepsOffset tokyoHost (resolveTimeZone tokyoHost) 540)
    by (intros t; reflexivity).
  split; [exact Hzone|].
  apply (getDayStartUtc_latest_seven tokyoHost 540 Hzone).
  - lia.
  - vm_compute. discriminate.
Defined.

Lemma computeOutputs_window_witness :
  let events := [logged "a" FirstAwake (after 0); logged "s" NapStarted (after 90);
                 logged "e" NapEnded (after 120)] in
  let state := mkApp (recomputeCoreState events (after 130)) events [] in
  let out := computeOutputs utcHost state (after 130) "UTC" defaultConfig in
  let shift :=
    if shortNap defaultConfig state then shortenWakeByMinIfShortNap defaultConfig
    else 0 in
  shortNap defaultConfig state = true
  /\ nextWindowStartUtc out
     = Some (after 120 + (minWakeWindowMin defaultConfig - shift) * MS_MIN)
  /\ nextWindowEndUtc out
     = Some (after 120 + (maxWakeWindowMin defaultConfig - shift) * MS_MIN)
  /\ exists s e,
       nextWindowStartUtc out = Some s /\ nextWindowEndUtc out = Some e
       /\ e - s
          = (maxWakeWindowMin defaultConfig - minWakeWindowMin defaultConfig) * MS_MIN.
Proof.
  intros events state out shift.
  split; [reflexivity|].
  apply (computeOutputs_window utcHost "UTC" defaultConfig state (after 130) (after 120)).
  - reflexivity.
  - vm_compute. discriminate.
  - reflexivity.
Defined.

Lemma computeOutputs_remaining_and_utilization_witness :
  let events := [logged "a" FirstAwake (after 0)] in
  let state := mkApp (recomputeCoreState events (after 60)) events [] in
  let out := computeOutputs utcHost state (after 60) "UTC" defaultConfig in
  0 < maxWakeOf defaultConfig state
  /\ exists r u,
       wakeWindowRemainingMin out = Some r
       /\ wakeUtilization (pressureIndicator out) = Some (Fin u)
       /\ 0 <= r
       /\ (0 <= u <= 1)%Q
       /\ (r = 0 <-> (u == 1)%Q)
       /\ (r = 0 <-> maxWakeOf defaultConfig state <= minutesFromMs (after 60 - after 0)).
Proof.
  intros events state out.
  split; [reflexivity|].
  apply (computeOutputs_remaining_and_utilization utcHost "UTC" defaultConfig state
           (after 60) (after 0)).
  - reflexivity.
  - vm_compute. discriminate.
  - reflexivity.
  - reflexivity.
Defined.

Lemma computeOutputs_never_allows_high_stimulation_witness :
  let events := [logged "a" FirstAwake (after 0)] in
  let state := mkApp (recomputeCoreState events (after 10)) events [] in
  let out := computeOutputs utcHost state (after 10) "UTC" defaultConfig in
  ~ In "High stimulation"%string (allowed (windowCategories out))
  /\ ~ In "High stimulation"%string (map fst (activityAllowed (activityCategories out))).
Proof.
  intros events state out.
  apply (computeOutputs_never_allows_high_stimulation utcHost "UTC" defaultConfig state
           (after 10) "High stimulation").
  now left.
Defined.

Lemma computeOutputs_hard_stop_witness :
  let events := [logged "a" FirstAwake (after 0)] in
  let state := mkApp (recomputeCoreState events (after 60)) events [] in
  let out := computeOutputs tokyoHost state (after 60) "Asia/Tokyo" defaultConfig in
  let pulled :=
    if isLateNap tokyoHost defaultConfig state "Asia/Tokyo"
    then bedtimeEarlierByMinIfLateNap defaultConfig else 0 in
  keepsOffset tokyoHost "Asia/Tokyo" 540
  /\ exists midnight,
       midnight <= after 60 < midnight + 24 * 60 * MS_MIN
       /\ hour (getZonedParts tokyoHost midnight "Asia/Tokyo") = 0
       /\ minute (getZonedParts tokyoHost midnight "Asia/Tokyo") = 0
       /\ nextHardStopUtc out
          = Some (midnight
                  + (bedtimeLatestHour defaultConfig * 60
                     + bedtimeLatestMinute defaultConfig
                     - pulled - routineLatencyMin defaultConfig
                     - setupLatencyMin defaultConfig)
                    * MS_MIN).
Proof.
  intros events state out pulled.
  assert (Hzone : keepsOffset tokyoHost "Asia/Tokyo" 540) by (intros t; reflexivity).
  split; [exact Hzone|].
  apply (computeOutputs_hard_stop tokyoHost "Asia/Tokyo" 540 defaultConfig Hzone
           ltac:(lia) state (after 60) (after 0)).
  - vm_compute. discriminate.
  - vm_compute. discriminate.
  - vm_compute. discriminate.
  - reflexivity.
  - vm_compute. discriminate.
  - reflexivity.
Defined.

Lemma rebuildFromLog_calibrates_witness :
  let log := [logged "m" MilkGiven (after 100)] in
  existsb isFirstAwake log = false
  /\ getDayStartUtc utcHost (after 400) <= after 400
  /\ lastWakeTime (rebuildFromLog utcHost defaultConfig log (after 400) []) <> None.
Proof.
  intros log.
  assert (Hday : getDayStartUtc utcHost (after 400) <= after 400)
    by (vm_compute; discriminate).
  split; [reflexivity|]. split; [exact Hday|].
  apply (rebuildFromLog_calibrates utcHost defaultConfig log (after 400) []).
  - reflexivity.
  - exact Hday.
Defined.

Lemma tick_idempotent_witness :
  let log := [logged "a" FirstAwake (after 0); logged "b" SolidsGiven (after 360)] in
  let prev :=
    mkApp initialCoreState log [Suppressed.mk MilkGiven (toISOString (after 120))] in
  tick utcHost (configWithFeed 120) (tick utcHost (configWithFeed 120) prev (after 400))
    (after 400)
  = tick utcHost (configWithFeed 120) prev (after 400)
  /\ autoSuppressed (tick utcHost (configWithFeed 120) prev (after 400)) = [].
Proof.
  intros log prev.
  apply (tick_idempotent utcHost (configWithFeed 120) (after 400) prev).
  reflexivity.
Defined.

